(** * Sigma-6 polyphonic synthesizer: voice-module firmware

    A shallow embedding of the voice firmware (main sketch
    [Sigma_6_Poly_voice.ino], the engine [m0_synth_engine.ino] and the
    header [m0_synth_def.h]) and the properties of its fixed-point kernel,
    envelope generator, MIDI parser and oscillator bank.

    Conventions.  Every C integer is a [Z] together with the wrap-around of
    its type written out ([to_int32], [to_uint16], ...).  The target is a
    32-bit ARM Cortex-M0: [int] and [long] are 32 bits wide, [short] 16,
    [>>] on a signed operand is the arithmetic shift ([Z.shiftr]), and [/]
    truncates toward zero ([Z.quot]).  [float] is IEEE binary32, modelled
    with [SpecFloat] at precision 24.  An operation the C standard leaves
    undefined (a division by zero, a table index out of bounds) makes the
    function return [None]. *)

From Stdlib Require Import ZArith QArith List Bool String Lia.
From Stdlib Require Import Floats.SpecFloat.
From stdpp Require Import base option list.

Import ListNotations.
Local Open Scope Z_scope.

(** ** Machine integers *)

Definition to_uint8 (z : Z) : Z := z mod 2^8.
Definition to_uint16 (z : Z) : Z := z mod 2^16.
Definition to_uint32 (z : Z) : Z := z mod 2^32.
Definition to_int16 (z : Z) : Z := (z + 2^15) mod 2^16 - 2^15.
Definition to_int32 (z : Z) : Z := (z + 2^31) mod 2^32 - 2^31.

(** C truth value of an integer used as a condition. *)
Definition c_true (z : Z) : bool := negb (z =? 0).

(** Signed division; [None] stands for the undefined division by zero. *)
Definition c_div (a b : Z) : option Z :=
  if b =? 0 then None else Some (to_int32 (Z.quot a b)).

(** Array read [t[i]]; [None] outside the array. *)
Definition c_index {A} (t : list A) (i : Z) : option A :=
  if i <? 0 then None else t !! Z.to_nat i.

(** ** Constants of [m0_synth_def.h] *)

Definition WAVE_TABLE_SIZE : Z := 2048.
Definition SAMPLE_RATE_HZ : Z := 32000.
Definition MAX_OSC_FREQ_HZ : Z := 12000.

Definition REVERB_DELAY_MAX_SIZE : Z := 2000.
Definition REVERB_ATTENUATION_PC : Z := 70.

Definition AUDIO_CTRL_BY_PATCH : Z := 0.
Definition AUDIO_CTRL_CONST : Z := 1.
Definition AUDIO_CTRL_ENV1_VELO : Z := 2.
Definition AUDIO_CTRL_EXPRESS : Z := 3.

Definition VIBRATO_DISABLED : Z := 0.
Definition VIBRATO_BY_MODN_CC : Z := 1.
Definition VIBRATO_BY_CV_AUXIN : Z := 2.
Definition VIBRATO_AUTOMATIC : Z := 3.

Definition PITCH_BEND_DISABLED : Z := 0.
Definition PITCH_BEND_BY_MIDI_MSG : Z := 1.

Definition OSC_MODN_SOURCE_NONE : Z := 0.
Definition OSC_MODN_SOURCE_CONT_POS : Z := 1.
Definition OSC_MODN_SOURCE_CONT_NEG : Z := 2.
Definition OSC_MODN_SOURCE_ENV2 : Z := 3.
Definition OSC_MODN_SOURCE_MODN : Z := 4.
Definition OSC_MODN_SOURCE_EXPR_POS : Z := 5.
Definition OSC_MODN_SOURCE_EXPR_NEG : Z := 6.
Definition OSC_MODN_SOURCE_LFO : Z := 7.
Definition OSC_MODN_SOURCE_VELO_POS : Z := 8.
Definition OSC_MODN_SOURCE_VELO_NEG : Z := 9.

Definition OMNI_ON_POLY : Z := 1.
Definition OMNI_ON_MONO : Z := 2.
Definition OMNI_OFF_POLY : Z := 3.
Definition OMNI_OFF_MONO : Z := 4.

Definition NOTE_OFF_CMD : Z := 0x80.
Definition NOTE_ON_CMD : Z := 0x90.
Definition POLY_KEY_PRESS_CMD : Z := 0xA0.
Definition CONTROL_CHANGE_CMD : Z := 0xB0.
Definition PROGRAM_CHANGE_CMD : Z := 0xC0.
Definition CHAN_PRESSURE_CMD : Z := 0xD0.
Definition PITCH_BEND_CMD : Z := 0xE0.
Definition SYS_EXCLUSIVE_MSG : Z := 0xF0.
Definition SYSTEM_MSG_EOX : Z := 0xF7.
Definition SYS_EXCL_REMI_ID : Z := 0x73.
Definition MIDI_MSG_MAX_LENGTH : Z := 16.

(** [enum Envelope_Gen_Phases] *)
Inductive Envelope_Gen_Phases : Set :=
  | ENV_IDLE
  | ENV_ATTACK
  | ENV_PEAK_HOLD
  | ENV_DECAY
  | ENV_SUSTAIN
  | ENV_RELEASE.

(** ** Fixed-point kernel: the 12:20 macros of [m0_synth_engine] *)

Definition IntToFixedPt (i : Z) : Z := to_int32 (Z.shiftl i 20).
Definition IntegerPart (z : Z) : Z := Z.shiftr z 20.
Definition FractionPart (z n : Z) : Z := Z.shiftr (Z.land z 0xFFFFF) (20 - n).
Definition MultiplyFixed (v w : Z) : Z := to_int32 (Z.shiftr (v * w) 20).

Definition FIXED_MIN_LEVEL : Z := 1.
Definition FIXED_MAX_LEVEL : Z := IntToFixedPt 1 - 1.
Definition FIXED_PT_HALF : Z := Z.quot (IntToFixedPt 1) 2.
Definition MAX_CLIPPING_LEVEL : Z := Z.quot (IntToFixedPt 1 * 97) 100.


(** ** Floating point

    [float] is IEEE binary32 and [double] binary64, both with rounding to
    nearest even; [SpecFloat] gives the operations at any precision.  A
    literal without suffix is a [double] constant, so a [float] table entry
    is the decimal rounded to binary64 and then to binary32. *)

Definition f32_mul : spec_float -> spec_float -> spec_float := SFmul 24 128.
Definition f32_div : spec_float -> spec_float -> spec_float := SFdiv 24 128.
Definition f64_mul : spec_float -> spec_float -> spec_float := SFmul 53 1024.
Definition f64_div : spec_float -> spec_float -> spec_float := SFdiv 53 1024.

(** Conversion of an integer. *)
Definition f32_of_Z (z : Z) : spec_float := binary_normalize 24 128 z 0 false.
Definition f64_of_Z (z : Z) : spec_float := binary_normalize 53 1024 z 0 false.

(** Conversions between the two formats. *)
Definition f32_of_f64 (x : spec_float) : spec_float :=
  match x with
  | S754_finite s m e => binary_normalize 24 128 (cond_Zopp s (Zpos m)) e s
  | _ => x
  end.

Definition f64_of_f32 (x : spec_float) : spec_float :=
  match x with
  | S754_finite s m e => binary_normalize 53 1024 (cond_Zopp s (Zpos m)) e s
  | _ => x
  end.

(** A decimal constant: numerator and denominator of the decimal are exact
    in either format, so one division rounds the constant correctly. *)
Definition f64_lit (q : Q) : spec_float :=
  f64_div (f64_of_Z (Qnum q)) (f64_of_Z (Zpos (Qden q))).
Definition f32_lit (q : Q) : spec_float :=
  f32_div (f32_of_Z (Qnum q)) (f32_of_Z (Zpos (Qden q))).

(** [a > b] on floats. *)
Definition f32_gtb (a b : spec_float) : bool := SFltb b a.

(** [(long) x]: truncation toward zero, undefined outside the range of [long]. *)
Definition float_to_long (x : spec_float) : option Z :=
  match x with
  | S754_zero _ => Some 0
  | S754_finite s m e =>
      let a := if 0 <=? e then Zpos m * 2 ^ e else Zpos m / 2 ^ (- e) in
      let v := cond_Zopp s a in
      if (- 2^31 <=? v) && (v <? 2^31) then Some v else None
  | _ => None
  end.

(** The value of [powf(0.001f, 0.04 / 1.5)], 0.8317638, as a function: a
    stand-in for the library function at the one point where the firmware
    calls it, for the instances at the end. *)
Definition powf_at_reverb (x y : spec_float) : spec_float := f32_lit 0.8317638%Q.

Definition REVERB_LOOP_TIME_SEC : Q := 0.04%Q.
Definition REVERB_DECAY_TIME_SEC : Q := 1.5%Q.

(** ** Tables of the engine *)

(** Frequencies of the notes of the chromatic scale, C0 (MIDI note 12) to
    C9 (120); the table index is the note number minus 12, range 0..108. *)
Definition g_NoteFrequency : list Q :=
  [
    16.3516; 17.3239; 18.3540; 19.4455; 20.6017; 21.8268; 23.1247; 24.4997;
    25.9566; 27.5000; 29.1353; 30.8677; 32.7032; 34.6478; 36.7081; 38.8909;
    41.2034; 43.6535; 46.2493; 48.9994; 51.9131; 55.0000; 58.2705; 61.7354;
    65.4064; 69.2957; 73.4162; 77.7817; 82.4069; 87.3071; 92.4986; 97.9989;
    103.826; 110.000; 116.541; 123.471; 130.813; 138.591; 146.832; 155.563;
    164.814; 174.614; 184.997; 195.998; 207.652; 220.000; 233.082; 246.942;
    261.626; 277.183; 293.665; 311.127; 329.628; 349.228; 369.994; 391.995;
    415.305; 440.000; 466.164; 493.883; 523.251; 554.365; 587.330; 622.254;
    659.255; 698.456; 739.989; 783.991; 830.609; 880.000; 932.328; 987.767;
    1046.50; 1108.73; 1174.66; 1244.51; 1318.51; 1396.91; 1479.98; 1567.98;
    1661.22; 1760.00; 1864.66; 1975.53; 2093.00; 2217.46; 2349.32; 2489.02;
    2637.02; 2793.83; 2959.96; 3135.96; 3322.44; 3520.00; 3729.31; 3951.07;
    4186.01; 4434.92; 4698.64; 4978.04; 5274.04; 5587.66; 5919.92; 6271.92;
    6644.88; 7040.00; 7458.62; 7902.14; 8372.02
  ]%Q.

(** The 12 values of the oscillator frequency multiplier. *)
Definition g_FreqMultConst : list Q :=
  [ 0.5; 1.0; 1.333333; 1.5; 2.0; 3.0; 4.0; 5.0; 6.0; 7.0; 8.0; 9.0 ]%Q.

(** Audio amplitude levels: 0 and 16 levels on a 3 dB log scale. *)
Definition g_AmpldLevelLogScale_x1000 : list Z :=
  [ 0; 5; 8; 11; 16; 22; 31; 44; 63; 88; 125; 177; 250; 353; 500; 707; 1000 ].

Definition g_base2exp : list Z :=
  [
    0x2000; 0x200B; 0x2016; 0x2021; 0x202C; 0x2037; 0x2042; 0x204E;
    0x2059; 0x2064; 0x206F; 0x207A; 0x2086; 0x2091; 0x209C; 0x20A8;
    0x20B3; 0x20BE; 0x20CA; 0x20D5; 0x20E0; 0x20EC; 0x20F7; 0x2103;
    0x210E; 0x211A; 0x2125; 0x2130; 0x213C; 0x2148; 0x2153; 0x215F;
    0x216A; 0x2176; 0x2181; 0x218D; 0x2199; 0x21A4; 0x21B0; 0x21BC;
    0x21C7; 0x21D3; 0x21DF; 0x21EB; 0x21F6; 0x2202; 0x220E; 0x221A;
    0x2226; 0x2231; 0x223D; 0x2249; 0x2255; 0x2261; 0x226D; 0x2279;
    0x2285; 0x2291; 0x229D; 0x22A9; 0x22B5; 0x22C1; 0x22CD; 0x22D9;
    0x22E5; 0x22F1; 0x22FD; 0x2309; 0x2315; 0x2322; 0x232E; 0x233A;
    0x2346; 0x2352; 0x235F; 0x236B; 0x2377; 0x2384; 0x2390; 0x239C;
    0x23A9; 0x23B5; 0x23C1; 0x23CE; 0x23DA; 0x23E7; 0x23F3; 0x23FF;
    0x240C; 0x2418; 0x2425; 0x2432; 0x243E; 0x244B; 0x2457; 0x2464;
    0x2470; 0x247D; 0x248A; 0x2496; 0x24A3; 0x24B0; 0x24BD; 0x24C9;
    0x24D6; 0x24E3; 0x24F0; 0x24FC; 0x2509; 0x2516; 0x2523; 0x2530;
    0x253D; 0x254A; 0x2557; 0x2564; 0x2570; 0x257D; 0x258A; 0x2598;
    0x25A5; 0x25B2; 0x25BF; 0x25CC; 0x25D9; 0x25E6; 0x25F3; 0x2600;
    0x260D; 0x261B; 0x2628; 0x2635; 0x2642; 0x2650; 0x265D; 0x266A;
    0x2678; 0x2685; 0x2692; 0x26A0; 0x26AD; 0x26BA; 0x26C8; 0x26D5;
    0x26E3; 0x26F0; 0x26FE; 0x270B; 0x2719; 0x2726; 0x2734; 0x2742;
    0x274F; 0x275D; 0x276A; 0x2778; 0x2786; 0x2794; 0x27A1; 0x27AF;
    0x27BD; 0x27CB; 0x27D8; 0x27E6; 0x27F4; 0x2802; 0x2810; 0x281E;
    0x282C; 0x283A; 0x2847; 0x2855; 0x2863; 0x2871; 0x287F; 0x288E;
    0x289C; 0x28AA; 0x28B8; 0x28C6; 0x28D4; 0x28E2; 0x28F0; 0x28FF;
    0x290D; 0x291B; 0x2929; 0x2938; 0x2946; 0x2954; 0x2962; 0x2971;
    0x297F; 0x298E; 0x299C; 0x29AA; 0x29B9; 0x29C7; 0x29D6; 0x29E4;
    0x29F3; 0x2A01; 0x2A10; 0x2A1F; 0x2A2D; 0x2A3C; 0x2A4A; 0x2A59;
    0x2A68; 0x2A77; 0x2A85; 0x2A94; 0x2AA3; 0x2AB2; 0x2AC0; 0x2ACF;
    0x2ADE; 0x2AED; 0x2AFC; 0x2B0B; 0x2B1A; 0x2B29; 0x2B38; 0x2B47;
    0x2B56; 0x2B65; 0x2B74; 0x2B83; 0x2B92; 0x2BA1; 0x2BB0; 0x2BBF;
    0x2BCE; 0x2BDE; 0x2BED; 0x2BFC; 0x2C0B; 0x2C1B; 0x2C2A; 0x2C39;
    0x2C48; 0x2C58; 0x2C67; 0x2C77; 0x2C86; 0x2C95; 0x2CA5; 0x2CB4;
    0x2CC4; 0x2CD3; 0x2CE3; 0x2CF3; 0x2D02; 0x2D12; 0x2D21; 0x2D31;
    0x2D41; 0x2D50; 0x2D60; 0x2D70; 0x2D80; 0x2D8F; 0x2D9F; 0x2DAF;
    0x2DBF; 0x2DCF; 0x2DDF; 0x2DEF; 0x2DFE; 0x2E0E; 0x2E1E; 0x2E2E;
    0x2E3E; 0x2E4E; 0x2E5F; 0x2E6F; 0x2E7F; 0x2E8F; 0x2E9F; 0x2EAF;
    0x2EBF; 0x2ED0; 0x2EE0; 0x2EF0; 0x2F00; 0x2F11; 0x2F21; 0x2F31;
    0x2F42; 0x2F52; 0x2F62; 0x2F73; 0x2F83; 0x2F94; 0x2FA4; 0x2FB5;
    0x2FC5; 0x2FD6; 0x2FE7; 0x2FF7; 0x3008; 0x3018; 0x3029; 0x303A;
    0x304B; 0x305B; 0x306C; 0x307D; 0x308E; 0x309F; 0x30AF; 0x30C0;
    0x30D1; 0x30E2; 0x30F3; 0x3104; 0x3115; 0x3126; 0x3137; 0x3148;
    0x3159; 0x316A; 0x317C; 0x318D; 0x319E; 0x31AF; 0x31C0; 0x31D2;
    0x31E3; 0x31F4; 0x3205; 0x3217; 0x3228; 0x323A; 0x324B; 0x325C;
    0x326E; 0x327F; 0x3291; 0x32A2; 0x32B4; 0x32C6; 0x32D7; 0x32E9;
    0x32FB; 0x330C; 0x331E; 0x3330; 0x3341; 0x3353; 0x3365; 0x3377;
    0x3389; 0x339B; 0x33AC; 0x33BE; 0x33D0; 0x33E2; 0x33F4; 0x3406;
    0x3418; 0x342A; 0x343C; 0x344F; 0x3461; 0x3473; 0x3485; 0x3497;
    0x34AA; 0x34BC; 0x34CE; 0x34E0; 0x34F3; 0x3505; 0x3517; 0x352A;
    0x353C; 0x354F; 0x3561; 0x3574; 0x3586; 0x3599; 0x35AB; 0x35BE;
    0x35D1; 0x35E3; 0x35F6; 0x3609; 0x361C; 0x362E; 0x3641; 0x3654;
    0x3667; 0x367A; 0x368D; 0x369F; 0x36B2; 0x36C5; 0x36D8; 0x36EB;
    0x36FE; 0x3712; 0x3725; 0x3738; 0x374B; 0x375E; 0x3771; 0x3784;
    0x3798; 0x37AB; 0x37BE; 0x37D2; 0x37E5; 0x37F8; 0x380C; 0x381F;
    0x3833; 0x3846; 0x385A; 0x386D; 0x3881; 0x3894; 0x38A8; 0x38BC;
    0x38CF; 0x38E3; 0x38F7; 0x390B; 0x391E; 0x3932; 0x3946; 0x395A;
    0x396E; 0x3982; 0x3996; 0x39AA; 0x39BE; 0x39D2; 0x39E6; 0x39FA;
    0x3A0E; 0x3A22; 0x3A36; 0x3A4A; 0x3A5F; 0x3A73; 0x3A87; 0x3A9B;
    0x3AB0; 0x3AC4; 0x3AD8; 0x3AED; 0x3B01; 0x3B16; 0x3B2A; 0x3B3F;
    0x3B53; 0x3B68; 0x3B7C; 0x3B91; 0x3BA6; 0x3BBA; 0x3BCF; 0x3BE4;
    0x3BF9; 0x3C0D; 0x3C22; 0x3C37; 0x3C4C; 0x3C61; 0x3C76; 0x3C8B;
    0x3CA0; 0x3CB5; 0x3CCA; 0x3CDF; 0x3CF4; 0x3D09; 0x3D1E; 0x3D34;
    0x3D49; 0x3D5E; 0x3D73; 0x3D89; 0x3D9E; 0x3DB3; 0x3DC9; 0x3DDE;
    0x3DF4; 0x3E09; 0x3E1F; 0x3E34; 0x3E4A; 0x3E5F; 0x3E75; 0x3E8B;
    0x3EA0; 0x3EB6; 0x3ECC; 0x3EE2; 0x3EF7; 0x3F0D; 0x3F23; 0x3F39;
    0x3F4F; 0x3F65; 0x3F7B; 0x3F91; 0x3FA7; 0x3FBD; 0x3FD3; 0x3FE9;
    0x4000; 0x4016; 0x402C; 0x4042; 0x4058; 0x406F; 0x4085; 0x409C;
    0x40B2; 0x40C8; 0x40DF; 0x40F5; 0x410C; 0x4122; 0x4139; 0x4150;
    0x4166; 0x417D; 0x4194; 0x41AA; 0x41C1; 0x41D8; 0x41EF; 0x4206;
    0x421D; 0x4234; 0x424A; 0x4261; 0x4278; 0x4290; 0x42A7; 0x42BE;
    0x42D5; 0x42EC; 0x4303; 0x431B; 0x4332; 0x4349; 0x4360; 0x4378;
    0x438F; 0x43A7; 0x43BE; 0x43D6; 0x43ED; 0x4405; 0x441C; 0x4434;
    0x444C; 0x4463; 0x447B; 0x4493; 0x44AA; 0x44C2; 0x44DA; 0x44F2;
    0x450A; 0x4522; 0x453A; 0x4552; 0x456A; 0x4582; 0x459A; 0x45B2;
    0x45CA; 0x45E3; 0x45FB; 0x4613; 0x462B; 0x4644; 0x465C; 0x4675;
    0x468D; 0x46A5; 0x46BE; 0x46D6; 0x46EF; 0x4708; 0x4720; 0x4739;
    0x4752; 0x476A; 0x4783; 0x479C; 0x47B5; 0x47CE; 0x47E7; 0x47FF;
    0x4818; 0x4831; 0x484A; 0x4864; 0x487D; 0x4896; 0x48AF; 0x48C8;
    0x48E1; 0x48FB; 0x4914; 0x492D; 0x4947; 0x4960; 0x497A; 0x4993;
    0x49AD; 0x49C6; 0x49E0; 0x49F9; 0x4A13; 0x4A2D; 0x4A46; 0x4A60;
    0x4A7A; 0x4A94; 0x4AAE; 0x4AC8; 0x4AE1; 0x4AFB; 0x4B15; 0x4B30;
    0x4B4A; 0x4B64; 0x4B7E; 0x4B98; 0x4BB2; 0x4BCC; 0x4BE7; 0x4C01;
    0x4C1B; 0x4C36; 0x4C50; 0x4C6B; 0x4C85; 0x4CA0; 0x4CBA; 0x4CD5;
    0x4CF0; 0x4D0A; 0x4D25; 0x4D40; 0x4D5B; 0x4D75; 0x4D90; 0x4DAB;
    0x4DC6; 0x4DE1; 0x4DFC; 0x4E17; 0x4E32; 0x4E4D; 0x4E69; 0x4E84;
    0x4E9F; 0x4EBA; 0x4ED5; 0x4EF1; 0x4F0C; 0x4F28; 0x4F43; 0x4F5F;
    0x4F7A; 0x4F96; 0x4FB1; 0x4FCD; 0x4FE9; 0x5004; 0x5020; 0x503C;
    0x5058; 0x5074; 0x508F; 0x50AB; 0x50C7; 0x50E3; 0x50FF; 0x511C;
    0x5138; 0x5154; 0x5170; 0x518C; 0x51A9; 0x51C5; 0x51E1; 0x51FE;
    0x521A; 0x5237; 0x5253; 0x5270; 0x528C; 0x52A9; 0x52C5; 0x52E2;
    0x52FF; 0x531C; 0x5339; 0x5355; 0x5372; 0x538F; 0x53AC; 0x53C9;
    0x53E6; 0x5403; 0x5421; 0x543E; 0x545B; 0x5478; 0x5495; 0x54B3;
    0x54D0; 0x54EE; 0x550B; 0x5529; 0x5546; 0x5564; 0x5581; 0x559F;
    0x55BD; 0x55DA; 0x55F8; 0x5616; 0x5634; 0x5652; 0x5670; 0x568E;
    0x56AC; 0x56CA; 0x56E8; 0x5706; 0x5724; 0x5742; 0x5761; 0x577F;
    0x579D; 0x57BC; 0x57DA; 0x57F9; 0x5817; 0x5836; 0x5854; 0x5873;
    0x5891; 0x58B0; 0x58CF; 0x58EE; 0x590D; 0x592B; 0x594A; 0x5969;
    0x5988; 0x59A7; 0x59C7; 0x59E6; 0x5A05; 0x5A24; 0x5A43; 0x5A63;
    0x5A82; 0x5AA1; 0x5AC1; 0x5AE0; 0x5B00; 0x5B1F; 0x5B3F; 0x5B5F;
    0x5B7E; 0x5B9E; 0x5BBE; 0x5BDE; 0x5BFD; 0x5C1D; 0x5C3D; 0x5C5D;
    0x5C7D; 0x5C9D; 0x5CBE; 0x5CDE; 0x5CFE; 0x5D1E; 0x5D3E; 0x5D5F;
    0x5D7F; 0x5DA0; 0x5DC0; 0x5DE1; 0x5E01; 0x5E22; 0x5E42; 0x5E63;
    0x5E84; 0x5EA5; 0x5EC5; 0x5EE6; 0x5F07; 0x5F28; 0x5F49; 0x5F6A;
    0x5F8B; 0x5FAC; 0x5FCE; 0x5FEF; 0x6010; 0x6031; 0x6053; 0x6074;
    0x6096; 0x60B7; 0x60D9; 0x60FA; 0x611C; 0x613E; 0x615F; 0x6181;
    0x61A3; 0x61C5; 0x61E7; 0x6209; 0x622B; 0x624D; 0x626F; 0x6291;
    0x62B3; 0x62D5; 0x62F8; 0x631A; 0x633C; 0x635F; 0x6381; 0x63A4;
    0x63C6; 0x63E9; 0x640B; 0x642E; 0x6451; 0x6474; 0x6497; 0x64B9;
    0x64DC; 0x64FF; 0x6522; 0x6545; 0x6569; 0x658C; 0x65AF; 0x65D2;
    0x65F6; 0x6619; 0x663C; 0x6660; 0x6683; 0x66A7; 0x66CA; 0x66EE;
    0x6712; 0x6736; 0x6759; 0x677D; 0x67A1; 0x67C5; 0x67E9; 0x680D;
    0x6831; 0x6855; 0x6879; 0x689E; 0x68C2; 0x68E6; 0x690B; 0x692F;
    0x6954; 0x6978; 0x699D; 0x69C1; 0x69E6; 0x6A0B; 0x6A2F; 0x6A54;
    0x6A79; 0x6A9E; 0x6AC3; 0x6AE8; 0x6B0D; 0x6B32; 0x6B57; 0x6B7D;
    0x6BA2; 0x6BC7; 0x6BED; 0x6C12; 0x6C38; 0x6C5D; 0x6C83; 0x6CA8;
    0x6CCE; 0x6CF4; 0x6D1A; 0x6D3F; 0x6D65; 0x6D8B; 0x6DB1; 0x6DD7;
    0x6DFD; 0x6E24; 0x6E4A; 0x6E70; 0x6E96; 0x6EBD; 0x6EE3; 0x6F09;
    0x6F30; 0x6F57; 0x6F7D; 0x6FA4; 0x6FCB; 0x6FF1; 0x7018; 0x703F;
    0x7066; 0x708D; 0x70B4; 0x70DB; 0x7102; 0x7129; 0x7151; 0x7178;
    0x719F; 0x71C7; 0x71EE; 0x7216; 0x723D; 0x7265; 0x728D; 0x72B4;
    0x72DC; 0x7304; 0x732C; 0x7354; 0x737C; 0x73A4; 0x73CC; 0x73F4;
    0x741C; 0x7444; 0x746D; 0x7495; 0x74BE; 0x74E6; 0x750F; 0x7537;
    0x7560; 0x7589; 0x75B1; 0x75DA; 0x7603; 0x762C; 0x7655; 0x767E;
    0x76A7; 0x76D0; 0x76F9; 0x7723; 0x774C; 0x7775; 0x779F; 0x77C8;
    0x77F2; 0x781B; 0x7845; 0x786F; 0x7899; 0x78C2; 0x78EC; 0x7916;
    0x7940; 0x796A; 0x7994; 0x79BF; 0x79E9; 0x7A13; 0x7A3D; 0x7A68;
    0x7A92; 0x7ABD; 0x7AE7; 0x7B12; 0x7B3D; 0x7B67; 0x7B92; 0x7BBD;
    0x7BE8; 0x7C13; 0x7C3E; 0x7C69; 0x7C94; 0x7CBF; 0x7CEB; 0x7D16;
    0x7D41; 0x7D6D; 0x7D98; 0x7DC4; 0x7DEF; 0x7E1B; 0x7E47; 0x7E73;
    0x7E9F; 0x7ECA; 0x7EF6; 0x7F22; 0x7F4F; 0x7F7B; 0x7FA7; 0x7FD3;
    0x8000
  ].
Definition g_sine_wave : list Z :=
  [
    0; 97; 196; 293; 392; 490; 588; 686; 785; 882;
    981; 1079; 1177; 1275; 1373; 1471; 1569; 1667; 1765; 1863;
    1961; 2059; 2157; 2255; 2353; 2451; 2548; 2647; 2745; 2842;
    2940; 3038; 3135; 3233; 3331; 3428; 3526; 3624; 3721; 3819;
    3916; 4013; 4111; 4208; 4305; 4403; 4500; 4597; 4694; 4791;
    4888; 4986; 5083; 5179; 5276; 5373; 5469; 5566; 5663; 5759;
    5856; 5953; 6049; 6145; 6242; 6338; 6434; 6531; 6626; 6722;
    6818; 6915; 7010; 7106; 7202; 7297; 7393; 7488; 7583; 7679;
    7774; 7870; 7964; 8059; 8155; 8250; 8344; 8439; 8534; 8628;
    8722; 8817; 8912; 9005; 9100; 9194; 9288; 9381; 9475; 9569;
    9663; 9756; 9850; 9943; 10037; 10129; 10223; 10316; 10409; 10501;
    10594; 10687; 10779; 10872; 10963; 11056; 11148; 11240; 11332; 11423;
    11515; 11607; 11699; 11790; 11880; 11972; 12063; 12154; 12245; 12335;
    12425; 12516; 12606; 12697; 12787; 12876; 12966; 13056; 13146; 13235;
    13325; 13414; 13502; 13591; 13680; 13769; 13858; 13946; 14035; 14123;
    14210; 14298; 14386; 14474; 14561; 14649; 14736; 14823; 14910; 14997;
    15083; 15169; 15256; 15342; 15428; 15514; 15600; 15686; 15771; 15857;
    15942; 16027; 16112; 16197; 16281; 16366; 16450; 16534; 16618; 16702;
    16786; 16869; 16953; 17036; 17119; 17202; 17284; 17367; 17449; 17531;
    17613; 17695; 17777; 17858; 17940; 18021; 18102; 18183; 18263; 18344;
    18424; 18504; 18584; 18665; 18744; 18824; 18903; 18982; 19061; 19139;
    19218; 19296; 19375; 19453; 19531; 19608; 19686; 19763; 19840; 19917;
    19994; 20071; 20147; 20223; 20299; 20375; 20451; 20526; 20601; 20676;
    20750; 20826; 20900; 20974; 21048; 21122; 21196; 21269; 21342; 21416;
    21488; 21561; 21633; 21706; 21778; 21849; 21921; 21993; 22064; 22134;
    22206; 22276; 22346; 22416; 22487; 22556; 22625; 22695; 22764; 22833;
    22902; 22970; 23039; 23106; 23174; 23242; 23309; 23376; 23443; 23510;
    23577; 23643; 23708; 23775; 23840; 23906; 23970; 24036; 24100; 24165;
    24229; 24293; 24357; 24420; 24484; 24546; 24610; 24672; 24735; 24796;
    24859; 24920; 24982; 25043; 25104; 25165; 25225; 25286; 25345; 25406;
    25465; 25524; 25583; 25642; 25701; 25759; 25817; 25875; 25933; 25991;
    26047; 26104; 26161; 26217; 26274; 26330; 26385; 26441; 26496; 26550;
    26605; 26660; 26713; 26768; 26822; 26875; 26928; 26981; 27034; 27085;
    27138; 27190; 27242; 27292; 27344; 27395; 27446; 27496; 27546; 27596;
    27645; 27695; 27744; 27792; 27841; 27889; 27937; 27985; 28033; 28080;
    28126; 28173; 28219; 28266; 28312; 28357; 28403; 28448; 28493; 28537;
    28582; 28625; 28669; 28712; 28755; 28798; 28841; 28883; 28926; 28967;
    29009; 29050; 29091; 29132; 29172; 29213; 29252; 29292; 29332; 29371;
    29410; 29449; 29487; 29525; 29562; 29600; 29637; 29673; 29710; 29747;
    29783; 29819; 29854; 29889; 29924; 29958; 29993; 30027; 30061; 30094;
    30127; 30161; 30193; 30225; 30257; 30290; 30321; 30352; 30383; 30414;
    30444; 30474; 30503; 30534; 30563; 30591; 30621; 30649; 30676; 30705;
    30732; 30759; 30786; 30813; 30839; 30865; 30891; 30916; 30941; 30966;
    30991; 31015; 31040; 31063; 31086; 31109; 31132; 31155; 31177; 31199;
    31220; 31242; 31263; 31284; 31304; 31325; 31344; 31364; 31383; 31402;
    31421; 31439; 31458; 31475; 31493; 31510; 31527; 31543; 31560; 31576;
    31591; 31607; 31623; 31637; 31652; 31666; 31680; 31694; 31707; 31720;
    31733; 31746; 31757; 31769; 31781; 31792; 31803; 31814; 31824; 31834;
    31844; 31853; 31863; 31872; 31880; 31888; 31896; 31904; 31912; 31918;
    31925; 31932; 31938; 31944; 31950; 31955; 31959; 31964; 31968; 31972;
    31976; 31980; 31983; 31986; 31989; 31991; 31993; 31995; 31996; 31997;
    31998; 31998; 31999; 31998; 31998; 31997; 31996; 31995; 31993; 31991;
    31989; 31986; 31983; 31980; 31976; 31972; 31968; 31964; 31959; 31955;
    31950; 31944; 31938; 31932; 31925; 31918; 31912; 31904; 31896; 31888;
    31880; 31872; 31863; 31853; 31844; 31834; 31824; 31814; 31803; 31792;
    31781; 31769; 31757; 31746; 31733; 31720; 31707; 31694; 31680; 31666;
    31652; 31637; 31623; 31607; 31591; 31576; 31560; 31543; 31527; 31510;
    31493; 31475; 31458; 31439; 31421; 31402; 31383; 31364; 31344; 31325;
    31304; 31284; 31263; 31242; 31220; 31199; 31177; 31155; 31132; 31109;
    31086; 31063; 31040; 31015; 30991; 30966; 30941; 30916; 30891; 30865;
    30839; 30813; 30786; 30759; 30732; 30705; 30676; 30649; 30621; 30591;
    30563; 30534; 30503; 30474; 30444; 30414; 30383; 30352; 30321; 30290;
    30257; 30225; 30193; 30161; 30127; 30094; 30061; 30027; 29993; 29958;
    29924; 29889; 29854; 29819; 29783; 29747; 29710; 29673; 29637; 29600;
    29562; 29525; 29487; 29449; 29410; 29371; 29332; 29292; 29252; 29213;
    29172; 29132; 29091; 29050; 29009; 28967; 28926; 28883; 28841; 28798;
    28755; 28712; 28669; 28625; 28582; 28537; 28493; 28448; 28403; 28357;
    28312; 28266; 28219; 28173; 28126; 28080; 28033; 27985; 27937; 27889;
    27841; 27792; 27744; 27695; 27645; 27596; 27546; 27496; 27446; 27395;
    27344; 27292; 27242; 27190; 27138; 27085; 27034; 26981; 26928; 26875;
    26822; 26768; 26713; 26660; 26605; 26550; 26496; 26441; 26385; 26330;
    26274; 26217; 26161; 26104; 26047; 25991; 25933; 25875; 25817; 25759;
    25701; 25642; 25583; 25524; 25465; 25406; 25345; 25286; 25225; 25165;
    25104; 25043; 24982; 24920; 24859; 24796; 24735; 24672; 24610; 24546;
    24484; 24420; 24357; 24293; 24229; 24165; 24100; 24036; 23970; 23906;
    23840; 23775; 23708; 23643; 23577; 23510; 23443; 23376; 23309; 23242;
    23174; 23106; 23039; 22970; 22902; 22833; 22764; 22695; 22625; 22556;
    22487; 22416; 22346; 22276; 22206; 22134; 22064; 21993; 21921; 21849;
    21778; 21706; 21633; 21561; 21488; 21416; 21342; 21269; 21196; 21122;
    21048; 20974; 20900; 20826; 20750; 20676; 20601; 20526; 20451; 20375;
    20299; 20223; 20147; 20071; 19994; 19917; 19840; 19763; 19686; 19608;
    19531; 19453; 19375; 19296; 19218; 19139; 19061; 18982; 18903; 18824;
    18744; 18665; 18584; 18504; 18424; 18344; 18263; 18183; 18102; 18021;
    17940; 17858; 17777; 17695; 17613; 17531; 17449; 17367; 17284; 17202;
    17119; 17036; 16953; 16869; 16786; 16702; 16618; 16534; 16450; 16366;
    16281; 16197; 16112; 16027; 15942; 15857; 15771; 15686; 15600; 15514;
    15428; 15342; 15256; 15169; 15083; 14997; 14910; 14823; 14736; 14649;
    14561; 14474; 14386; 14298; 14210; 14123; 14035; 13946; 13858; 13769;
    13680; 13591; 13502; 13414; 13325; 13235; 13146; 13056; 12966; 12876;
    12787; 12697; 12606; 12516; 12425; 12335; 12245; 12154; 12063; 11972;
    11880; 11790; 11699; 11607; 11515; 11423; 11332; 11240; 11148; 11056;
    10963; 10872; 10779; 10687; 10594; 10501; 10409; 10316; 10223; 10129;
    10037; 9943; 9850; 9756; 9663; 9569; 9475; 9381; 9288; 9194;
    9100; 9005; 8912; 8817; 8722; 8628; 8534; 8439; 8344; 8250;
    8155; 8059; 7964; 7870; 7774; 7679; 7583; 7488; 7393; 7297;
    7202; 7106; 7010; 6915; 6818; 6722; 6626; 6531; 6434; 6338;
    6242; 6145; 6049; 5953; 5856; 5759; 5663; 5566; 5469; 5373;
    5276; 5179; 5083; 4986; 4888; 4791; 4694; 4597; 4500; 4403;
    4305; 4208; 4111; 4013; 3916; 3819; 3721; 3624; 3526; 3428;
    3331; 3233; 3135; 3038; 2940; 2842; 2745; 2647; 2548; 2451;
    2353; 2255; 2157; 2059; 1961; 1863; 1765; 1667; 1569; 1471;
    1373; 1275; 1177; 1079; 981; 882; 785; 686; 588; 490;
    392; 293; 196; 97; 0; (-97); (-196); (-293); (-392); (-490);
    (-588); (-686); (-785); (-882); (-981); (-1079); (-1177); (-1275); (-1373); (-1471);
    (-1569); (-1667); (-1765); (-1863); (-1961); (-2059); (-2157); (-2255); (-2353); (-2451);
    (-2548); (-2647); (-2745); (-2842); (-2940); (-3038); (-3135); (-3233); (-3331); (-3428);
    (-3526); (-3624); (-3721); (-3819); (-3916); (-4013); (-4111); (-4208); (-4305); (-4403);
    (-4500); (-4597); (-4694); (-4791); (-4888); (-4986); (-5083); (-5179); (-5276); (-5373);
    (-5469); (-5566); (-5663); (-5759); (-5856); (-5953); (-6049); (-6145); (-6242); (-6338);
    (-6434); (-6531); (-6626); (-6722); (-6818); (-6915); (-7010); (-7106); (-7202); (-7297);
    (-7393); (-7488); (-7583); (-7679); (-7774); (-7870); (-7964); (-8059); (-8155); (-8250);
    (-8344); (-8439); (-8534); (-8628); (-8722); (-8817); (-8912); (-9005); (-9100); (-9194);
    (-9288); (-9381); (-9475); (-9569); (-9663); (-9756); (-9850); (-9943); (-10037); (-10129);
    (-10223); (-10316); (-10409); (-10501); (-10594); (-10687); (-10779); (-10872); (-10963); (-11056);
    (-11148); (-11240); (-11332); (-11423); (-11515); (-11607); (-11699); (-11790); (-11880); (-11972);
    (-12063); (-12154); (-12245); (-12335); (-12425); (-12516); (-12606); (-12697); (-12787); (-12876);
    (-12966); (-13056); (-13146); (-13235); (-13325); (-13414); (-13502); (-13591); (-13680); (-13769);
    (-13858); (-13946); (-14035); (-14123); (-14210); (-14298); (-14386); (-14474); (-14561); (-14649);
    (-14736); (-14823); (-14910); (-14997); (-15083); (-15169); (-15256); (-15342); (-15428); (-15514);
    (-15600); (-15686); (-15771); (-15857); (-15942); (-16027); (-16112); (-16197); (-16281); (-16366);
    (-16450); (-16534); (-16618); (-16702); (-16786); (-16869); (-16953); (-17036); (-17119); (-17202);
    (-17284); (-17367); (-17449); (-17531); (-17613); (-17695); (-17777); (-17858); (-17940); (-18021);
    (-18102); (-18183); (-18263); (-18344); (-18424); (-18504); (-18584); (-18665); (-18744); (-18824);
    (-18903); (-18982); (-19061); (-19139); (-19218); (-19296); (-19375); (-19453); (-19531); (-19608);
    (-19686); (-19763); (-19840); (-19917); (-19994); (-20071); (-20147); (-20223); (-20299); (-20375);
    (-20451); (-20526); (-20601); (-20676); (-20750); (-20826); (-20900); (-20974); (-21048); (-21122);
    (-21196); (-21269); (-21342); (-21416); (-21488); (-21561); (-21633); (-21706); (-21778); (-21849);
    (-21921); (-21993); (-22064); (-22134); (-22206); (-22276); (-22346); (-22416); (-22487); (-22556);
    (-22625); (-22695); (-22764); (-22833); (-22902); (-22970); (-23039); (-23106); (-23174); (-23242);
    (-23309); (-23376); (-23443); (-23510); (-23577); (-23643); (-23708); (-23775); (-23840); (-23906);
    (-23970); (-24036); (-24100); (-24165); (-24229); (-24293); (-24357); (-24420); (-24484); (-24546);
    (-24610); (-24672); (-24735); (-24796); (-24859); (-24920); (-24982); (-25043); (-25104); (-25165);
    (-25225); (-25286); (-25345); (-25406); (-25465); (-25524); (-25583); (-25642); (-25701); (-25759);
    (-25817); (-25875); (-25933); (-25991); (-26047); (-26104); (-26161); (-26217); (-26274); (-26330);
    (-26385); (-26441); (-26496); (-26550); (-26605); (-26660); (-26713); (-26768); (-26822); (-26875);
    (-26928); (-26981); (-27034); (-27085); (-27138); (-27190); (-27242); (-27292); (-27344); (-27395);
    (-27446); (-27496); (-27546); (-27596); (-27645); (-27695); (-27744); (-27792); (-27841); (-27889);
    (-27937); (-27985); (-28033); (-28080); (-28126); (-28173); (-28219); (-28266); (-28312); (-28357);
    (-28403); (-28448); (-28493); (-28537); (-28582); (-28625); (-28669); (-28712); (-28755); (-28798);
    (-28841); (-28883); (-28926); (-28967); (-29009); (-29050); (-29091); (-29132); (-29172); (-29213);
    (-29252); (-29292); (-29332); (-29371); (-29410); (-29449); (-29487); (-29525); (-29562); (-29600);
    (-29637); (-29673); (-29710); (-29747); (-29783); (-29819); (-29854); (-29889); (-29924); (-29958);
    (-29993); (-30027); (-30061); (-30094); (-30127); (-30161); (-30193); (-30225); (-30257); (-30290);
    (-30321); (-30352); (-30383); (-30414); (-30444); (-30474); (-30503); (-30534); (-30563); (-30591);
    (-30621); (-30649); (-30676); (-30705); (-30732); (-30759); (-30786); (-30813); (-30839); (-30865);
    (-30891); (-30916); (-30941); (-30966); (-30991); (-31015); (-31040); (-31063); (-31086); (-31109);
    (-31132); (-31155); (-31177); (-31199); (-31220); (-31242); (-31263); (-31284); (-31304); (-31325);
    (-31344); (-31364); (-31383); (-31402); (-31421); (-31439); (-31458); (-31475); (-31493); (-31510);
    (-31527); (-31543); (-31560); (-31576); (-31591); (-31607); (-31623); (-31637); (-31652); (-31666);
    (-31680); (-31694); (-31707); (-31720); (-31733); (-31746); (-31757); (-31769); (-31781); (-31792);
    (-31803); (-31814); (-31824); (-31834); (-31844); (-31853); (-31863); (-31872); (-31880); (-31888);
    (-31896); (-31904); (-31912); (-31918); (-31925); (-31932); (-31938); (-31944); (-31950); (-31955);
    (-31959); (-31964); (-31968); (-31972); (-31976); (-31980); (-31983); (-31986); (-31989); (-31991);
    (-31993); (-31995); (-31996); (-31997); (-31998); (-31998); (-31999); (-31998); (-31998); (-31997);
    (-31996); (-31995); (-31993); (-31991); (-31989); (-31986); (-31983); (-31980); (-31976); (-31972);
    (-31968); (-31964); (-31959); (-31955); (-31950); (-31944); (-31938); (-31932); (-31925); (-31918);
    (-31912); (-31904); (-31896); (-31888); (-31880); (-31872); (-31863); (-31853); (-31844); (-31834);
    (-31824); (-31814); (-31803); (-31792); (-31781); (-31769); (-31757); (-31746); (-31733); (-31720);
    (-31707); (-31694); (-31680); (-31666); (-31652); (-31637); (-31623); (-31607); (-31591); (-31576);
    (-31560); (-31543); (-31527); (-31510); (-31493); (-31475); (-31458); (-31439); (-31421); (-31402);
    (-31383); (-31364); (-31344); (-31325); (-31304); (-31284); (-31263); (-31242); (-31220); (-31199);
    (-31177); (-31155); (-31132); (-31109); (-31086); (-31063); (-31040); (-31015); (-30991); (-30966);
    (-30941); (-30916); (-30891); (-30865); (-30839); (-30813); (-30786); (-30759); (-30732); (-30705);
    (-30676); (-30649); (-30621); (-30591); (-30563); (-30534); (-30503); (-30474); (-30444); (-30414);
    (-30383); (-30352); (-30321); (-30290); (-30257); (-30225); (-30193); (-30161); (-30127); (-30094);
    (-30061); (-30027); (-29993); (-29958); (-29924); (-29889); (-29854); (-29819); (-29783); (-29747);
    (-29710); (-29673); (-29637); (-29600); (-29562); (-29525); (-29487); (-29449); (-29410); (-29371);
    (-29332); (-29292); (-29252); (-29213); (-29172); (-29132); (-29091); (-29050); (-29009); (-28967);
    (-28926); (-28883); (-28841); (-28798); (-28755); (-28712); (-28669); (-28625); (-28582); (-28537);
    (-28493); (-28448); (-28403); (-28357); (-28312); (-28266); (-28219); (-28173); (-28126); (-28080);
    (-28033); (-27985); (-27937); (-27889); (-27841); (-27792); (-27744); (-27695); (-27645); (-27596);
    (-27546); (-27496); (-27446); (-27395); (-27344); (-27292); (-27242); (-27190); (-27138); (-27085);
    (-27034); (-26981); (-26928); (-26875); (-26822); (-26768); (-26713); (-26660); (-26605); (-26550);
    (-26496); (-26441); (-26385); (-26330); (-26274); (-26217); (-26161); (-26104); (-26047); (-25991);
    (-25933); (-25875); (-25817); (-25759); (-25701); (-25642); (-25583); (-25524); (-25465); (-25406);
    (-25345); (-25286); (-25225); (-25165); (-25104); (-25043); (-24982); (-24920); (-24859); (-24796);
    (-24735); (-24672); (-24610); (-24546); (-24484); (-24420); (-24357); (-24293); (-24229); (-24165);
    (-24100); (-24036); (-23970); (-23906); (-23840); (-23775); (-23708); (-23643); (-23577); (-23510);
    (-23443); (-23376); (-23309); (-23242); (-23174); (-23106); (-23039); (-22970); (-22902); (-22833);
    (-22764); (-22695); (-22625); (-22556); (-22487); (-22416); (-22346); (-22276); (-22206); (-22134);
    (-22064); (-21993); (-21921); (-21849); (-21778); (-21706); (-21633); (-21561); (-21488); (-21416);
    (-21342); (-21269); (-21196); (-21122); (-21048); (-20974); (-20900); (-20826); (-20750); (-20676);
    (-20601); (-20526); (-20451); (-20375); (-20299); (-20223); (-20147); (-20071); (-19994); (-19917);
    (-19840); (-19763); (-19686); (-19608); (-19531); (-19453); (-19375); (-19296); (-19218); (-19139);
    (-19061); (-18982); (-18903); (-18824); (-18744); (-18665); (-18584); (-18504); (-18424); (-18344);
    (-18263); (-18183); (-18102); (-18021); (-17940); (-17858); (-17777); (-17695); (-17613); (-17531);
    (-17449); (-17367); (-17284); (-17202); (-17119); (-17036); (-16953); (-16869); (-16786); (-16702);
    (-16618); (-16534); (-16450); (-16366); (-16281); (-16197); (-16112); (-16027); (-15942); (-15857);
    (-15771); (-15686); (-15600); (-15514); (-15428); (-15342); (-15256); (-15169); (-15083); (-14997);
    (-14910); (-14823); (-14736); (-14649); (-14561); (-14474); (-14386); (-14298); (-14210); (-14123);
    (-14035); (-13946); (-13858); (-13769); (-13680); (-13591); (-13502); (-13414); (-13325); (-13235);
    (-13146); (-13056); (-12966); (-12876); (-12787); (-12697); (-12606); (-12516); (-12425); (-12335);
    (-12245); (-12154); (-12063); (-11972); (-11880); (-11790); (-11699); (-11607); (-11515); (-11423);
    (-11332); (-11240); (-11148); (-11056); (-10963); (-10872); (-10779); (-10687); (-10594); (-10501);
    (-10409); (-10316); (-10223); (-10129); (-10037); (-9943); (-9850); (-9756); (-9663); (-9569);
    (-9475); (-9381); (-9288); (-9194); (-9100); (-9005); (-8912); (-8817); (-8722); (-8628);
    (-8534); (-8439); (-8344); (-8250); (-8155); (-8059); (-7964); (-7870); (-7774); (-7679);
    (-7583); (-7488); (-7393); (-7297); (-7202); (-7106); (-7010); (-6915); (-6818); (-6722);
    (-6626); (-6531); (-6434); (-6338); (-6242); (-6145); (-6049); (-5953); (-5856); (-5759);
    (-5663); (-5566); (-5469); (-5373); (-5276); (-5179); (-5083); (-4986); (-4888); (-4791);
    (-4694); (-4597); (-4500); (-4403); (-4305); (-4208); (-4111); (-4013); (-3916); (-3819);
    (-3721); (-3624); (-3526); (-3428); (-3331); (-3233); (-3135); (-3038); (-2940); (-2842);
    (-2745); (-2647); (-2548); (-2451); (-2353); (-2255); (-2157); (-2059); (-1961); (-1863);
    (-1765); (-1667); (-1569); (-1471); (-1373); (-1275); (-1177); (-1079); (-981); (-882);
    (-785); (-686); (-588); (-490); (-392); (-293); (-196); (-97)
  ].

(** [g_base2exp[i]] for an index the caller has kept inside the table;
    [Base2Exp_index_in_table] below shows that [Base2Exp] always does. *)
Definition g_base2exp_at (i : Z) : Z := default 0 (c_index g_base2exp i).

(** [fixed_t Base2Exp(fixed_t xval)]: 2 ** xval by table look-up with
    linear interpolation over the 3 low bits of the 13-bit abscissa. *)
Definition Base2Exp_ixval (xval : Z) : Z :=
  FractionPart (Z.quot (to_int32 (xval + IntToFixedPt 1)) 2) 13.

Definition Base2Exp (xval : Z) : Z :=
  let xval :=
    if (xval <? IntToFixedPt (-1)) || (xval >? IntToFixedPt 1) then 0 else xval in
  let ixval := Base2Exp_ixval xval in
  let idx := Z.shiftr ixval 3 in
  let irem3 := Z.land ixval 7 in
  let yval :=
    if xval =? IntToFixedPt 1 then Z.shiftl 2 14
    else
      let yval := g_base2exp_at idx in
      let ydelta := Z.quot (to_int32 ((g_base2exp_at (idx + 1) - yval) * irem3)) 8 in
      to_int32 (yval + ydelta) in
  to_int32 (Z.shiftl yval 6).


(** ** Data model *)

(** [PatchParamTable_t]: the active patch [g_Patch] and the presets in flash.
    The members are [uint16_t] except [OscDetune], which is [short]. *)
Record PatchParamTable_t : Type := mkPatch {
  PresetName : string;  (* Preset (patch) name, up to 22 chars *)
  OscFreqMult : list Z;  (* One of 12 options (encoded 0..11) *)
  OscAmpldModSource : list Z;  (* One of 10 options (encoded 0..9) *)
  OscDetune : list Z;  (* Unit = cents (range 0..+/-600) *)
  MixerInputStep : list Z;  (* Mixer Input Levels (encoded 0..16) *)
  EnvAttackTime : Z;  (* 5..5000+ ms *)
  EnvHoldTime : Z;  (* 0..5000+ ms (if zero, skip Decay) *)
  EnvDecayTime : Z;  (* 5..5000+ ms *)
  EnvSustainLevel : Z;  (* Unit = 1/100 (range 0..100 %) *)
  EnvReleaseTime : Z;  (* 5..5000+ ms *)
  AmpControlMode : Z;  (* One of 4 options (encoded 0..3) *)
  ContourStartLevel : Z;  (* Unit = 1/100 (range 0..100 %) *)
  ContourDelayTime : Z;  (* 0..5000+ ms *)
  ContourRampTime : Z;  (* 5..5000+ ms *)
  ContourHoldLevel : Z;  (* Unit = 1/100 (range 0..100 %) *)
  Env2DecayTime : Z;  (* 5..5000+ ms *)
  Env2SustainLevel : Z;  (* Unit = 1/100 (range 0..100 %) *)
  LFO_Freq_x10 : Z;  (* LFO frequency x10 (range 5..250) *)
  LFO_RampTime : Z;  (* 5..5000+ ms *)
  LFO_FM_Depth : Z;  (* Unit = 1/100 semitone (cents, max. 600) *)
  LFO_AM_Depth : Z;  (* Unit = 1/100 (0..100 %FS) *)
  MixerOutGain_x10 : Z;  (* Unit = 1/10 (value = gain x10, 0..100) *)
  LimiterLevelPc : Z  (* Audio limiter level (%), 0: Disabled *)
}.

(** Assignment to one member; every other member is kept. *)
Definition set_MixerInputStep (v : list Z) (s : PatchParamTable_t) : PatchParamTable_t :=
  {| PresetName := PresetName s; OscFreqMult := OscFreqMult s; OscAmpldModSource :=
     OscAmpldModSource s; OscDetune := OscDetune s; MixerInputStep := v; EnvAttackTime :=
     EnvAttackTime s; EnvHoldTime := EnvHoldTime s; EnvDecayTime := EnvDecayTime s; EnvSustainLevel
     := EnvSustainLevel s; EnvReleaseTime := EnvReleaseTime s; AmpControlMode := AmpControlMode s;
     ContourStartLevel := ContourStartLevel s; ContourDelayTime := ContourDelayTime s;
     ContourRampTime := ContourRampTime s; ContourHoldLevel := ContourHoldLevel s; Env2DecayTime :=
     Env2DecayTime s; Env2SustainLevel := Env2SustainLevel s; LFO_Freq_x10 := LFO_Freq_x10 s;
     LFO_RampTime := LFO_RampTime s; LFO_FM_Depth := LFO_FM_Depth s; LFO_AM_Depth := LFO_AM_Depth s;
     MixerOutGain_x10 := MixerOutGain_x10 s; LimiterLevelPc := LimiterLevelPc s |}.

Definition set_EnvAttackTime (v : Z) (s : PatchParamTable_t) : PatchParamTable_t :=
  {| PresetName := PresetName s; OscFreqMult := OscFreqMult s; OscAmpldModSource :=
     OscAmpldModSource s; OscDetune := OscDetune s; MixerInputStep := MixerInputStep s; EnvAttackTime
     := v; EnvHoldTime := EnvHoldTime s; EnvDecayTime := EnvDecayTime s; EnvSustainLevel :=
     EnvSustainLevel s; EnvReleaseTime := EnvReleaseTime s; AmpControlMode := AmpControlMode s;
     ContourStartLevel := ContourStartLevel s; ContourDelayTime := ContourDelayTime s;
     ContourRampTime := ContourRampTime s; ContourHoldLevel := ContourHoldLevel s; Env2DecayTime :=
     Env2DecayTime s; Env2SustainLevel := Env2SustainLevel s; LFO_Freq_x10 := LFO_Freq_x10 s;
     LFO_RampTime := LFO_RampTime s; LFO_FM_Depth := LFO_FM_Depth s; LFO_AM_Depth := LFO_AM_Depth s;
     MixerOutGain_x10 := MixerOutGain_x10 s; LimiterLevelPc := LimiterLevelPc s |}.

Definition set_EnvHoldTime (v : Z) (s : PatchParamTable_t) : PatchParamTable_t :=
  {| PresetName := PresetName s; OscFreqMult := OscFreqMult s; OscAmpldModSource :=
     OscAmpldModSource s; OscDetune := OscDetune s; MixerInputStep := MixerInputStep s; EnvAttackTime
     := EnvAttackTime s; EnvHoldTime := v; EnvDecayTime := EnvDecayTime s; EnvSustainLevel :=
     EnvSustainLevel s; EnvReleaseTime := EnvReleaseTime s; AmpControlMode := AmpControlMode s;
     ContourStartLevel := ContourStartLevel s; ContourDelayTime := ContourDelayTime s;
     ContourRampTime := ContourRampTime s; ContourHoldLevel := ContourHoldLevel s; Env2DecayTime :=
     Env2DecayTime s; Env2SustainLevel := Env2SustainLevel s; LFO_Freq_x10 := LFO_Freq_x10 s;
     LFO_RampTime := LFO_RampTime s; LFO_FM_Depth := LFO_FM_Depth s; LFO_AM_Depth := LFO_AM_Depth s;
     MixerOutGain_x10 := MixerOutGain_x10 s; LimiterLevelPc := LimiterLevelPc s |}.

Definition set_EnvDecayTime (v : Z) (s : PatchParamTable_t) : PatchParamTable_t :=
  {| PresetName := PresetName s; OscFreqMult := OscFreqMult s; OscAmpldModSource :=
     OscAmpldModSource s; OscDetune := OscDetune s; MixerInputStep := MixerInputStep s; EnvAttackTime
     := EnvAttackTime s; EnvHoldTime := EnvHoldTime s; EnvDecayTime := v; EnvSustainLevel :=
     EnvSustainLevel s; EnvReleaseTime := EnvReleaseTime s; AmpControlMode := AmpControlMode s;
     ContourStartLevel := ContourStartLevel s; ContourDelayTime := ContourDelayTime s;
     ContourRampTime := ContourRampTime s; ContourHoldLevel := ContourHoldLevel s; Env2DecayTime :=
     Env2DecayTime s; Env2SustainLevel := Env2SustainLevel s; LFO_Freq_x10 := LFO_Freq_x10 s;
     LFO_RampTime := LFO_RampTime s; LFO_FM_Depth := LFO_FM_Depth s; LFO_AM_Depth := LFO_AM_Depth s;
     MixerOutGain_x10 := MixerOutGain_x10 s; LimiterLevelPc := LimiterLevelPc s |}.

Definition set_EnvSustainLevel (v : Z) (s : PatchParamTable_t) : PatchParamTable_t :=
  {| PresetName := PresetName s; OscFreqMult := OscFreqMult s; OscAmpldModSource :=
     OscAmpldModSource s; OscDetune := OscDetune s; MixerInputStep := MixerInputStep s; EnvAttackTime
     := EnvAttackTime s; EnvHoldTime := EnvHoldTime s; EnvDecayTime := EnvDecayTime s;
     EnvSustainLevel := v; EnvReleaseTime := EnvReleaseTime s; AmpControlMode := AmpControlMode s;
     ContourStartLevel := ContourStartLevel s; ContourDelayTime := ContourDelayTime s;
     ContourRampTime := ContourRampTime s; ContourHoldLevel := ContourHoldLevel s; Env2DecayTime :=
     Env2DecayTime s; Env2SustainLevel := Env2SustainLevel s; LFO_Freq_x10 := LFO_Freq_x10 s;
     LFO_RampTime := LFO_RampTime s; LFO_FM_Depth := LFO_FM_Depth s; LFO_AM_Depth := LFO_AM_Depth s;
     MixerOutGain_x10 := MixerOutGain_x10 s; LimiterLevelPc := LimiterLevelPc s |}.

Definition set_EnvReleaseTime (v : Z) (s : PatchParamTable_t) : PatchParamTable_t :=
  {| PresetName := PresetName s; OscFreqMult := OscFreqMult s; OscAmpldModSource :=
     OscAmpldModSource s; OscDetune := OscDetune s; MixerInputStep := MixerInputStep s; EnvAttackTime
     := EnvAttackTime s; EnvHoldTime := EnvHoldTime s; EnvDecayTime := EnvDecayTime s;
     EnvSustainLevel := EnvSustainLevel s; EnvReleaseTime := v; AmpControlMode := AmpControlMode s;
     ContourStartLevel := ContourStartLevel s; ContourDelayTime := ContourDelayTime s;
     ContourRampTime := ContourRampTime s; ContourHoldLevel := ContourHoldLevel s; Env2DecayTime :=
     Env2DecayTime s; Env2SustainLevel := Env2SustainLevel s; LFO_Freq_x10 := LFO_Freq_x10 s;
     LFO_RampTime := LFO_RampTime s; LFO_FM_Depth := LFO_FM_Depth s; LFO_AM_Depth := LFO_AM_Depth s;
     MixerOutGain_x10 := MixerOutGain_x10 s; LimiterLevelPc := LimiterLevelPc s |}.

Definition set_LFO_Freq_x10 (v : Z) (s : PatchParamTable_t) : PatchParamTable_t :=
  {| PresetName := PresetName s; OscFreqMult := OscFreqMult s; OscAmpldModSource :=
     OscAmpldModSource s; OscDetune := OscDetune s; MixerInputStep := MixerInputStep s; EnvAttackTime
     := EnvAttackTime s; EnvHoldTime := EnvHoldTime s; EnvDecayTime := EnvDecayTime s;
     EnvSustainLevel := EnvSustainLevel s; EnvReleaseTime := EnvReleaseTime s; AmpControlMode :=
     AmpControlMode s; ContourStartLevel := ContourStartLevel s; ContourDelayTime := ContourDelayTime
     s; ContourRampTime := ContourRampTime s; ContourHoldLevel := ContourHoldLevel s; Env2DecayTime
     := Env2DecayTime s; Env2SustainLevel := Env2SustainLevel s; LFO_Freq_x10 := v; LFO_RampTime :=
     LFO_RampTime s; LFO_FM_Depth := LFO_FM_Depth s; LFO_AM_Depth := LFO_AM_Depth s; MixerOutGain_x10
     := MixerOutGain_x10 s; LimiterLevelPc := LimiterLevelPc s |}.

Definition set_LFO_RampTime (v : Z) (s : PatchParamTable_t) : PatchParamTable_t :=
  {| PresetName := PresetName s; OscFreqMult := OscFreqMult s; OscAmpldModSource :=
     OscAmpldModSource s; OscDetune := OscDetune s; MixerInputStep := MixerInputStep s; EnvAttackTime
     := EnvAttackTime s; EnvHoldTime := EnvHoldTime s; EnvDecayTime := EnvDecayTime s;
     EnvSustainLevel := EnvSustainLevel s; EnvReleaseTime := EnvReleaseTime s; AmpControlMode :=
     AmpControlMode s; ContourStartLevel := ContourStartLevel s; ContourDelayTime := ContourDelayTime
     s; ContourRampTime := ContourRampTime s; ContourHoldLevel := ContourHoldLevel s; Env2DecayTime
     := Env2DecayTime s; Env2SustainLevel := Env2SustainLevel s; LFO_Freq_x10 := LFO_Freq_x10 s;
     LFO_RampTime := v; LFO_FM_Depth := LFO_FM_Depth s; LFO_AM_Depth := LFO_AM_Depth s;
     MixerOutGain_x10 := MixerOutGain_x10 s; LimiterLevelPc := LimiterLevelPc s |}.

Definition set_LFO_FM_Depth (v : Z) (s : PatchParamTable_t) : PatchParamTable_t :=
  {| PresetName := PresetName s; OscFreqMult := OscFreqMult s; OscAmpldModSource :=
     OscAmpldModSource s; OscDetune := OscDetune s; MixerInputStep := MixerInputStep s; EnvAttackTime
     := EnvAttackTime s; EnvHoldTime := EnvHoldTime s; EnvDecayTime := EnvDecayTime s;
     EnvSustainLevel := EnvSustainLevel s; EnvReleaseTime := EnvReleaseTime s; AmpControlMode :=
     AmpControlMode s; ContourStartLevel := ContourStartLevel s; ContourDelayTime := ContourDelayTime
     s; ContourRampTime := ContourRampTime s; ContourHoldLevel := ContourHoldLevel s; Env2DecayTime
     := Env2DecayTime s; Env2SustainLevel := Env2SustainLevel s; LFO_Freq_x10 := LFO_Freq_x10 s;
     LFO_RampTime := LFO_RampTime s; LFO_FM_Depth := v; LFO_AM_Depth := LFO_AM_Depth s;
     MixerOutGain_x10 := MixerOutGain_x10 s; LimiterLevelPc := LimiterLevelPc s |}.

Definition set_MixerOutGain_x10 (v : Z) (s : PatchParamTable_t) : PatchParamTable_t :=
  {| PresetName := PresetName s; OscFreqMult := OscFreqMult s; OscAmpldModSource :=
     OscAmpldModSource s; OscDetune := OscDetune s; MixerInputStep := MixerInputStep s; EnvAttackTime
     := EnvAttackTime s; EnvHoldTime := EnvHoldTime s; EnvDecayTime := EnvDecayTime s;
     EnvSustainLevel := EnvSustainLevel s; EnvReleaseTime := EnvReleaseTime s; AmpControlMode :=
     AmpControlMode s; ContourStartLevel := ContourStartLevel s; ContourDelayTime := ContourDelayTime
     s; ContourRampTime := ContourRampTime s; ContourHoldLevel := ContourHoldLevel s; Env2DecayTime
     := Env2DecayTime s; Env2SustainLevel := Env2SustainLevel s; LFO_Freq_x10 := LFO_Freq_x10 s;
     LFO_RampTime := LFO_RampTime s; LFO_FM_Depth := LFO_FM_Depth s; LFO_AM_Depth := LFO_AM_Depth s;
     MixerOutGain_x10 := v; LimiterLevelPc := LimiterLevelPc s |}.

Definition set_LimiterLevelPc (v : Z) (s : PatchParamTable_t) : PatchParamTable_t :=
  {| PresetName := PresetName s; OscFreqMult := OscFreqMult s; OscAmpldModSource :=
     OscAmpldModSource s; OscDetune := OscDetune s; MixerInputStep := MixerInputStep s; EnvAttackTime
     := EnvAttackTime s; EnvHoldTime := EnvHoldTime s; EnvDecayTime := EnvDecayTime s;
     EnvSustainLevel := EnvSustainLevel s; EnvReleaseTime := EnvReleaseTime s; AmpControlMode :=
     AmpControlMode s; ContourStartLevel := ContourStartLevel s; ContourDelayTime := ContourDelayTime
     s; ContourRampTime := ContourRampTime s; ContourHoldLevel := ContourHoldLevel s; Env2DecayTime
     := Env2DecayTime s; Env2SustainLevel := Env2SustainLevel s; LFO_Freq_x10 := LFO_Freq_x10 s;
     LFO_RampTime := LFO_RampTime s; LFO_FM_Depth := LFO_FM_Depth s; LFO_AM_Depth := LFO_AM_Depth s;
     MixerOutGain_x10 := MixerOutGain_x10 s; LimiterLevelPc := v |}.

(** [ConfigParams_t]: the configuration parameters [g_Config]. *)
Record ConfigParams_t : Type := mkConfig {
  AudioAmpldCtrlMode : Z;  (* Override patch param AmpldControlSource *)
  VibratoCtrlMode : Z;  (* Vibrato Control Mode, dflt: 0 (Off) *)
  PitchBendMode : Z;  (* Pitch Bend Control Mode (0: disabled) *)
  PitchBendRange : Z;  (* Pitch Bend range, semitones (1..12) *)
  ReverbMix_pc : Z;  (* Reverb. wet/dry mix (0..100 %) *)
  PresetLastSelected : Z;  (* Preset Last Selected (0..127) *)
  Pitch_CV_BaseNote : Z;  (* Lowest note in Pitch CV range (MIDI #) *)
  Pitch_CV_Quantize : bool;  (* Quantize CV pitch to nearest semitone *)
  CV_ModeAutoSwitch : bool;  (* CV Control Mode enabled by GATE+ signal *)
  CV3_is_Velocity : bool;  (* CV3 input controls Velocity (with ENV1) *)
  CV1_FullScale_mV : Z;  (* CV1 input calibration constant (mV) *)
  FineTuning_cents : Z;  (* Pitch fine-tuning (signed, +/-100 cents) *)
  EEpromCheckWord : Z  (* Data integrity check *)
}.

(** Assignment to one member; every other member is kept. *)
Definition set_AudioAmpldCtrlMode (v : Z) (s : ConfigParams_t) : ConfigParams_t :=
  {| AudioAmpldCtrlMode := v; VibratoCtrlMode := VibratoCtrlMode s; PitchBendMode := PitchBendMode
     s; PitchBendRange := PitchBendRange s; ReverbMix_pc := ReverbMix_pc s; PresetLastSelected :=
     PresetLastSelected s; Pitch_CV_BaseNote := Pitch_CV_BaseNote s; Pitch_CV_Quantize :=
     Pitch_CV_Quantize s; CV_ModeAutoSwitch := CV_ModeAutoSwitch s; CV3_is_Velocity :=
     CV3_is_Velocity s; CV1_FullScale_mV := CV1_FullScale_mV s; FineTuning_cents := FineTuning_cents
     s; EEpromCheckWord := EEpromCheckWord s |}.

Definition set_VibratoCtrlMode (v : Z) (s : ConfigParams_t) : ConfigParams_t :=
  {| AudioAmpldCtrlMode := AudioAmpldCtrlMode s; VibratoCtrlMode := v; PitchBendMode :=
     PitchBendMode s; PitchBendRange := PitchBendRange s; ReverbMix_pc := ReverbMix_pc s;
     PresetLastSelected := PresetLastSelected s; Pitch_CV_BaseNote := Pitch_CV_BaseNote s;
     Pitch_CV_Quantize := Pitch_CV_Quantize s; CV_ModeAutoSwitch := CV_ModeAutoSwitch s;
     CV3_is_Velocity := CV3_is_Velocity s; CV1_FullScale_mV := CV1_FullScale_mV s; FineTuning_cents
     := FineTuning_cents s; EEpromCheckWord := EEpromCheckWord s |}.

Definition set_PitchBendMode (v : Z) (s : ConfigParams_t) : ConfigParams_t :=
  {| AudioAmpldCtrlMode := AudioAmpldCtrlMode s; VibratoCtrlMode := VibratoCtrlMode s;
     PitchBendMode := v; PitchBendRange := PitchBendRange s; ReverbMix_pc := ReverbMix_pc s;
     PresetLastSelected := PresetLastSelected s; Pitch_CV_BaseNote := Pitch_CV_BaseNote s;
     Pitch_CV_Quantize := Pitch_CV_Quantize s; CV_ModeAutoSwitch := CV_ModeAutoSwitch s;
     CV3_is_Velocity := CV3_is_Velocity s; CV1_FullScale_mV := CV1_FullScale_mV s; FineTuning_cents
     := FineTuning_cents s; EEpromCheckWord := EEpromCheckWord s |}.

Definition set_PitchBendRange (v : Z) (s : ConfigParams_t) : ConfigParams_t :=
  {| AudioAmpldCtrlMode := AudioAmpldCtrlMode s; VibratoCtrlMode := VibratoCtrlMode s;
     PitchBendMode := PitchBendMode s; PitchBendRange := v; ReverbMix_pc := ReverbMix_pc s;
     PresetLastSelected := PresetLastSelected s; Pitch_CV_BaseNote := Pitch_CV_BaseNote s;
     Pitch_CV_Quantize := Pitch_CV_Quantize s; CV_ModeAutoSwitch := CV_ModeAutoSwitch s;
     CV3_is_Velocity := CV3_is_Velocity s; CV1_FullScale_mV := CV1_FullScale_mV s; FineTuning_cents
     := FineTuning_cents s; EEpromCheckWord := EEpromCheckWord s |}.

Definition set_ReverbMix_pc (v : Z) (s : ConfigParams_t) : ConfigParams_t :=
  {| AudioAmpldCtrlMode := AudioAmpldCtrlMode s; VibratoCtrlMode := VibratoCtrlMode s;
     PitchBendMode := PitchBendMode s; PitchBendRange := PitchBendRange s; ReverbMix_pc := v;
     PresetLastSelected := PresetLastSelected s; Pitch_CV_BaseNote := Pitch_CV_BaseNote s;
     Pitch_CV_Quantize := Pitch_CV_Quantize s; CV_ModeAutoSwitch := CV_ModeAutoSwitch s;
     CV3_is_Velocity := CV3_is_Velocity s; CV1_FullScale_mV := CV1_FullScale_mV s; FineTuning_cents
     := FineTuning_cents s; EEpromCheckWord := EEpromCheckWord s |}.

Definition set_PresetLastSelected (v : Z) (s : ConfigParams_t) : ConfigParams_t :=
  {| AudioAmpldCtrlMode := AudioAmpldCtrlMode s; VibratoCtrlMode := VibratoCtrlMode s;
     PitchBendMode := PitchBendMode s; PitchBendRange := PitchBendRange s; ReverbMix_pc :=
     ReverbMix_pc s; PresetLastSelected := v; Pitch_CV_BaseNote := Pitch_CV_BaseNote s;
     Pitch_CV_Quantize := Pitch_CV_Quantize s; CV_ModeAutoSwitch := CV_ModeAutoSwitch s;
     CV3_is_Velocity := CV3_is_Velocity s; CV1_FullScale_mV := CV1_FullScale_mV s; FineTuning_cents
     := FineTuning_cents s; EEpromCheckWord := EEpromCheckWord s |}.

Definition set_FineTuning_cents (v : Z) (s : ConfigParams_t) : ConfigParams_t :=
  {| AudioAmpldCtrlMode := AudioAmpldCtrlMode s; VibratoCtrlMode := VibratoCtrlMode s;
     PitchBendMode := PitchBendMode s; PitchBendRange := PitchBendRange s; ReverbMix_pc :=
     ReverbMix_pc s; PresetLastSelected := PresetLastSelected s; Pitch_CV_BaseNote :=
     Pitch_CV_BaseNote s; Pitch_CV_Quantize := Pitch_CV_Quantize s; CV_ModeAutoSwitch :=
     CV_ModeAutoSwitch s; CV3_is_Velocity := CV3_is_Velocity s; CV1_FullScale_mV := CV1_FullScale_mV
     s; FineTuning_cents := v; EEpromCheckWord := EEpromCheckWord s |}.

(** The [static] locals of [AmpldEnvelopeGenerator]; all start at zero, so the
    generator starts in [ENV_IDLE]. *)
Record AmpldEnvLocals : Type := mkAmpldEnvLocals {
  EnvSegment : Envelope_Gen_Phases;  (* Envelope segment (aka "phase") *)
  envPhaseTimer : Z;  (* Time elapsed in envelope phase (ms), uint32_t *)
  sustainLevel : Z;  (* Envelope sustain level, norm. (0 ~ 1.000) *)
  timeConstant : Z;  (* 20% of decay or release time (ms) *)
  ampldDelta : Z;  (* Step change in Env Ampld in 1ms *)
  ampldMaximum : Z  (* Peak value of Envelope Ampld *)
}.

(** Assignment to one member; every other member is kept. *)
Definition set_EnvSegment (v : Envelope_Gen_Phases) (s : AmpldEnvLocals) : AmpldEnvLocals :=
  {| EnvSegment := v; envPhaseTimer := envPhaseTimer s; sustainLevel := sustainLevel s;
     timeConstant := timeConstant s; ampldDelta := ampldDelta s; ampldMaximum := ampldMaximum s |}.

Definition set_envPhaseTimer (v : Z) (s : AmpldEnvLocals) : AmpldEnvLocals :=
  {| EnvSegment := EnvSegment s; envPhaseTimer := v; sustainLevel := sustainLevel s; timeConstant
     := timeConstant s; ampldDelta := ampldDelta s; ampldMaximum := ampldMaximum s |}.

Definition set_sustainLevel (v : Z) (s : AmpldEnvLocals) : AmpldEnvLocals :=
  {| EnvSegment := EnvSegment s; envPhaseTimer := envPhaseTimer s; sustainLevel := v; timeConstant
     := timeConstant s; ampldDelta := ampldDelta s; ampldMaximum := ampldMaximum s |}.

Definition set_timeConstant (v : Z) (s : AmpldEnvLocals) : AmpldEnvLocals :=
  {| EnvSegment := EnvSegment s; envPhaseTimer := envPhaseTimer s; sustainLevel := sustainLevel s;
     timeConstant := v; ampldDelta := ampldDelta s; ampldMaximum := ampldMaximum s |}.

Definition set_ampldDelta (v : Z) (s : AmpldEnvLocals) : AmpldEnvLocals :=
  {| EnvSegment := EnvSegment s; envPhaseTimer := envPhaseTimer s; sustainLevel := sustainLevel s;
     timeConstant := timeConstant s; ampldDelta := v; ampldMaximum := ampldMaximum s |}.

Definition set_ampldMaximum (v : Z) (s : AmpldEnvLocals) : AmpldEnvLocals :=
  {| EnvSegment := EnvSegment s; envPhaseTimer := envPhaseTimer s; sustainLevel := sustainLevel s;
     timeConstant := timeConstant s; ampldDelta := ampldDelta s; ampldMaximum := v |}.

(** The variables of the engine module [m0_synth_engine], with the [static]
    locals of the functions embedded below and the word sent to the DAC. *)
Record Synth : Type := mkSynth {
  ReverbDelayLine : list Z;  (* fixed-point samples *)
  m_OscStepInit : list Z;  (* Osc phase step values at Note-On *)
  m_OscStepDetune : list Z;  (* Osc phase step values with de-tune applied *)
  m_OscMuted : list bool;  (* True if osc freq > 0.4 x SAMPLE_RATE_HZ *)
  m_LFO_PhaseAngle : Z;  (* LFO "phase angle" (24:8 bit fixed-point) *)
  m_LFO_Step : Z;  (* LFO "phase step" (24:8 bit fixed-point) *)
  m_LFO_output : Z;  (* LFO output signal, normalized, bipolar (+/-1.0) *)
  m_RampOutput : Z;  (* Vibrato Ramp output level, normalized (0..+1) *)
  m_ExpressionLevel : Z;  (* Expression level, normalized, unipolar (0..+1) *)
  m_ModulationLevel : Z;  (* Modulation level, normalized, unipolar (0..+1) *)
  m_PitchBendFactor : Z;  (* Pitch-Bend factor, normalized, bipolar (+/-1.0) *)
  m_ENV1_Output : Z;  (* Envelope Generator #1 output (0 ~ 1.0) *)
  m_ENV2_Output : Z;  (* Envelope Generator #2 output (0 ~ 1.0) *)
  m_ContourOutput : Z;  (* Contour EG output, normalized (0 ~ 1.0) *)
  m_KeyVelocity : Z;  (* Note-On Velocity, normalized (0 ~ 1.0) *)
  m_TriggerAttack1 : bool;  (* Signal to put ENV1 into attack *)
  m_TriggerRelease1 : bool;  (* Signal to put ENV1 into release *)
  m_TriggerAttack2 : bool;  (* Signal to put ENV2 into attack *)
  m_TriggerRelease2 : bool;  (* Signal to put ENV2 into release *)
  m_TriggerContour : bool;  (* Signal to start Contour generator *)
  m_TriggerReset : bool;  (* Signal to reset Contour generator *)
  m_LegatoNoteChange : bool;  (* Signal Legato note change to Vibrato func. *)
  m_NoteOn : bool;  (* TRUE if Note ON, ie. "gated", else FALSE *)
  m_NotePlaying : Z;  (* MIDI note number of note playing *)
  m_RvbDelayLen : Z;  (* Reverb. delay line length (samples) *)
  m_RvbDecay : Z;  (* Reverb. decay factor *)
  m_RvbAtten : Z;  (* Reverb. attenuation factor (0..128) *)
  m_RvbMix : Z;  (* Reverb. wet/dry mix ratio (0..128) *)
  v_SynthEnable : bool;  (* Signal to enable synth sampling routine *)
  v_OscAngle : list Z;  (* Osc sample pos'n in wave-table [16:16] *)
  v_OscStep : list Z;  (* Osc sample pos'n increment [16:16] *)
  v_OscAmpldModn : list Z;  (* Osc ampld modulation x1024 (0..1024) *)
  v_MixerLevel : list Z;  (* Mixer input levels x1000 (0..1000) *)
  v_MixerOutGain : Z;  (* Mixer output gain x10 (range 10..128) *)
  v_LimiterLevelPos : Z;  (* Audio limiter level (pos. peak, normalized) *)
  v_LimiterLevelNeg : Z;  (* Audio limiter level (neg. peak, normalized) *)
  v_OutputLevel : Z;  (* Audio output level x1000 (0..1000) *)
  SPI_setupDone : bool;  (* static of SynthPrepare *)
  ENV1 : AmpldEnvLocals;  (* statics of AmpldEnvelopeGenerator *)
  rvbIndex : Z;  (* static of TC3_Handler: index into ReverbDelayLine[] *)
  reverbPrev : Z;  (* static of TC3_Handler: previous output from reverb delay line *)
  spiDACdata : Z  (* the word last written to the audio DAC *)
}.

(** Assignment to one member; every other member is kept. *)
Definition set_ReverbDelayLine (v : list Z) (s : Synth) : Synth :=
  {| ReverbDelayLine := v; m_OscStepInit := m_OscStepInit s; m_OscStepDetune := m_OscStepDetune s;
     m_OscMuted := m_OscMuted s; m_LFO_PhaseAngle := m_LFO_PhaseAngle s; m_LFO_Step := m_LFO_Step s;
     m_LFO_output := m_LFO_output s; m_RampOutput := m_RampOutput s; m_ExpressionLevel :=
     m_ExpressionLevel s; m_ModulationLevel := m_ModulationLevel s; m_PitchBendFactor :=
     m_PitchBendFactor s; m_ENV1_Output := m_ENV1_Output s; m_ENV2_Output := m_ENV2_Output s;
     m_ContourOutput := m_ContourOutput s; m_KeyVelocity := m_KeyVelocity s; m_TriggerAttack1 :=
     m_TriggerAttack1 s; m_TriggerRelease1 := m_TriggerRelease1 s; m_TriggerAttack2 :=
     m_TriggerAttack2 s; m_TriggerRelease2 := m_TriggerRelease2 s; m_TriggerContour :=
     m_TriggerContour s; m_TriggerReset := m_TriggerReset s; m_LegatoNoteChange := m_LegatoNoteChange
     s; m_NoteOn := m_NoteOn s; m_NotePlaying := m_NotePlaying s; m_RvbDelayLen := m_RvbDelayLen s;
     m_RvbDecay := m_RvbDecay s; m_RvbAtten := m_RvbAtten s; m_RvbMix := m_RvbMix s; v_SynthEnable :=
     v_SynthEnable s; v_OscAngle := v_OscAngle s; v_OscStep := v_OscStep s; v_OscAmpldModn :=
     v_OscAmpldModn s; v_MixerLevel := v_MixerLevel s; v_MixerOutGain := v_MixerOutGain s;
     v_LimiterLevelPos := v_LimiterLevelPos s; v_LimiterLevelNeg := v_LimiterLevelNeg s;
     v_OutputLevel := v_OutputLevel s; SPI_setupDone := SPI_setupDone s; ENV1 := ENV1 s; rvbIndex :=
     rvbIndex s; reverbPrev := reverbPrev s; spiDACdata := spiDACdata s |}.

Definition set_m_OscStepInit (v : list Z) (s : Synth) : Synth :=
  {| ReverbDelayLine := ReverbDelayLine s; m_OscStepInit := v; m_OscStepDetune := m_OscStepDetune
     s; m_OscMuted := m_OscMuted s; m_LFO_PhaseAngle := m_LFO_PhaseAngle s; m_LFO_Step := m_LFO_Step
     s; m_LFO_output := m_LFO_output s; m_RampOutput := m_RampOutput s; m_ExpressionLevel :=
     m_ExpressionLevel s; m_ModulationLevel := m_ModulationLevel s; m_PitchBendFactor :=
     m_PitchBendFactor s; m_ENV1_Output := m_ENV1_Output s; m_ENV2_Output := m_ENV2_Output s;
     m_ContourOutput := m_ContourOutput s; m_KeyVelocity := m_KeyVelocity s; m_TriggerAttack1 :=
     m_TriggerAttack1 s; m_TriggerRelease1 := m_TriggerRelease1 s; m_TriggerAttack2 :=
     m_TriggerAttack2 s; m_TriggerRelease2 := m_TriggerRelease2 s; m_TriggerContour :=
     m_TriggerContour s; m_TriggerReset := m_TriggerReset s; m_LegatoNoteChange := m_LegatoNoteChange
     s; m_NoteOn := m_NoteOn s; m_NotePlaying := m_NotePlaying s; m_RvbDelayLen := m_RvbDelayLen s;
     m_RvbDecay := m_RvbDecay s; m_RvbAtten := m_RvbAtten s; m_RvbMix := m_RvbMix s; v_SynthEnable :=
     v_SynthEnable s; v_OscAngle := v_OscAngle s; v_OscStep := v_OscStep s; v_OscAmpldModn :=
     v_OscAmpldModn s; v_MixerLevel := v_MixerLevel s; v_MixerOutGain := v_MixerOutGain s;
     v_LimiterLevelPos := v_LimiterLevelPos s; v_LimiterLevelNeg := v_LimiterLevelNeg s;
     v_OutputLevel := v_OutputLevel s; SPI_setupDone := SPI_setupDone s; ENV1 := ENV1 s; rvbIndex :=
     rvbIndex s; reverbPrev := reverbPrev s; spiDACdata := spiDACdata s |}.

Definition set_m_OscStepDetune (v : list Z) (s : Synth) : Synth :=
  {| ReverbDelayLine := ReverbDelayLine s; m_OscStepInit := m_OscStepInit s; m_OscStepDetune := v;
     m_OscMuted := m_OscMuted s; m_LFO_PhaseAngle := m_LFO_PhaseAngle s; m_LFO_Step := m_LFO_Step s;
     m_LFO_output := m_LFO_output s; m_RampOutput := m_RampOutput s; m_ExpressionLevel :=
     m_ExpressionLevel s; m_ModulationLevel := m_ModulationLevel s; m_PitchBendFactor :=
     m_PitchBendFactor s; m_ENV1_Output := m_ENV1_Output s; m_ENV2_Output := m_ENV2_Output s;
     m_ContourOutput := m_ContourOutput s; m_KeyVelocity := m_KeyVelocity s; m_TriggerAttack1 :=
     m_TriggerAttack1 s; m_TriggerRelease1 := m_TriggerRelease1 s; m_TriggerAttack2 :=
     m_TriggerAttack2 s; m_TriggerRelease2 := m_TriggerRelease2 s; m_TriggerContour :=
     m_TriggerContour s; m_TriggerReset := m_TriggerReset s; m_LegatoNoteChange := m_LegatoNoteChange
     s; m_NoteOn := m_NoteOn s; m_NotePlaying := m_NotePlaying s; m_RvbDelayLen := m_RvbDelayLen s;
     m_RvbDecay := m_RvbDecay s; m_RvbAtten := m_RvbAtten s; m_RvbMix := m_RvbMix s; v_SynthEnable :=
     v_SynthEnable s; v_OscAngle := v_OscAngle s; v_OscStep := v_OscStep s; v_OscAmpldModn :=
     v_OscAmpldModn s; v_MixerLevel := v_MixerLevel s; v_MixerOutGain := v_MixerOutGain s;
     v_LimiterLevelPos := v_LimiterLevelPos s; v_LimiterLevelNeg := v_LimiterLevelNeg s;
     v_OutputLevel := v_OutputLevel s; SPI_setupDone := SPI_setupDone s; ENV1 := ENV1 s; rvbIndex :=
     rvbIndex s; reverbPrev := reverbPrev s; spiDACdata := spiDACdata s |}.

Definition set_m_OscMuted (v : list bool) (s : Synth) : Synth :=
  {| ReverbDelayLine := ReverbDelayLine s; m_OscStepInit := m_OscStepInit s; m_OscStepDetune :=
     m_OscStepDetune s; m_OscMuted := v; m_LFO_PhaseAngle := m_LFO_PhaseAngle s; m_LFO_Step :=
     m_LFO_Step s; m_LFO_output := m_LFO_output s; m_RampOutput := m_RampOutput s; m_ExpressionLevel
     := m_ExpressionLevel s; m_ModulationLevel := m_ModulationLevel s; m_PitchBendFactor :=
     m_PitchBendFactor s; m_ENV1_Output := m_ENV1_Output s; m_ENV2_Output := m_ENV2_Output s;
     m_ContourOutput := m_ContourOutput s; m_KeyVelocity := m_KeyVelocity s; m_TriggerAttack1 :=
     m_TriggerAttack1 s; m_TriggerRelease1 := m_TriggerRelease1 s; m_TriggerAttack2 :=
     m_TriggerAttack2 s; m_TriggerRelease2 := m_TriggerRelease2 s; m_TriggerContour :=
     m_TriggerContour s; m_TriggerReset := m_TriggerReset s; m_LegatoNoteChange := m_LegatoNoteChange
     s; m_NoteOn := m_NoteOn s; m_NotePlaying := m_NotePlaying s; m_RvbDelayLen := m_RvbDelayLen s;
     m_RvbDecay := m_RvbDecay s; m_RvbAtten := m_RvbAtten s; m_RvbMix := m_RvbMix s; v_SynthEnable :=
     v_SynthEnable s; v_OscAngle := v_OscAngle s; v_OscStep := v_OscStep s; v_OscAmpldModn :=
     v_OscAmpldModn s; v_MixerLevel := v_MixerLevel s; v_MixerOutGain := v_MixerOutGain s;
     v_LimiterLevelPos := v_LimiterLevelPos s; v_LimiterLevelNeg := v_LimiterLevelNeg s;
     v_OutputLevel := v_OutputLevel s; SPI_setupDone := SPI_setupDone s; ENV1 := ENV1 s; rvbIndex :=
     rvbIndex s; reverbPrev := reverbPrev s; spiDACdata := spiDACdata s |}.

Definition set_m_LFO_PhaseAngle (v : Z) (s : Synth) : Synth :=
  {| ReverbDelayLine := ReverbDelayLine s; m_OscStepInit := m_OscStepInit s; m_OscStepDetune :=
     m_OscStepDetune s; m_OscMuted := m_OscMuted s; m_LFO_PhaseAngle := v; m_LFO_Step := m_LFO_Step
     s; m_LFO_output := m_LFO_output s; m_RampOutput := m_RampOutput s; m_ExpressionLevel :=
     m_ExpressionLevel s; m_ModulationLevel := m_ModulationLevel s; m_PitchBendFactor :=
     m_PitchBendFactor s; m_ENV1_Output := m_ENV1_Output s; m_ENV2_Output := m_ENV2_Output s;
     m_ContourOutput := m_ContourOutput s; m_KeyVelocity := m_KeyVelocity s; m_TriggerAttack1 :=
     m_TriggerAttack1 s; m_TriggerRelease1 := m_TriggerRelease1 s; m_TriggerAttack2 :=
     m_TriggerAttack2 s; m_TriggerRelease2 := m_TriggerRelease2 s; m_TriggerContour :=
     m_TriggerContour s; m_TriggerReset := m_TriggerReset s; m_LegatoNoteChange := m_LegatoNoteChange
     s; m_NoteOn := m_NoteOn s; m_NotePlaying := m_NotePlaying s; m_RvbDelayLen := m_RvbDelayLen s;
     m_RvbDecay := m_RvbDecay s; m_RvbAtten := m_RvbAtten s; m_RvbMix := m_RvbMix s; v_SynthEnable :=
     v_SynthEnable s; v_OscAngle := v_OscAngle s; v_OscStep := v_OscStep s; v_OscAmpldModn :=
     v_OscAmpldModn s; v_MixerLevel := v_MixerLevel s; v_MixerOutGain := v_MixerOutGain s;
     v_LimiterLevelPos := v_LimiterLevelPos s; v_LimiterLevelNeg := v_LimiterLevelNeg s;
     v_OutputLevel := v_OutputLevel s; SPI_setupDone := SPI_setupDone s; ENV1 := ENV1 s; rvbIndex :=
     rvbIndex s; reverbPrev := reverbPrev s; spiDACdata := spiDACdata s |}.

Definition set_m_LFO_Step (v : Z) (s : Synth) : Synth :=
  {| ReverbDelayLine := ReverbDelayLine s; m_OscStepInit := m_OscStepInit s; m_OscStepDetune :=
     m_OscStepDetune s; m_OscMuted := m_OscMuted s; m_LFO_PhaseAngle := m_LFO_PhaseAngle s;
     m_LFO_Step := v; m_LFO_output := m_LFO_output s; m_RampOutput := m_RampOutput s;
     m_ExpressionLevel := m_ExpressionLevel s; m_ModulationLevel := m_ModulationLevel s;
     m_PitchBendFactor := m_PitchBendFactor s; m_ENV1_Output := m_ENV1_Output s; m_ENV2_Output :=
     m_ENV2_Output s; m_ContourOutput := m_ContourOutput s; m_KeyVelocity := m_KeyVelocity s;
     m_TriggerAttack1 := m_TriggerAttack1 s; m_TriggerRelease1 := m_TriggerRelease1 s;
     m_TriggerAttack2 := m_TriggerAttack2 s; m_TriggerRelease2 := m_TriggerRelease2 s;
     m_TriggerContour := m_TriggerContour s; m_TriggerReset := m_TriggerReset s; m_LegatoNoteChange
     := m_LegatoNoteChange s; m_NoteOn := m_NoteOn s; m_NotePlaying := m_NotePlaying s; m_RvbDelayLen
     := m_RvbDelayLen s; m_RvbDecay := m_RvbDecay s; m_RvbAtten := m_RvbAtten s; m_RvbMix := m_RvbMix
     s; v_SynthEnable := v_SynthEnable s; v_OscAngle := v_OscAngle s; v_OscStep := v_OscStep s;
     v_OscAmpldModn := v_OscAmpldModn s; v_MixerLevel := v_MixerLevel s; v_MixerOutGain :=
     v_MixerOutGain s; v_LimiterLevelPos := v_LimiterLevelPos s; v_LimiterLevelNeg :=
     v_LimiterLevelNeg s; v_OutputLevel := v_OutputLevel s; SPI_setupDone := SPI_setupDone s; ENV1 :=
     ENV1 s; rvbIndex := rvbIndex s; reverbPrev := reverbPrev s; spiDACdata := spiDACdata s |}.

Definition set_m_ExpressionLevel (v : Z) (s : Synth) : Synth :=
  {| ReverbDelayLine := ReverbDelayLine s; m_OscStepInit := m_OscStepInit s; m_OscStepDetune :=
     m_OscStepDetune s; m_OscMuted := m_OscMuted s; m_LFO_PhaseAngle := m_LFO_PhaseAngle s;
     m_LFO_Step := m_LFO_Step s; m_LFO_output := m_LFO_output s; m_RampOutput := m_RampOutput s;
     m_ExpressionLevel := v; m_ModulationLevel := m_ModulationLevel s; m_PitchBendFactor :=
     m_PitchBendFactor s; m_ENV1_Output := m_ENV1_Output s; m_ENV2_Output := m_ENV2_Output s;
     m_ContourOutput := m_ContourOutput s; m_KeyVelocity := m_KeyVelocity s; m_TriggerAttack1 :=
     m_TriggerAttack1 s; m_TriggerRelease1 := m_TriggerRelease1 s; m_TriggerAttack2 :=
     m_TriggerAttack2 s; m_TriggerRelease2 := m_TriggerRelease2 s; m_TriggerContour :=
     m_TriggerContour s; m_TriggerReset := m_TriggerReset s; m_LegatoNoteChange := m_LegatoNoteChange
     s; m_NoteOn := m_NoteOn s; m_NotePlaying := m_NotePlaying s; m_RvbDelayLen := m_RvbDelayLen s;
     m_RvbDecay := m_RvbDecay s; m_RvbAtten := m_RvbAtten s; m_RvbMix := m_RvbMix s; v_SynthEnable :=
     v_SynthEnable s; v_OscAngle := v_OscAngle s; v_OscStep := v_OscStep s; v_OscAmpldModn :=
     v_OscAmpldModn s; v_MixerLevel := v_MixerLevel s; v_MixerOutGain := v_MixerOutGain s;
     v_LimiterLevelPos := v_LimiterLevelPos s; v_LimiterLevelNeg := v_LimiterLevelNeg s;
     v_OutputLevel := v_OutputLevel s; SPI_setupDone := SPI_setupDone s; ENV1 := ENV1 s; rvbIndex :=
     rvbIndex s; reverbPrev := reverbPrev s; spiDACdata := spiDACdata s |}.

Definition set_m_ModulationLevel (v : Z) (s : Synth) : Synth :=
  {| ReverbDelayLine := ReverbDelayLine s; m_OscStepInit := m_OscStepInit s; m_OscStepDetune :=
     m_OscStepDetune s; m_OscMuted := m_OscMuted s; m_LFO_PhaseAngle := m_LFO_PhaseAngle s;
     m_LFO_Step := m_LFO_Step s; m_LFO_output := m_LFO_output s; m_RampOutput := m_RampOutput s;
     m_ExpressionLevel := m_ExpressionLevel s; m_ModulationLevel := v; m_PitchBendFactor :=
     m_PitchBendFactor s; m_ENV1_Output := m_ENV1_Output s; m_ENV2_Output := m_ENV2_Output s;
     m_ContourOutput := m_ContourOutput s; m_KeyVelocity := m_KeyVelocity s; m_TriggerAttack1 :=
     m_TriggerAttack1 s; m_TriggerRelease1 := m_TriggerRelease1 s; m_TriggerAttack2 :=
     m_TriggerAttack2 s; m_TriggerRelease2 := m_TriggerRelease2 s; m_TriggerContour :=
     m_TriggerContour s; m_TriggerReset := m_TriggerReset s; m_LegatoNoteChange := m_LegatoNoteChange
     s; m_NoteOn := m_NoteOn s; m_NotePlaying := m_NotePlaying s; m_RvbDelayLen := m_RvbDelayLen s;
     m_RvbDecay := m_RvbDecay s; m_RvbAtten := m_RvbAtten s; m_RvbMix := m_RvbMix s; v_SynthEnable :=
     v_SynthEnable s; v_OscAngle := v_OscAngle s; v_OscStep := v_OscStep s; v_OscAmpldModn :=
     v_OscAmpldModn s; v_MixerLevel := v_MixerLevel s; v_MixerOutGain := v_MixerOutGain s;
     v_LimiterLevelPos := v_LimiterLevelPos s; v_LimiterLevelNeg := v_LimiterLevelNeg s;
     v_OutputLevel := v_OutputLevel s; SPI_setupDone := SPI_setupDone s; ENV1 := ENV1 s; rvbIndex :=
     rvbIndex s; reverbPrev := reverbPrev s; spiDACdata := spiDACdata s |}.

Definition set_m_PitchBendFactor (v : Z) (s : Synth) : Synth :=
  {| ReverbDelayLine := ReverbDelayLine s; m_OscStepInit := m_OscStepInit s; m_OscStepDetune :=
     m_OscStepDetune s; m_OscMuted := m_OscMuted s; m_LFO_PhaseAngle := m_LFO_PhaseAngle s;
     m_LFO_Step := m_LFO_Step s; m_LFO_output := m_LFO_output s; m_RampOutput := m_RampOutput s;
     m_ExpressionLevel := m_ExpressionLevel s; m_ModulationLevel := m_ModulationLevel s;
     m_PitchBendFactor := v; m_ENV1_Output := m_ENV1_Output s; m_ENV2_Output := m_ENV2_Output s;
     m_ContourOutput := m_ContourOutput s; m_KeyVelocity := m_KeyVelocity s; m_TriggerAttack1 :=
     m_TriggerAttack1 s; m_TriggerRelease1 := m_TriggerRelease1 s; m_TriggerAttack2 :=
     m_TriggerAttack2 s; m_TriggerRelease2 := m_TriggerRelease2 s; m_TriggerContour :=
     m_TriggerContour s; m_TriggerReset := m_TriggerReset s; m_LegatoNoteChange := m_LegatoNoteChange
     s; m_NoteOn := m_NoteOn s; m_NotePlaying := m_NotePlaying s; m_RvbDelayLen := m_RvbDelayLen s;
     m_RvbDecay := m_RvbDecay s; m_RvbAtten := m_RvbAtten s; m_RvbMix := m_RvbMix s; v_SynthEnable :=
     v_SynthEnable s; v_OscAngle := v_OscAngle s; v_OscStep := v_OscStep s; v_OscAmpldModn :=
     v_OscAmpldModn s; v_MixerLevel := v_MixerLevel s; v_MixerOutGain := v_MixerOutGain s;
     v_LimiterLevelPos := v_LimiterLevelPos s; v_LimiterLevelNeg := v_LimiterLevelNeg s;
     v_OutputLevel := v_OutputLevel s; SPI_setupDone := SPI_setupDone s; ENV1 := ENV1 s; rvbIndex :=
     rvbIndex s; reverbPrev := reverbPrev s; spiDACdata := spiDACdata s |}.

Definition set_m_ENV1_Output (v : Z) (s : Synth) : Synth :=
  {| ReverbDelayLine := ReverbDelayLine s; m_OscStepInit := m_OscStepInit s; m_OscStepDetune :=
     m_OscStepDetune s; m_OscMuted := m_OscMuted s; m_LFO_PhaseAngle := m_LFO_PhaseAngle s;
     m_LFO_Step := m_LFO_Step s; m_LFO_output := m_LFO_output s; m_RampOutput := m_RampOutput s;
     m_ExpressionLevel := m_ExpressionLevel s; m_ModulationLevel := m_ModulationLevel s;
     m_PitchBendFactor := m_PitchBendFactor s; m_ENV1_Output := v; m_ENV2_Output := m_ENV2_Output s;
     m_ContourOutput := m_ContourOutput s; m_KeyVelocity := m_KeyVelocity s; m_TriggerAttack1 :=
     m_TriggerAttack1 s; m_TriggerRelease1 := m_TriggerRelease1 s; m_TriggerAttack2 :=
     m_TriggerAttack2 s; m_TriggerRelease2 := m_TriggerRelease2 s; m_TriggerContour :=
     m_TriggerContour s; m_TriggerReset := m_TriggerReset s; m_LegatoNoteChange := m_LegatoNoteChange
     s; m_NoteOn := m_NoteOn s; m_NotePlaying := m_NotePlaying s; m_RvbDelayLen := m_RvbDelayLen s;
     m_RvbDecay := m_RvbDecay s; m_RvbAtten := m_RvbAtten s; m_RvbMix := m_RvbMix s; v_SynthEnable :=
     v_SynthEnable s; v_OscAngle := v_OscAngle s; v_OscStep := v_OscStep s; v_OscAmpldModn :=
     v_OscAmpldModn s; v_MixerLevel := v_MixerLevel s; v_MixerOutGain := v_MixerOutGain s;
     v_LimiterLevelPos := v_LimiterLevelPos s; v_LimiterLevelNeg := v_LimiterLevelNeg s;
     v_OutputLevel := v_OutputLevel s; SPI_setupDone := SPI_setupDone s; ENV1 := ENV1 s; rvbIndex :=
     rvbIndex s; reverbPrev := reverbPrev s; spiDACdata := spiDACdata s |}.

Definition set_m_KeyVelocity (v : Z) (s : Synth) : Synth :=
  {| ReverbDelayLine := ReverbDelayLine s; m_OscStepInit := m_OscStepInit s; m_OscStepDetune :=
     m_OscStepDetune s; m_OscMuted := m_OscMuted s; m_LFO_PhaseAngle := m_LFO_PhaseAngle s;
     m_LFO_Step := m_LFO_Step s; m_LFO_output := m_LFO_output s; m_RampOutput := m_RampOutput s;
     m_ExpressionLevel := m_ExpressionLevel s; m_ModulationLevel := m_ModulationLevel s;
     m_PitchBendFactor := m_PitchBendFactor s; m_ENV1_Output := m_ENV1_Output s; m_ENV2_Output :=
     m_ENV2_Output s; m_ContourOutput := m_ContourOutput s; m_KeyVelocity := v; m_TriggerAttack1 :=
     m_TriggerAttack1 s; m_TriggerRelease1 := m_TriggerRelease1 s; m_TriggerAttack2 :=
     m_TriggerAttack2 s; m_TriggerRelease2 := m_TriggerRelease2 s; m_TriggerContour :=
     m_TriggerContour s; m_TriggerReset := m_TriggerReset s; m_LegatoNoteChange := m_LegatoNoteChange
     s; m_NoteOn := m_NoteOn s; m_NotePlaying := m_NotePlaying s; m_RvbDelayLen := m_RvbDelayLen s;
     m_RvbDecay := m_RvbDecay s; m_RvbAtten := m_RvbAtten s; m_RvbMix := m_RvbMix s; v_SynthEnable :=
     v_SynthEnable s; v_OscAngle := v_OscAngle s; v_OscStep := v_OscStep s; v_OscAmpldModn :=
     v_OscAmpldModn s; v_MixerLevel := v_MixerLevel s; v_MixerOutGain := v_MixerOutGain s;
     v_LimiterLevelPos := v_LimiterLevelPos s; v_LimiterLevelNeg := v_LimiterLevelNeg s;
     v_OutputLevel := v_OutputLevel s; SPI_setupDone := SPI_setupDone s; ENV1 := ENV1 s; rvbIndex :=
     rvbIndex s; reverbPrev := reverbPrev s; spiDACdata := spiDACdata s |}.

Definition set_m_TriggerAttack1 (v : bool) (s : Synth) : Synth :=
  {| ReverbDelayLine := ReverbDelayLine s; m_OscStepInit := m_OscStepInit s; m_OscStepDetune :=
     m_OscStepDetune s; m_OscMuted := m_OscMuted s; m_LFO_PhaseAngle := m_LFO_PhaseAngle s;
     m_LFO_Step := m_LFO_Step s; m_LFO_output := m_LFO_output s; m_RampOutput := m_RampOutput s;
     m_ExpressionLevel := m_ExpressionLevel s; m_ModulationLevel := m_ModulationLevel s;
     m_PitchBendFactor := m_PitchBendFactor s; m_ENV1_Output := m_ENV1_Output s; m_ENV2_Output :=
     m_ENV2_Output s; m_ContourOutput := m_ContourOutput s; m_KeyVelocity := m_KeyVelocity s;
     m_TriggerAttack1 := v; m_TriggerRelease1 := m_TriggerRelease1 s; m_TriggerAttack2 :=
     m_TriggerAttack2 s; m_TriggerRelease2 := m_TriggerRelease2 s; m_TriggerContour :=
     m_TriggerContour s; m_TriggerReset := m_TriggerReset s; m_LegatoNoteChange := m_LegatoNoteChange
     s; m_NoteOn := m_NoteOn s; m_NotePlaying := m_NotePlaying s; m_RvbDelayLen := m_RvbDelayLen s;
     m_RvbDecay := m_RvbDecay s; m_RvbAtten := m_RvbAtten s; m_RvbMix := m_RvbMix s; v_SynthEnable :=
     v_SynthEnable s; v_OscAngle := v_OscAngle s; v_OscStep := v_OscStep s; v_OscAmpldModn :=
     v_OscAmpldModn s; v_MixerLevel := v_MixerLevel s; v_MixerOutGain := v_MixerOutGain s;
     v_LimiterLevelPos := v_LimiterLevelPos s; v_LimiterLevelNeg := v_LimiterLevelNeg s;
     v_OutputLevel := v_OutputLevel s; SPI_setupDone := SPI_setupDone s; ENV1 := ENV1 s; rvbIndex :=
     rvbIndex s; reverbPrev := reverbPrev s; spiDACdata := spiDACdata s |}.

Definition set_m_TriggerRelease1 (v : bool) (s : Synth) : Synth :=
  {| ReverbDelayLine := ReverbDelayLine s; m_OscStepInit := m_OscStepInit s; m_OscStepDetune :=
     m_OscStepDetune s; m_OscMuted := m_OscMuted s; m_LFO_PhaseAngle := m_LFO_PhaseAngle s;
     m_LFO_Step := m_LFO_Step s; m_LFO_output := m_LFO_output s; m_RampOutput := m_RampOutput s;
     m_ExpressionLevel := m_ExpressionLevel s; m_ModulationLevel := m_ModulationLevel s;
     m_PitchBendFactor := m_PitchBendFactor s; m_ENV1_Output := m_ENV1_Output s; m_ENV2_Output :=
     m_ENV2_Output s; m_ContourOutput := m_ContourOutput s; m_KeyVelocity := m_KeyVelocity s;
     m_TriggerAttack1 := m_TriggerAttack1 s; m_TriggerRelease1 := v; m_TriggerAttack2 :=
     m_TriggerAttack2 s; m_TriggerRelease2 := m_TriggerRelease2 s; m_TriggerContour :=
     m_TriggerContour s; m_TriggerReset := m_TriggerReset s; m_LegatoNoteChange := m_LegatoNoteChange
     s; m_NoteOn := m_NoteOn s; m_NotePlaying := m_NotePlaying s; m_RvbDelayLen := m_RvbDelayLen s;
     m_RvbDecay := m_RvbDecay s; m_RvbAtten := m_RvbAtten s; m_RvbMix := m_RvbMix s; v_SynthEnable :=
     v_SynthEnable s; v_OscAngle := v_OscAngle s; v_OscStep := v_OscStep s; v_OscAmpldModn :=
     v_OscAmpldModn s; v_MixerLevel := v_MixerLevel s; v_MixerOutGain := v_MixerOutGain s;
     v_LimiterLevelPos := v_LimiterLevelPos s; v_LimiterLevelNeg := v_LimiterLevelNeg s;
     v_OutputLevel := v_OutputLevel s; SPI_setupDone := SPI_setupDone s; ENV1 := ENV1 s; rvbIndex :=
     rvbIndex s; reverbPrev := reverbPrev s; spiDACdata := spiDACdata s |}.

Definition set_m_TriggerAttack2 (v : bool) (s : Synth) : Synth :=
  {| ReverbDelayLine := ReverbDelayLine s; m_OscStepInit := m_OscStepInit s; m_OscStepDetune :=
     m_OscStepDetune s; m_OscMuted := m_OscMuted s; m_LFO_PhaseAngle := m_LFO_PhaseAngle s;
     m_LFO_Step := m_LFO_Step s; m_LFO_output := m_LFO_output s; m_RampOutput := m_RampOutput s;
     m_ExpressionLevel := m_ExpressionLevel s; m_ModulationLevel := m_ModulationLevel s;
     m_PitchBendFactor := m_PitchBendFactor s; m_ENV1_Output := m_ENV1_Output s; m_ENV2_Output :=
     m_ENV2_Output s; m_ContourOutput := m_ContourOutput s; m_KeyVelocity := m_KeyVelocity s;
     m_TriggerAttack1 := m_TriggerAttack1 s; m_TriggerRelease1 := m_TriggerRelease1 s;
     m_TriggerAttack2 := v; m_TriggerRelease2 := m_TriggerRelease2 s; m_TriggerContour :=
     m_TriggerContour s; m_TriggerReset := m_TriggerReset s; m_LegatoNoteChange := m_LegatoNoteChange
     s; m_NoteOn := m_NoteOn s; m_NotePlaying := m_NotePlaying s; m_RvbDelayLen := m_RvbDelayLen s;
     m_RvbDecay := m_RvbDecay s; m_RvbAtten := m_RvbAtten s; m_RvbMix := m_RvbMix s; v_SynthEnable :=
     v_SynthEnable s; v_OscAngle := v_OscAngle s; v_OscStep := v_OscStep s; v_OscAmpldModn :=
     v_OscAmpldModn s; v_MixerLevel := v_MixerLevel s; v_MixerOutGain := v_MixerOutGain s;
     v_LimiterLevelPos := v_LimiterLevelPos s; v_LimiterLevelNeg := v_LimiterLevelNeg s;
     v_OutputLevel := v_OutputLevel s; SPI_setupDone := SPI_setupDone s; ENV1 := ENV1 s; rvbIndex :=
     rvbIndex s; reverbPrev := reverbPrev s; spiDACdata := spiDACdata s |}.

Definition set_m_TriggerRelease2 (v : bool) (s : Synth) : Synth :=
  {| ReverbDelayLine := ReverbDelayLine s; m_OscStepInit := m_OscStepInit s; m_OscStepDetune :=
     m_OscStepDetune s; m_OscMuted := m_OscMuted s; m_LFO_PhaseAngle := m_LFO_PhaseAngle s;
     m_LFO_Step := m_LFO_Step s; m_LFO_output := m_LFO_output s; m_RampOutput := m_RampOutput s;
     m_ExpressionLevel := m_ExpressionLevel s; m_ModulationLevel := m_ModulationLevel s;
     m_PitchBendFactor := m_PitchBendFactor s; m_ENV1_Output := m_ENV1_Output s; m_ENV2_Output :=
     m_ENV2_Output s; m_ContourOutput := m_ContourOutput s; m_KeyVelocity := m_KeyVelocity s;
     m_TriggerAttack1 := m_TriggerAttack1 s; m_TriggerRelease1 := m_TriggerRelease1 s;
     m_TriggerAttack2 := m_TriggerAttack2 s; m_TriggerRelease2 := v; m_TriggerContour :=
     m_TriggerContour s; m_TriggerReset := m_TriggerReset s; m_LegatoNoteChange := m_LegatoNoteChange
     s; m_NoteOn := m_NoteOn s; m_NotePlaying := m_NotePlaying s; m_RvbDelayLen := m_RvbDelayLen s;
     m_RvbDecay := m_RvbDecay s; m_RvbAtten := m_RvbAtten s; m_RvbMix := m_RvbMix s; v_SynthEnable :=
     v_SynthEnable s; v_OscAngle := v_OscAngle s; v_OscStep := v_OscStep s; v_OscAmpldModn :=
     v_OscAmpldModn s; v_MixerLevel := v_MixerLevel s; v_MixerOutGain := v_MixerOutGain s;
     v_LimiterLevelPos := v_LimiterLevelPos s; v_LimiterLevelNeg := v_LimiterLevelNeg s;
     v_OutputLevel := v_OutputLevel s; SPI_setupDone := SPI_setupDone s; ENV1 := ENV1 s; rvbIndex :=
     rvbIndex s; reverbPrev := reverbPrev s; spiDACdata := spiDACdata s |}.

Definition set_m_TriggerContour (v : bool) (s : Synth) : Synth :=
  {| ReverbDelayLine := ReverbDelayLine s; m_OscStepInit := m_OscStepInit s; m_OscStepDetune :=
     m_OscStepDetune s; m_OscMuted := m_OscMuted s; m_LFO_PhaseAngle := m_LFO_PhaseAngle s;
     m_LFO_Step := m_LFO_Step s; m_LFO_output := m_LFO_output s; m_RampOutput := m_RampOutput s;
     m_ExpressionLevel := m_ExpressionLevel s; m_ModulationLevel := m_ModulationLevel s;
     m_PitchBendFactor := m_PitchBendFactor s; m_ENV1_Output := m_ENV1_Output s; m_ENV2_Output :=
     m_ENV2_Output s; m_ContourOutput := m_ContourOutput s; m_KeyVelocity := m_KeyVelocity s;
     m_TriggerAttack1 := m_TriggerAttack1 s; m_TriggerRelease1 := m_TriggerRelease1 s;
     m_TriggerAttack2 := m_TriggerAttack2 s; m_TriggerRelease2 := m_TriggerRelease2 s;
     m_TriggerContour := v; m_TriggerReset := m_TriggerReset s; m_LegatoNoteChange :=
     m_LegatoNoteChange s; m_NoteOn := m_NoteOn s; m_NotePlaying := m_NotePlaying s; m_RvbDelayLen :=
     m_RvbDelayLen s; m_RvbDecay := m_RvbDecay s; m_RvbAtten := m_RvbAtten s; m_RvbMix := m_RvbMix s;
     v_SynthEnable := v_SynthEnable s; v_OscAngle := v_OscAngle s; v_OscStep := v_OscStep s;
     v_OscAmpldModn := v_OscAmpldModn s; v_MixerLevel := v_MixerLevel s; v_MixerOutGain :=
     v_MixerOutGain s; v_LimiterLevelPos := v_LimiterLevelPos s; v_LimiterLevelNeg :=
     v_LimiterLevelNeg s; v_OutputLevel := v_OutputLevel s; SPI_setupDone := SPI_setupDone s; ENV1 :=
     ENV1 s; rvbIndex := rvbIndex s; reverbPrev := reverbPrev s; spiDACdata := spiDACdata s |}.

Definition set_m_TriggerReset (v : bool) (s : Synth) : Synth :=
  {| ReverbDelayLine := ReverbDelayLine s; m_OscStepInit := m_OscStepInit s; m_OscStepDetune :=
     m_OscStepDetune s; m_OscMuted := m_OscMuted s; m_LFO_PhaseAngle := m_LFO_PhaseAngle s;
     m_LFO_Step := m_LFO_Step s; m_LFO_output := m_LFO_output s; m_RampOutput := m_RampOutput s;
     m_ExpressionLevel := m_ExpressionLevel s; m_ModulationLevel := m_ModulationLevel s;
     m_PitchBendFactor := m_PitchBendFactor s; m_ENV1_Output := m_ENV1_Output s; m_ENV2_Output :=
     m_ENV2_Output s; m_ContourOutput := m_ContourOutput s; m_KeyVelocity := m_KeyVelocity s;
     m_TriggerAttack1 := m_TriggerAttack1 s; m_TriggerRelease1 := m_TriggerRelease1 s;
     m_TriggerAttack2 := m_TriggerAttack2 s; m_TriggerRelease2 := m_TriggerRelease2 s;
     m_TriggerContour := m_TriggerContour s; m_TriggerReset := v; m_LegatoNoteChange :=
     m_LegatoNoteChange s; m_NoteOn := m_NoteOn s; m_NotePlaying := m_NotePlaying s; m_RvbDelayLen :=
     m_RvbDelayLen s; m_RvbDecay := m_RvbDecay s; m_RvbAtten := m_RvbAtten s; m_RvbMix := m_RvbMix s;
     v_SynthEnable := v_SynthEnable s; v_OscAngle := v_OscAngle s; v_OscStep := v_OscStep s;
     v_OscAmpldModn := v_OscAmpldModn s; v_MixerLevel := v_MixerLevel s; v_MixerOutGain :=
     v_MixerOutGain s; v_LimiterLevelPos := v_LimiterLevelPos s; v_LimiterLevelNeg :=
     v_LimiterLevelNeg s; v_OutputLevel := v_OutputLevel s; SPI_setupDone := SPI_setupDone s; ENV1 :=
     ENV1 s; rvbIndex := rvbIndex s; reverbPrev := reverbPrev s; spiDACdata := spiDACdata s |}.

Definition set_m_LegatoNoteChange (v : bool) (s : Synth) : Synth :=
  {| ReverbDelayLine := ReverbDelayLine s; m_OscStepInit := m_OscStepInit s; m_OscStepDetune :=
     m_OscStepDetune s; m_OscMuted := m_OscMuted s; m_LFO_PhaseAngle := m_LFO_PhaseAngle s;
     m_LFO_Step := m_LFO_Step s; m_LFO_output := m_LFO_output s; m_RampOutput := m_RampOutput s;
     m_ExpressionLevel := m_ExpressionLevel s; m_ModulationLevel := m_ModulationLevel s;
     m_PitchBendFactor := m_PitchBendFactor s; m_ENV1_Output := m_ENV1_Output s; m_ENV2_Output :=
     m_ENV2_Output s; m_ContourOutput := m_ContourOutput s; m_KeyVelocity := m_KeyVelocity s;
     m_TriggerAttack1 := m_TriggerAttack1 s; m_TriggerRelease1 := m_TriggerRelease1 s;
     m_TriggerAttack2 := m_TriggerAttack2 s; m_TriggerRelease2 := m_TriggerRelease2 s;
     m_TriggerContour := m_TriggerContour s; m_TriggerReset := m_TriggerReset s; m_LegatoNoteChange
     := v; m_NoteOn := m_NoteOn s; m_NotePlaying := m_NotePlaying s; m_RvbDelayLen := m_RvbDelayLen
     s; m_RvbDecay := m_RvbDecay s; m_RvbAtten := m_RvbAtten s; m_RvbMix := m_RvbMix s; v_SynthEnable
     := v_SynthEnable s; v_OscAngle := v_OscAngle s; v_OscStep := v_OscStep s; v_OscAmpldModn :=
     v_OscAmpldModn s; v_MixerLevel := v_MixerLevel s; v_MixerOutGain := v_MixerOutGain s;
     v_LimiterLevelPos := v_LimiterLevelPos s; v_LimiterLevelNeg := v_LimiterLevelNeg s;
     v_OutputLevel := v_OutputLevel s; SPI_setupDone := SPI_setupDone s; ENV1 := ENV1 s; rvbIndex :=
     rvbIndex s; reverbPrev := reverbPrev s; spiDACdata := spiDACdata s |}.

Definition set_m_NoteOn (v : bool) (s : Synth) : Synth :=
  {| ReverbDelayLine := ReverbDelayLine s; m_OscStepInit := m_OscStepInit s; m_OscStepDetune :=
     m_OscStepDetune s; m_OscMuted := m_OscMuted s; m_LFO_PhaseAngle := m_LFO_PhaseAngle s;
     m_LFO_Step := m_LFO_Step s; m_LFO_output := m_LFO_output s; m_RampOutput := m_RampOutput s;
     m_ExpressionLevel := m_ExpressionLevel s; m_ModulationLevel := m_ModulationLevel s;
     m_PitchBendFactor := m_PitchBendFactor s; m_ENV1_Output := m_ENV1_Output s; m_ENV2_Output :=
     m_ENV2_Output s; m_ContourOutput := m_ContourOutput s; m_KeyVelocity := m_KeyVelocity s;
     m_TriggerAttack1 := m_TriggerAttack1 s; m_TriggerRelease1 := m_TriggerRelease1 s;
     m_TriggerAttack2 := m_TriggerAttack2 s; m_TriggerRelease2 := m_TriggerRelease2 s;
     m_TriggerContour := m_TriggerContour s; m_TriggerReset := m_TriggerReset s; m_LegatoNoteChange
     := m_LegatoNoteChange s; m_NoteOn := v; m_NotePlaying := m_NotePlaying s; m_RvbDelayLen :=
     m_RvbDelayLen s; m_RvbDecay := m_RvbDecay s; m_RvbAtten := m_RvbAtten s; m_RvbMix := m_RvbMix s;
     v_SynthEnable := v_SynthEnable s; v_OscAngle := v_OscAngle s; v_OscStep := v_OscStep s;
     v_OscAmpldModn := v_OscAmpldModn s; v_MixerLevel := v_MixerLevel s; v_MixerOutGain :=
     v_MixerOutGain s; v_LimiterLevelPos := v_LimiterLevelPos s; v_LimiterLevelNeg :=
     v_LimiterLevelNeg s; v_OutputLevel := v_OutputLevel s; SPI_setupDone := SPI_setupDone s; ENV1 :=
     ENV1 s; rvbIndex := rvbIndex s; reverbPrev := reverbPrev s; spiDACdata := spiDACdata s |}.

Definition set_m_NotePlaying (v : Z) (s : Synth) : Synth :=
  {| ReverbDelayLine := ReverbDelayLine s; m_OscStepInit := m_OscStepInit s; m_OscStepDetune :=
     m_OscStepDetune s; m_OscMuted := m_OscMuted s; m_LFO_PhaseAngle := m_LFO_PhaseAngle s;
     m_LFO_Step := m_LFO_Step s; m_LFO_output := m_LFO_output s; m_RampOutput := m_RampOutput s;
     m_ExpressionLevel := m_ExpressionLevel s; m_ModulationLevel := m_ModulationLevel s;
     m_PitchBendFactor := m_PitchBendFactor s; m_ENV1_Output := m_ENV1_Output s; m_ENV2_Output :=
     m_ENV2_Output s; m_ContourOutput := m_ContourOutput s; m_KeyVelocity := m_KeyVelocity s;
     m_TriggerAttack1 := m_TriggerAttack1 s; m_TriggerRelease1 := m_TriggerRelease1 s;
     m_TriggerAttack2 := m_TriggerAttack2 s; m_TriggerRelease2 := m_TriggerRelease2 s;
     m_TriggerContour := m_TriggerContour s; m_TriggerReset := m_TriggerReset s; m_LegatoNoteChange
     := m_LegatoNoteChange s; m_NoteOn := m_NoteOn s; m_NotePlaying := v; m_RvbDelayLen :=
     m_RvbDelayLen s; m_RvbDecay := m_RvbDecay s; m_RvbAtten := m_RvbAtten s; m_RvbMix := m_RvbMix s;
     v_SynthEnable := v_SynthEnable s; v_OscAngle := v_OscAngle s; v_OscStep := v_OscStep s;
     v_OscAmpldModn := v_OscAmpldModn s; v_MixerLevel := v_MixerLevel s; v_MixerOutGain :=
     v_MixerOutGain s; v_LimiterLevelPos := v_LimiterLevelPos s; v_LimiterLevelNeg :=
     v_LimiterLevelNeg s; v_OutputLevel := v_OutputLevel s; SPI_setupDone := SPI_setupDone s; ENV1 :=
     ENV1 s; rvbIndex := rvbIndex s; reverbPrev := reverbPrev s; spiDACdata := spiDACdata s |}.

Definition set_m_RvbDelayLen (v : Z) (s : Synth) : Synth :=
  {| ReverbDelayLine := ReverbDelayLine s; m_OscStepInit := m_OscStepInit s; m_OscStepDetune :=
     m_OscStepDetune s; m_OscMuted := m_OscMuted s; m_LFO_PhaseAngle := m_LFO_PhaseAngle s;
     m_LFO_Step := m_LFO_Step s; m_LFO_output := m_LFO_output s; m_RampOutput := m_RampOutput s;
     m_ExpressionLevel := m_ExpressionLevel s; m_ModulationLevel := m_ModulationLevel s;
     m_PitchBendFactor := m_PitchBendFactor s; m_ENV1_Output := m_ENV1_Output s; m_ENV2_Output :=
     m_ENV2_Output s; m_ContourOutput := m_ContourOutput s; m_KeyVelocity := m_KeyVelocity s;
     m_TriggerAttack1 := m_TriggerAttack1 s; m_TriggerRelease1 := m_TriggerRelease1 s;
     m_TriggerAttack2 := m_TriggerAttack2 s; m_TriggerRelease2 := m_TriggerRelease2 s;
     m_TriggerContour := m_TriggerContour s; m_TriggerReset := m_TriggerReset s; m_LegatoNoteChange
     := m_LegatoNoteChange s; m_NoteOn := m_NoteOn s; m_NotePlaying := m_NotePlaying s; m_RvbDelayLen
     := v; m_RvbDecay := m_RvbDecay s; m_RvbAtten := m_RvbAtten s; m_RvbMix := m_RvbMix s;
     v_SynthEnable := v_SynthEnable s; v_OscAngle := v_OscAngle s; v_OscStep := v_OscStep s;
     v_OscAmpldModn := v_OscAmpldModn s; v_MixerLevel := v_MixerLevel s; v_MixerOutGain :=
     v_MixerOutGain s; v_LimiterLevelPos := v_LimiterLevelPos s; v_LimiterLevelNeg :=
     v_LimiterLevelNeg s; v_OutputLevel := v_OutputLevel s; SPI_setupDone := SPI_setupDone s; ENV1 :=
     ENV1 s; rvbIndex := rvbIndex s; reverbPrev := reverbPrev s; spiDACdata := spiDACdata s |}.

Definition set_m_RvbDecay (v : Z) (s : Synth) : Synth :=
  {| ReverbDelayLine := ReverbDelayLine s; m_OscStepInit := m_OscStepInit s; m_OscStepDetune :=
     m_OscStepDetune s; m_OscMuted := m_OscMuted s; m_LFO_PhaseAngle := m_LFO_PhaseAngle s;
     m_LFO_Step := m_LFO_Step s; m_LFO_output := m_LFO_output s; m_RampOutput := m_RampOutput s;
     m_ExpressionLevel := m_ExpressionLevel s; m_ModulationLevel := m_ModulationLevel s;
     m_PitchBendFactor := m_PitchBendFactor s; m_ENV1_Output := m_ENV1_Output s; m_ENV2_Output :=
     m_ENV2_Output s; m_ContourOutput := m_ContourOutput s; m_KeyVelocity := m_KeyVelocity s;
     m_TriggerAttack1 := m_TriggerAttack1 s; m_TriggerRelease1 := m_TriggerRelease1 s;
     m_TriggerAttack2 := m_TriggerAttack2 s; m_TriggerRelease2 := m_TriggerRelease2 s;
     m_TriggerContour := m_TriggerContour s; m_TriggerReset := m_TriggerReset s; m_LegatoNoteChange
     := m_LegatoNoteChange s; m_NoteOn := m_NoteOn s; m_NotePlaying := m_NotePlaying s; m_RvbDelayLen
     := m_RvbDelayLen s; m_RvbDecay := v; m_RvbAtten := m_RvbAtten s; m_RvbMix := m_RvbMix s;
     v_SynthEnable := v_SynthEnable s; v_OscAngle := v_OscAngle s; v_OscStep := v_OscStep s;
     v_OscAmpldModn := v_OscAmpldModn s; v_MixerLevel := v_MixerLevel s; v_MixerOutGain :=
     v_MixerOutGain s; v_LimiterLevelPos := v_LimiterLevelPos s; v_LimiterLevelNeg :=
     v_LimiterLevelNeg s; v_OutputLevel := v_OutputLevel s; SPI_setupDone := SPI_setupDone s; ENV1 :=
     ENV1 s; rvbIndex := rvbIndex s; reverbPrev := reverbPrev s; spiDACdata := spiDACdata s |}.

Definition set_m_RvbAtten (v : Z) (s : Synth) : Synth :=
  {| ReverbDelayLine := ReverbDelayLine s; m_OscStepInit := m_OscStepInit s; m_OscStepDetune :=
     m_OscStepDetune s; m_OscMuted := m_OscMuted s; m_LFO_PhaseAngle := m_LFO_PhaseAngle s;
     m_LFO_Step := m_LFO_Step s; m_LFO_output := m_LFO_output s; m_RampOutput := m_RampOutput s;
     m_ExpressionLevel := m_ExpressionLevel s; m_ModulationLevel := m_ModulationLevel s;
     m_PitchBendFactor := m_PitchBendFactor s; m_ENV1_Output := m_ENV1_Output s; m_ENV2_Output :=
     m_ENV2_Output s; m_ContourOutput := m_ContourOutput s; m_KeyVelocity := m_KeyVelocity s;
     m_TriggerAttack1 := m_TriggerAttack1 s; m_TriggerRelease1 := m_TriggerRelease1 s;
     m_TriggerAttack2 := m_TriggerAttack2 s; m_TriggerRelease2 := m_TriggerRelease2 s;
     m_TriggerContour := m_TriggerContour s; m_TriggerReset := m_TriggerReset s; m_LegatoNoteChange
     := m_LegatoNoteChange s; m_NoteOn := m_NoteOn s; m_NotePlaying := m_NotePlaying s; m_RvbDelayLen
     := m_RvbDelayLen s; m_RvbDecay := m_RvbDecay s; m_RvbAtten := v; m_RvbMix := m_RvbMix s;
     v_SynthEnable := v_SynthEnable s; v_OscAngle := v_OscAngle s; v_OscStep := v_OscStep s;
     v_OscAmpldModn := v_OscAmpldModn s; v_MixerLevel := v_MixerLevel s; v_MixerOutGain :=
     v_MixerOutGain s; v_LimiterLevelPos := v_LimiterLevelPos s; v_LimiterLevelNeg :=
     v_LimiterLevelNeg s; v_OutputLevel := v_OutputLevel s; SPI_setupDone := SPI_setupDone s; ENV1 :=
     ENV1 s; rvbIndex := rvbIndex s; reverbPrev := reverbPrev s; spiDACdata := spiDACdata s |}.

Definition set_m_RvbMix (v : Z) (s : Synth) : Synth :=
  {| ReverbDelayLine := ReverbDelayLine s; m_OscStepInit := m_OscStepInit s; m_OscStepDetune :=
     m_OscStepDetune s; m_OscMuted := m_OscMuted s; m_LFO_PhaseAngle := m_LFO_PhaseAngle s;
     m_LFO_Step := m_LFO_Step s; m_LFO_output := m_LFO_output s; m_RampOutput := m_RampOutput s;
     m_ExpressionLevel := m_ExpressionLevel s; m_ModulationLevel := m_ModulationLevel s;
     m_PitchBendFactor := m_PitchBendFactor s; m_ENV1_Output := m_ENV1_Output s; m_ENV2_Output :=
     m_ENV2_Output s; m_ContourOutput := m_ContourOutput s; m_KeyVelocity := m_KeyVelocity s;
     m_TriggerAttack1 := m_TriggerAttack1 s; m_TriggerRelease1 := m_TriggerRelease1 s;
     m_TriggerAttack2 := m_TriggerAttack2 s; m_TriggerRelease2 := m_TriggerRelease2 s;
     m_TriggerContour := m_TriggerContour s; m_TriggerReset := m_TriggerReset s; m_LegatoNoteChange
     := m_LegatoNoteChange s; m_NoteOn := m_NoteOn s; m_NotePlaying := m_NotePlaying s; m_RvbDelayLen
     := m_RvbDelayLen s; m_RvbDecay := m_RvbDecay s; m_RvbAtten := m_RvbAtten s; m_RvbMix := v;
     v_SynthEnable := v_SynthEnable s; v_OscAngle := v_OscAngle s; v_OscStep := v_OscStep s;
     v_OscAmpldModn := v_OscAmpldModn s; v_MixerLevel := v_MixerLevel s; v_MixerOutGain :=
     v_MixerOutGain s; v_LimiterLevelPos := v_LimiterLevelPos s; v_LimiterLevelNeg :=
     v_LimiterLevelNeg s; v_OutputLevel := v_OutputLevel s; SPI_setupDone := SPI_setupDone s; ENV1 :=
     ENV1 s; rvbIndex := rvbIndex s; reverbPrev := reverbPrev s; spiDACdata := spiDACdata s |}.

Definition set_v_SynthEnable (v : bool) (s : Synth) : Synth :=
  {| ReverbDelayLine := ReverbDelayLine s; m_OscStepInit := m_OscStepInit s; m_OscStepDetune :=
     m_OscStepDetune s; m_OscMuted := m_OscMuted s; m_LFO_PhaseAngle := m_LFO_PhaseAngle s;
     m_LFO_Step := m_LFO_Step s; m_LFO_output := m_LFO_output s; m_RampOutput := m_RampOutput s;
     m_ExpressionLevel := m_ExpressionLevel s; m_ModulationLevel := m_ModulationLevel s;
     m_PitchBendFactor := m_PitchBendFactor s; m_ENV1_Output := m_ENV1_Output s; m_ENV2_Output :=
     m_ENV2_Output s; m_ContourOutput := m_ContourOutput s; m_KeyVelocity := m_KeyVelocity s;
     m_TriggerAttack1 := m_TriggerAttack1 s; m_TriggerRelease1 := m_TriggerRelease1 s;
     m_TriggerAttack2 := m_TriggerAttack2 s; m_TriggerRelease2 := m_TriggerRelease2 s;
     m_TriggerContour := m_TriggerContour s; m_TriggerReset := m_TriggerReset s; m_LegatoNoteChange
     := m_LegatoNoteChange s; m_NoteOn := m_NoteOn s; m_NotePlaying := m_NotePlaying s; m_RvbDelayLen
     := m_RvbDelayLen s; m_RvbDecay := m_RvbDecay s; m_RvbAtten := m_RvbAtten s; m_RvbMix := m_RvbMix
     s; v_SynthEnable := v; v_OscAngle := v_OscAngle s; v_OscStep := v_OscStep s; v_OscAmpldModn :=
     v_OscAmpldModn s; v_MixerLevel := v_MixerLevel s; v_MixerOutGain := v_MixerOutGain s;
     v_LimiterLevelPos := v_LimiterLevelPos s; v_LimiterLevelNeg := v_LimiterLevelNeg s;
     v_OutputLevel := v_OutputLevel s; SPI_setupDone := SPI_setupDone s; ENV1 := ENV1 s; rvbIndex :=
     rvbIndex s; reverbPrev := reverbPrev s; spiDACdata := spiDACdata s |}.

Definition set_v_OscAngle (v : list Z) (s : Synth) : Synth :=
  {| ReverbDelayLine := ReverbDelayLine s; m_OscStepInit := m_OscStepInit s; m_OscStepDetune :=
     m_OscStepDetune s; m_OscMuted := m_OscMuted s; m_LFO_PhaseAngle := m_LFO_PhaseAngle s;
     m_LFO_Step := m_LFO_Step s; m_LFO_output := m_LFO_output s; m_RampOutput := m_RampOutput s;
     m_ExpressionLevel := m_ExpressionLevel s; m_ModulationLevel := m_ModulationLevel s;
     m_PitchBendFactor := m_PitchBendFactor s; m_ENV1_Output := m_ENV1_Output s; m_ENV2_Output :=
     m_ENV2_Output s; m_ContourOutput := m_ContourOutput s; m_KeyVelocity := m_KeyVelocity s;
     m_TriggerAttack1 := m_TriggerAttack1 s; m_TriggerRelease1 := m_TriggerRelease1 s;
     m_TriggerAttack2 := m_TriggerAttack2 s; m_TriggerRelease2 := m_TriggerRelease2 s;
     m_TriggerContour := m_TriggerContour s; m_TriggerReset := m_TriggerReset s; m_LegatoNoteChange
     := m_LegatoNoteChange s; m_NoteOn := m_NoteOn s; m_NotePlaying := m_NotePlaying s; m_RvbDelayLen
     := m_RvbDelayLen s; m_RvbDecay := m_RvbDecay s; m_RvbAtten := m_RvbAtten s; m_RvbMix := m_RvbMix
     s; v_SynthEnable := v_SynthEnable s; v_OscAngle := v; v_OscStep := v_OscStep s; v_OscAmpldModn
     := v_OscAmpldModn s; v_MixerLevel := v_MixerLevel s; v_MixerOutGain := v_MixerOutGain s;
     v_LimiterLevelPos := v_LimiterLevelPos s; v_LimiterLevelNeg := v_LimiterLevelNeg s;
     v_OutputLevel := v_OutputLevel s; SPI_setupDone := SPI_setupDone s; ENV1 := ENV1 s; rvbIndex :=
     rvbIndex s; reverbPrev := reverbPrev s; spiDACdata := spiDACdata s |}.

Definition set_v_OscStep (v : list Z) (s : Synth) : Synth :=
  {| ReverbDelayLine := ReverbDelayLine s; m_OscStepInit := m_OscStepInit s; m_OscStepDetune :=
     m_OscStepDetune s; m_OscMuted := m_OscMuted s; m_LFO_PhaseAngle := m_LFO_PhaseAngle s;
     m_LFO_Step := m_LFO_Step s; m_LFO_output := m_LFO_output s; m_RampOutput := m_RampOutput s;
     m_ExpressionLevel := m_ExpressionLevel s; m_ModulationLevel := m_ModulationLevel s;
     m_PitchBendFactor := m_PitchBendFactor s; m_ENV1_Output := m_ENV1_Output s; m_ENV2_Output :=
     m_ENV2_Output s; m_ContourOutput := m_ContourOutput s; m_KeyVelocity := m_KeyVelocity s;
     m_TriggerAttack1 := m_TriggerAttack1 s; m_TriggerRelease1 := m_TriggerRelease1 s;
     m_TriggerAttack2 := m_TriggerAttack2 s; m_TriggerRelease2 := m_TriggerRelease2 s;
     m_TriggerContour := m_TriggerContour s; m_TriggerReset := m_TriggerReset s; m_LegatoNoteChange
     := m_LegatoNoteChange s; m_NoteOn := m_NoteOn s; m_NotePlaying := m_NotePlaying s; m_RvbDelayLen
     := m_RvbDelayLen s; m_RvbDecay := m_RvbDecay s; m_RvbAtten := m_RvbAtten s; m_RvbMix := m_RvbMix
     s; v_SynthEnable := v_SynthEnable s; v_OscAngle := v_OscAngle s; v_OscStep := v; v_OscAmpldModn
     := v_OscAmpldModn s; v_MixerLevel := v_MixerLevel s; v_MixerOutGain := v_MixerOutGain s;
     v_LimiterLevelPos := v_LimiterLevelPos s; v_LimiterLevelNeg := v_LimiterLevelNeg s;
     v_OutputLevel := v_OutputLevel s; SPI_setupDone := SPI_setupDone s; ENV1 := ENV1 s; rvbIndex :=
     rvbIndex s; reverbPrev := reverbPrev s; spiDACdata := spiDACdata s |}.

Definition set_v_OscAmpldModn (v : list Z) (s : Synth) : Synth :=
  {| ReverbDelayLine := ReverbDelayLine s; m_OscStepInit := m_OscStepInit s; m_OscStepDetune :=
     m_OscStepDetune s; m_OscMuted := m_OscMuted s; m_LFO_PhaseAngle := m_LFO_PhaseAngle s;
     m_LFO_Step := m_LFO_Step s; m_LFO_output := m_LFO_output s; m_RampOutput := m_RampOutput s;
     m_ExpressionLevel := m_ExpressionLevel s; m_ModulationLevel := m_ModulationLevel s;
     m_PitchBendFactor := m_PitchBendFactor s; m_ENV1_Output := m_ENV1_Output s; m_ENV2_Output :=
     m_ENV2_Output s; m_ContourOutput := m_ContourOutput s; m_KeyVelocity := m_KeyVelocity s;
     m_TriggerAttack1 := m_TriggerAttack1 s; m_TriggerRelease1 := m_TriggerRelease1 s;
     m_TriggerAttack2 := m_TriggerAttack2 s; m_TriggerRelease2 := m_TriggerRelease2 s;
     m_TriggerContour := m_TriggerContour s; m_TriggerReset := m_TriggerReset s; m_LegatoNoteChange
     := m_LegatoNoteChange s; m_NoteOn := m_NoteOn s; m_NotePlaying := m_NotePlaying s; m_RvbDelayLen
     := m_RvbDelayLen s; m_RvbDecay := m_RvbDecay s; m_RvbAtten := m_RvbAtten s; m_RvbMix := m_RvbMix
     s; v_SynthEnable := v_SynthEnable s; v_OscAngle := v_OscAngle s; v_OscStep := v_OscStep s;
     v_OscAmpldModn := v; v_MixerLevel := v_MixerLevel s; v_MixerOutGain := v_MixerOutGain s;
     v_LimiterLevelPos := v_LimiterLevelPos s; v_LimiterLevelNeg := v_LimiterLevelNeg s;
     v_OutputLevel := v_OutputLevel s; SPI_setupDone := SPI_setupDone s; ENV1 := ENV1 s; rvbIndex :=
     rvbIndex s; reverbPrev := reverbPrev s; spiDACdata := spiDACdata s |}.

Definition set_v_MixerLevel (v : list Z) (s : Synth) : Synth :=
  {| ReverbDelayLine := ReverbDelayLine s; m_OscStepInit := m_OscStepInit s; m_OscStepDetune :=
     m_OscStepDetune s; m_OscMuted := m_OscMuted s; m_LFO_PhaseAngle := m_LFO_PhaseAngle s;
     m_LFO_Step := m_LFO_Step s; m_LFO_output := m_LFO_output s; m_RampOutput := m_RampOutput s;
     m_ExpressionLevel := m_ExpressionLevel s; m_ModulationLevel := m_ModulationLevel s;
     m_PitchBendFactor := m_PitchBendFactor s; m_ENV1_Output := m_ENV1_Output s; m_ENV2_Output :=
     m_ENV2_Output s; m_ContourOutput := m_ContourOutput s; m_KeyVelocity := m_KeyVelocity s;
     m_TriggerAttack1 := m_TriggerAttack1 s; m_TriggerRelease1 := m_TriggerRelease1 s;
     m_TriggerAttack2 := m_TriggerAttack2 s; m_TriggerRelease2 := m_TriggerRelease2 s;
     m_TriggerContour := m_TriggerContour s; m_TriggerReset := m_TriggerReset s; m_LegatoNoteChange
     := m_LegatoNoteChange s; m_NoteOn := m_NoteOn s; m_NotePlaying := m_NotePlaying s; m_RvbDelayLen
     := m_RvbDelayLen s; m_RvbDecay := m_RvbDecay s; m_RvbAtten := m_RvbAtten s; m_RvbMix := m_RvbMix
     s; v_SynthEnable := v_SynthEnable s; v_OscAngle := v_OscAngle s; v_OscStep := v_OscStep s;
     v_OscAmpldModn := v_OscAmpldModn s; v_MixerLevel := v; v_MixerOutGain := v_MixerOutGain s;
     v_LimiterLevelPos := v_LimiterLevelPos s; v_LimiterLevelNeg := v_LimiterLevelNeg s;
     v_OutputLevel := v_OutputLevel s; SPI_setupDone := SPI_setupDone s; ENV1 := ENV1 s; rvbIndex :=
     rvbIndex s; reverbPrev := reverbPrev s; spiDACdata := spiDACdata s |}.

Definition set_v_MixerOutGain (v : Z) (s : Synth) : Synth :=
  {| ReverbDelayLine := ReverbDelayLine s; m_OscStepInit := m_OscStepInit s; m_OscStepDetune :=
     m_OscStepDetune s; m_OscMuted := m_OscMuted s; m_LFO_PhaseAngle := m_LFO_PhaseAngle s;
     m_LFO_Step := m_LFO_Step s; m_LFO_output := m_LFO_output s; m_RampOutput := m_RampOutput s;
     m_ExpressionLevel := m_ExpressionLevel s; m_ModulationLevel := m_ModulationLevel s;
     m_PitchBendFactor := m_PitchBendFactor s; m_ENV1_Output := m_ENV1_Output s; m_ENV2_Output :=
     m_ENV2_Output s; m_ContourOutput := m_ContourOutput s; m_KeyVelocity := m_KeyVelocity s;
     m_TriggerAttack1 := m_TriggerAttack1 s; m_TriggerRelease1 := m_TriggerRelease1 s;
     m_TriggerAttack2 := m_TriggerAttack2 s; m_TriggerRelease2 := m_TriggerRelease2 s;
     m_TriggerContour := m_TriggerContour s; m_TriggerReset := m_TriggerReset s; m_LegatoNoteChange
     := m_LegatoNoteChange s; m_NoteOn := m_NoteOn s; m_NotePlaying := m_NotePlaying s; m_RvbDelayLen
     := m_RvbDelayLen s; m_RvbDecay := m_RvbDecay s; m_RvbAtten := m_RvbAtten s; m_RvbMix := m_RvbMix
     s; v_SynthEnable := v_SynthEnable s; v_OscAngle := v_OscAngle s; v_OscStep := v_OscStep s;
     v_OscAmpldModn := v_OscAmpldModn s; v_MixerLevel := v_MixerLevel s; v_MixerOutGain := v;
     v_LimiterLevelPos := v_LimiterLevelPos s; v_LimiterLevelNeg := v_LimiterLevelNeg s;
     v_OutputLevel := v_OutputLevel s; SPI_setupDone := SPI_setupDone s; ENV1 := ENV1 s; rvbIndex :=
     rvbIndex s; reverbPrev := reverbPrev s; spiDACdata := spiDACdata s |}.

Definition set_SPI_setupDone (v : bool) (s : Synth) : Synth :=
  {| ReverbDelayLine := ReverbDelayLine s; m_OscStepInit := m_OscStepInit s; m_OscStepDetune :=
     m_OscStepDetune s; m_OscMuted := m_OscMuted s; m_LFO_PhaseAngle := m_LFO_PhaseAngle s;
     m_LFO_Step := m_LFO_Step s; m_LFO_output := m_LFO_output s; m_RampOutput := m_RampOutput s;
     m_ExpressionLevel := m_ExpressionLevel s; m_ModulationLevel := m_ModulationLevel s;
     m_PitchBendFactor := m_PitchBendFactor s; m_ENV1_Output := m_ENV1_Output s; m_ENV2_Output :=
     m_ENV2_Output s; m_ContourOutput := m_ContourOutput s; m_KeyVelocity := m_KeyVelocity s;
     m_TriggerAttack1 := m_TriggerAttack1 s; m_TriggerRelease1 := m_TriggerRelease1 s;
     m_TriggerAttack2 := m_TriggerAttack2 s; m_TriggerRelease2 := m_TriggerRelease2 s;
     m_TriggerContour := m_TriggerContour s; m_TriggerReset := m_TriggerReset s; m_LegatoNoteChange
     := m_LegatoNoteChange s; m_NoteOn := m_NoteOn s; m_NotePlaying := m_NotePlaying s; m_RvbDelayLen
     := m_RvbDelayLen s; m_RvbDecay := m_RvbDecay s; m_RvbAtten := m_RvbAtten s; m_RvbMix := m_RvbMix
     s; v_SynthEnable := v_SynthEnable s; v_OscAngle := v_OscAngle s; v_OscStep := v_OscStep s;
     v_OscAmpldModn := v_OscAmpldModn s; v_MixerLevel := v_MixerLevel s; v_MixerOutGain :=
     v_MixerOutGain s; v_LimiterLevelPos := v_LimiterLevelPos s; v_LimiterLevelNeg :=
     v_LimiterLevelNeg s; v_OutputLevel := v_OutputLevel s; SPI_setupDone := v; ENV1 := ENV1 s;
     rvbIndex := rvbIndex s; reverbPrev := reverbPrev s; spiDACdata := spiDACdata s |}.

Definition set_ENV1 (v : AmpldEnvLocals) (s : Synth) : Synth :=
  {| ReverbDelayLine := ReverbDelayLine s; m_OscStepInit := m_OscStepInit s; m_OscStepDetune :=
     m_OscStepDetune s; m_OscMuted := m_OscMuted s; m_LFO_PhaseAngle := m_LFO_PhaseAngle s;
     m_LFO_Step := m_LFO_Step s; m_LFO_output := m_LFO_output s; m_RampOutput := m_RampOutput s;
     m_ExpressionLevel := m_ExpressionLevel s; m_ModulationLevel := m_ModulationLevel s;
     m_PitchBendFactor := m_PitchBendFactor s; m_ENV1_Output := m_ENV1_Output s; m_ENV2_Output :=
     m_ENV2_Output s; m_ContourOutput := m_ContourOutput s; m_KeyVelocity := m_KeyVelocity s;
     m_TriggerAttack1 := m_TriggerAttack1 s; m_TriggerRelease1 := m_TriggerRelease1 s;
     m_TriggerAttack2 := m_TriggerAttack2 s; m_TriggerRelease2 := m_TriggerRelease2 s;
     m_TriggerContour := m_TriggerContour s; m_TriggerReset := m_TriggerReset s; m_LegatoNoteChange
     := m_LegatoNoteChange s; m_NoteOn := m_NoteOn s; m_NotePlaying := m_NotePlaying s; m_RvbDelayLen
     := m_RvbDelayLen s; m_RvbDecay := m_RvbDecay s; m_RvbAtten := m_RvbAtten s; m_RvbMix := m_RvbMix
     s; v_SynthEnable := v_SynthEnable s; v_OscAngle := v_OscAngle s; v_OscStep := v_OscStep s;
     v_OscAmpldModn := v_OscAmpldModn s; v_MixerLevel := v_MixerLevel s; v_MixerOutGain :=
     v_MixerOutGain s; v_LimiterLevelPos := v_LimiterLevelPos s; v_LimiterLevelNeg :=
     v_LimiterLevelNeg s; v_OutputLevel := v_OutputLevel s; SPI_setupDone := SPI_setupDone s; ENV1 :=
     v; rvbIndex := rvbIndex s; reverbPrev := reverbPrev s; spiDACdata := spiDACdata s |}.

Definition set_rvbIndex (v : Z) (s : Synth) : Synth :=
  {| ReverbDelayLine := ReverbDelayLine s; m_OscStepInit := m_OscStepInit s; m_OscStepDetune :=
     m_OscStepDetune s; m_OscMuted := m_OscMuted s; m_LFO_PhaseAngle := m_LFO_PhaseAngle s;
     m_LFO_Step := m_LFO_Step s; m_LFO_output := m_LFO_output s; m_RampOutput := m_RampOutput s;
     m_ExpressionLevel := m_ExpressionLevel s; m_ModulationLevel := m_ModulationLevel s;
     m_PitchBendFactor := m_PitchBendFactor s; m_ENV1_Output := m_ENV1_Output s; m_ENV2_Output :=
     m_ENV2_Output s; m_ContourOutput := m_ContourOutput s; m_KeyVelocity := m_KeyVelocity s;
     m_TriggerAttack1 := m_TriggerAttack1 s; m_TriggerRelease1 := m_TriggerRelease1 s;
     m_TriggerAttack2 := m_TriggerAttack2 s; m_TriggerRelease2 := m_TriggerRelease2 s;
     m_TriggerContour := m_TriggerContour s; m_TriggerReset := m_TriggerReset s; m_LegatoNoteChange
     := m_LegatoNoteChange s; m_NoteOn := m_NoteOn s; m_NotePlaying := m_NotePlaying s; m_RvbDelayLen
     := m_RvbDelayLen s; m_RvbDecay := m_RvbDecay s; m_RvbAtten := m_RvbAtten s; m_RvbMix := m_RvbMix
     s; v_SynthEnable := v_SynthEnable s; v_OscAngle := v_OscAngle s; v_OscStep := v_OscStep s;
     v_OscAmpldModn := v_OscAmpldModn s; v_MixerLevel := v_MixerLevel s; v_MixerOutGain :=
     v_MixerOutGain s; v_LimiterLevelPos := v_LimiterLevelPos s; v_LimiterLevelNeg :=
     v_LimiterLevelNeg s; v_OutputLevel := v_OutputLevel s; SPI_setupDone := SPI_setupDone s; ENV1 :=
     ENV1 s; rvbIndex := v; reverbPrev := reverbPrev s; spiDACdata := spiDACdata s |}.

Definition set_reverbPrev (v : Z) (s : Synth) : Synth :=
  {| ReverbDelayLine := ReverbDelayLine s; m_OscStepInit := m_OscStepInit s; m_OscStepDetune :=
     m_OscStepDetune s; m_OscMuted := m_OscMuted s; m_LFO_PhaseAngle := m_LFO_PhaseAngle s;
     m_LFO_Step := m_LFO_Step s; m_LFO_output := m_LFO_output s; m_RampOutput := m_RampOutput s;
     m_ExpressionLevel := m_ExpressionLevel s; m_ModulationLevel := m_ModulationLevel s;
     m_PitchBendFactor := m_PitchBendFactor s; m_ENV1_Output := m_ENV1_Output s; m_ENV2_Output :=
     m_ENV2_Output s; m_ContourOutput := m_ContourOutput s; m_KeyVelocity := m_KeyVelocity s;
     m_TriggerAttack1 := m_TriggerAttack1 s; m_TriggerRelease1 := m_TriggerRelease1 s;
     m_TriggerAttack2 := m_TriggerAttack2 s; m_TriggerRelease2 := m_TriggerRelease2 s;
     m_TriggerContour := m_TriggerContour s; m_TriggerReset := m_TriggerReset s; m_LegatoNoteChange
     := m_LegatoNoteChange s; m_NoteOn := m_NoteOn s; m_NotePlaying := m_NotePlaying s; m_RvbDelayLen
     := m_RvbDelayLen s; m_RvbDecay := m_RvbDecay s; m_RvbAtten := m_RvbAtten s; m_RvbMix := m_RvbMix
     s; v_SynthEnable := v_SynthEnable s; v_OscAngle := v_OscAngle s; v_OscStep := v_OscStep s;
     v_OscAmpldModn := v_OscAmpldModn s; v_MixerLevel := v_MixerLevel s; v_MixerOutGain :=
     v_MixerOutGain s; v_LimiterLevelPos := v_LimiterLevelPos s; v_LimiterLevelNeg :=
     v_LimiterLevelNeg s; v_OutputLevel := v_OutputLevel s; SPI_setupDone := SPI_setupDone s; ENV1 :=
     ENV1 s; rvbIndex := rvbIndex s; reverbPrev := v; spiDACdata := spiDACdata s |}.

Definition set_spiDACdata (v : Z) (s : Synth) : Synth :=
  {| ReverbDelayLine := ReverbDelayLine s; m_OscStepInit := m_OscStepInit s; m_OscStepDetune :=
     m_OscStepDetune s; m_OscMuted := m_OscMuted s; m_LFO_PhaseAngle := m_LFO_PhaseAngle s;
     m_LFO_Step := m_LFO_Step s; m_LFO_output := m_LFO_output s; m_RampOutput := m_RampOutput s;
     m_ExpressionLevel := m_ExpressionLevel s; m_ModulationLevel := m_ModulationLevel s;
     m_PitchBendFactor := m_PitchBendFactor s; m_ENV1_Output := m_ENV1_Output s; m_ENV2_Output :=
     m_ENV2_Output s; m_ContourOutput := m_ContourOutput s; m_KeyVelocity := m_KeyVelocity s;
     m_TriggerAttack1 := m_TriggerAttack1 s; m_TriggerRelease1 := m_TriggerRelease1 s;
     m_TriggerAttack2 := m_TriggerAttack2 s; m_TriggerRelease2 := m_TriggerRelease2 s;
     m_TriggerContour := m_TriggerContour s; m_TriggerReset := m_TriggerReset s; m_LegatoNoteChange
     := m_LegatoNoteChange s; m_NoteOn := m_NoteOn s; m_NotePlaying := m_NotePlaying s; m_RvbDelayLen
     := m_RvbDelayLen s; m_RvbDecay := m_RvbDecay s; m_RvbAtten := m_RvbAtten s; m_RvbMix := m_RvbMix
     s; v_SynthEnable := v_SynthEnable s; v_OscAngle := v_OscAngle s; v_OscStep := v_OscStep s;
     v_OscAmpldModn := v_OscAmpldModn s; v_MixerLevel := v_MixerLevel s; v_MixerOutGain :=
     v_MixerOutGain s; v_LimiterLevelPos := v_LimiterLevelPos s; v_LimiterLevelNeg :=
     v_LimiterLevelNeg s; v_OutputLevel := v_OutputLevel s; SPI_setupDone := SPI_setupDone s; ENV1 :=
     ENV1 s; rvbIndex := rvbIndex s; reverbPrev := reverbPrev s; spiDACdata := v |}.

(** The [static] locals of [MidiInputService]. *)
Record MidiInLocals : Type := mkMidiInLocals {
  midiMessage : list Z;  (* uint8_t [MIDI_MSG_MAX_LENGTH] *)
  msgBytesExpected : Z;  (* short *)
  msgByteCount : Z;  (* short *)
  msgIndex : Z;  (* short *)
  msgStatus : Z;  (* last command/status byte rx'd *)
  msgComplete : bool  (* flag: got msg status & data set *)
}.

(** Assignment to one member; every other member is kept. *)
Definition set_midiMessage (v : list Z) (s : MidiInLocals) : MidiInLocals :=
  {| midiMessage := v; msgBytesExpected := msgBytesExpected s; msgByteCount := msgByteCount s;
     msgIndex := msgIndex s; msgStatus := msgStatus s; msgComplete := msgComplete s |}.

Definition set_msgBytesExpected (v : Z) (s : MidiInLocals) : MidiInLocals :=
  {| midiMessage := midiMessage s; msgBytesExpected := v; msgByteCount := msgByteCount s; msgIndex
     := msgIndex s; msgStatus := msgStatus s; msgComplete := msgComplete s |}.

Definition set_msgByteCount (v : Z) (s : MidiInLocals) : MidiInLocals :=
  {| midiMessage := midiMessage s; msgBytesExpected := msgBytesExpected s; msgByteCount := v;
     msgIndex := msgIndex s; msgStatus := msgStatus s; msgComplete := msgComplete s |}.

Definition set_msgIndex (v : Z) (s : MidiInLocals) : MidiInLocals :=
  {| midiMessage := midiMessage s; msgBytesExpected := msgBytesExpected s; msgByteCount :=
     msgByteCount s; msgIndex := v; msgStatus := msgStatus s; msgComplete := msgComplete s |}.

Definition set_msgStatus (v : Z) (s : MidiInLocals) : MidiInLocals :=
  {| midiMessage := midiMessage s; msgBytesExpected := msgBytesExpected s; msgByteCount :=
     msgByteCount s; msgIndex := msgIndex s; msgStatus := v; msgComplete := msgComplete s |}.

Definition set_msgComplete (v : bool) (s : MidiInLocals) : MidiInLocals :=
  {| midiMessage := midiMessage s; msgBytesExpected := msgBytesExpected s; msgByteCount :=
     msgByteCount s; msgIndex := msgIndex s; msgStatus := msgStatus s; msgComplete := v |}.

(** The whole voice module: the globals of the main sketch, the active patch,
    the engine, and the statics of the MIDI functions. *)
Record Voice : Type := mkVoice {
  g_Config : ConfigParams_t;  (* structure holding config param's *)
  g_MidiChannel : Z;  (* 1..16 (16 = broadcast, omni) *)
  g_MidiMode : Z;  (* OMNI_ON_MONO or OMNI_OFF_MONO *)
  g_MidiRegisParam : Z;  (* Registered Param # (0: PB range, 1: Fine Tuning) *)
  g_Patch : PatchParamTable_t;  (* active patch parameters *)
  engine : Synth;  (* the engine module *)
  modulationHi : Z;  (* static of ProcessControlChange: high byte of CC data *)
  expressionHi : Z;  (* static of ProcessControlChange: high byte of CC data *)
  MIDI_IN : MidiInLocals;  (* statics of MidiInputService *)
  TESTPOINT2 : bool  (* output pin of the "Gate" LED *)
}.

(** Assignment to one member; every other member is kept. *)
Definition set_g_Config (v : ConfigParams_t) (s : Voice) : Voice :=
  {| g_Config := v; g_MidiChannel := g_MidiChannel s; g_MidiMode := g_MidiMode s; g_MidiRegisParam
     := g_MidiRegisParam s; g_Patch := g_Patch s; engine := engine s; modulationHi := modulationHi s;
     expressionHi := expressionHi s; MIDI_IN := MIDI_IN s; TESTPOINT2 := TESTPOINT2 s |}.

Definition set_g_MidiRegisParam (v : Z) (s : Voice) : Voice :=
  {| g_Config := g_Config s; g_MidiChannel := g_MidiChannel s; g_MidiMode := g_MidiMode s;
     g_MidiRegisParam := v; g_Patch := g_Patch s; engine := engine s; modulationHi := modulationHi s;
     expressionHi := expressionHi s; MIDI_IN := MIDI_IN s; TESTPOINT2 := TESTPOINT2 s |}.

Definition set_g_Patch (v : PatchParamTable_t) (s : Voice) : Voice :=
  {| g_Config := g_Config s; g_MidiChannel := g_MidiChannel s; g_MidiMode := g_MidiMode s;
     g_MidiRegisParam := g_MidiRegisParam s; g_Patch := v; engine := engine s; modulationHi :=
     modulationHi s; expressionHi := expressionHi s; MIDI_IN := MIDI_IN s; TESTPOINT2 := TESTPOINT2 s
     |}.

Definition set_engine (v : Synth) (s : Voice) : Voice :=
  {| g_Config := g_Config s; g_MidiChannel := g_MidiChannel s; g_MidiMode := g_MidiMode s;
     g_MidiRegisParam := g_MidiRegisParam s; g_Patch := g_Patch s; engine := v; modulationHi :=
     modulationHi s; expressionHi := expressionHi s; MIDI_IN := MIDI_IN s; TESTPOINT2 := TESTPOINT2 s
     |}.

Definition set_modulationHi (v : Z) (s : Voice) : Voice :=
  {| g_Config := g_Config s; g_MidiChannel := g_MidiChannel s; g_MidiMode := g_MidiMode s;
     g_MidiRegisParam := g_MidiRegisParam s; g_Patch := g_Patch s; engine := engine s; modulationHi
     := v; expressionHi := expressionHi s; MIDI_IN := MIDI_IN s; TESTPOINT2 := TESTPOINT2 s |}.

Definition set_expressionHi (v : Z) (s : Voice) : Voice :=
  {| g_Config := g_Config s; g_MidiChannel := g_MidiChannel s; g_MidiMode := g_MidiMode s;
     g_MidiRegisParam := g_MidiRegisParam s; g_Patch := g_Patch s; engine := engine s; modulationHi
     := modulationHi s; expressionHi := v; MIDI_IN := MIDI_IN s; TESTPOINT2 := TESTPOINT2 s |}.

Definition set_MIDI_IN (v : MidiInLocals) (s : Voice) : Voice :=
  {| g_Config := g_Config s; g_MidiChannel := g_MidiChannel s; g_MidiMode := g_MidiMode s;
     g_MidiRegisParam := g_MidiRegisParam s; g_Patch := g_Patch s; engine := engine s; modulationHi
     := modulationHi s; expressionHi := expressionHi s; MIDI_IN := v; TESTPOINT2 := TESTPOINT2 s |}.

Definition set_TESTPOINT2 (v : bool) (s : Voice) : Voice :=
  {| g_Config := g_Config s; g_MidiChannel := g_MidiChannel s; g_MidiMode := g_MidiMode s;
     g_MidiRegisParam := g_MidiRegisParam s; g_Patch := g_Patch s; engine := engine s; modulationHi
     := modulationHi s; expressionHi := expressionHi s; MIDI_IN := MIDI_IN s; TESTPOINT2 := v |}.


(** The presets in flash ([g_PresetPatch] of the main sketch).  Each entry
    lists the members in the order of the C initializer: name, frequency
    multipliers, modulation sources, detune, mixer steps, amplitude envelope
    (A-H-D-S-R, mode), contour (S-D-R-H), ENV2 (decay, sustain), LFO (Hz x10,
    ramp, FM, AM), mixer gain x10 and limiter level. *)
Definition g_PresetPatch : list PatchParamTable_t :=
  [
    mkPatch "Sound Test"  (* 00 *)
      [1; 4; 5; 6; 7; 8]
      [0; 0; 0; 0; 0; 0]
      [0; 0; 0; 0; 0; 0]
      [15; 13; 11; 0; 0; 0]
      5 0 200 80 200 2  5 20 500 95
      500 50  50 500 20 20  10 0;
    mkPatch "Electric Piano #1"  (* 01 *)
      [1; 3; 5; 7; 9; 11]
      [0; 0; 0; 0; 0; 0]
      [0; 0; 0; 0; 0; 0]
      [14; 12; 8; 8; 5; 0]
      10 70 1500 0 500 2  5 20 1000 95
      200 16  30 500 0 20  33 60;
    mkPatch "Electric Piano #2"  (* 02 *)
      [1; 4; 5; 6; 7; 8]
      [0; 3; 3; 3; 0; 0]
      [0; 0; 0; 0; 0; 0]
      [14; 12; 13; 9; 9; 6]
      10 50 1500 0 300 2  5 20 1000 95
      700 50  30 500 0 20  20 50;
    mkPatch "Trashy Toy Piano"  (* 03 *)
      [1; 1; 1; 4; 6; 7]
      [0; 0; 0; 0; 3; 3]
      [(-18); 0; 19; (-14); 0; 16]
      [13; 13; 13; 11; 9; 7]
      5 50 500 0 300 2  5 20 1000 95
      200 50  30 500 30 20  7 0;
    mkPatch "Steel-tine Clavier"  (* 04 *)
      [1; 4; 5; 8; 9; 10]
      [0; 2; 1; 2; 7; 1]
      [0; (-21); 19; (-27); (-31); 0]
      [12; 12; 12; 10; 12; 12]
      5 20 700 0 700 2  5 50 800 80
      500 50  100 500 0 55  10 0;
    mkPatch "Tubular Bells"  (* 05 *)
      [1; 6; 9; 8; 0; 11]
      [0; 0; 7; 0; 0; 0]
      [0; 33; (-35); 0; 0; 0]
      [9; 13; 13; 0; 0; 0]
      5 100 2000 0 2000 2  5 20 500 95
      500 50  30 500 10 20  10 0;
    mkPatch "Smart Vibraphone"  (* 06 *)
      [0; 1; 4; 6; 7; 11]
      [7; 7; 0; 7; 0; 3]
      [0; 0; 0; 0; 0; 0]
      [0; 13; 0; 9; 0; 13]
      5 50 2000 0 2000 2  0 0 200 100
      500 35  80 5 0 40  10 0;
    mkPatch "Guitar Synthetique"  (* 07 *)
      [1; 5; 6; 8; 9; 10]
      [0; 0; 0; 1; 1; 1]
      [0; 0; 0; 0; 0; 0]
      [13; 7; 11; 8; 9; 8]
      5 200 2000 4 700 2  25 0 500 95
      500 50  50 500 20 20  20 60;
    mkPatch "Jazz Organ #1"  (* 08 *)
      [0; 1; 5; 8; 0; 0]
      [0; 0; 0; 3; 0; 0]
      [0; 0; 0; (-3); 4; 0]
      [10; 13; 15; 12; 0; 0]
      10 0 400 100 300 2  5 20 600 40
      100 50  70 500 30 0  7 0;
    mkPatch "Jazz Organ #2"  (* 09 *)
      [0; 1; 4; 5; 8; 0]
      [0; 0; 0; 0; 3; 0]
      [0; 0; (-8); 4; (-10); 0]
      [11; 14; 7; 14; 11; 0]
      10 0 400 100 300 2  5 20 600 40
      200 50  70 500 30 0  7 0;
    mkPatch "Rock Organ #3"  (* 10 *)
      [0; 3; 1; 4; 6; 8]
      [0; 0; 0; 0; 0; 0]
      [0; 0; (-6); (-7); 0; 0]
      [13; 13; 13; 13; 0; 0]
      10 0 400 100 300 2  5 20 600 40
      500 50  70 500 30 0  7 0;
    mkPatch "Pink Floyd Organ"  (* 11 *)
      [0; 3; 6; 0; 3; 6]
      [0; 0; 0; 0; 0; 0]
      [6; 5; 4; (-6); (-5); (-4)]
      [13; 10; 10; 13; 10; 10]
      30 0 200 100 200 2  5 20 500 95
      500 50  50 500 15 0  7 0;
    mkPatch "Hammondish Organ"  (* 12 *)
      [1; 3; 4; 5; 7; 8]
      [0; 0; 0; 0; 0; 3]
      [0; (-7); 12; 4; 0; 3]
      [13; 3; 0; 9; 0; 15]
      10 0 400 100 300 2  5 20 600 40
      200 25  70 500 20 0  7 0;
    mkPatch "Bauer Organ #1"  (* 13 *)
      [1; 4; 6; 8; 10; 0]
      [0; 0; 0; 0; 3; 0]
      [0; 4; (-4); 3; (-2); 3]
      [13; 13; 0; 9; 13; 11]
      20 20 400 70 300 2  5 20 600 40
      500 50  70 500 30 0  7 0;
    mkPatch "Meditation Pipe"  (* 14 *)
      [1; 4; 6; 7; 8; 10]
      [0; 0; 0; 0; 0; 6]
      [0; (-5); 0; 4; 0; 0]
      [13; 14; 0; 9; 10; 9]
      50 0 200 80 200 2  5 20 600 40
      100 50  70 500 30 0  7 0;
    mkPatch "Full Swell Organ"  (* 15 *)
      [0; 1; 4; 5; 6; 7]
      [0; 0; 0; 0; 0; 0]
      [0; 0; 4; (-3); 3; (-3)]
      [8; 14; 13; 11; 10; 7]
      5 0 5 100 300 2  0 50 300 100
      500 50  70 500 20 0  7 0;
    mkPatch "Morph Harmonium"  (* 16 *)
      [0; 3; 1; 7; 8; 10]
      [0; 0; 0; 1; 2; 1]
      [3; (-3); 0; (-3); 3; (-3)]
      [13; 12; 13; 8; 9; 11]
      30 0 10 80 500 2  10 50 300 90
      500 50  70 500 10 55  7 0;
    mkPatch "Ring Modulator"  (* 17 *)
      [1; 3; 4; 5; 8; 0]
      [0; 0; 0; 0; 0; 0]
      [0; 0; 0; 0; 0; 0]
      [0; 11; 14; 0; 0; 0]
      10 0 400 100 300 2  5 20 600 40
      500 50  70 500 30 0  10 0;
    mkPatch "Bass Overdrive"  (* 18 *)
      [0; 1; 4; 6; 7; 8]
      [0; 0; 0; 3; 0; 3]
      [0; 0; 0; 0; 0; 0]
      [14; 12; 8; 10; 0; 12]
      5 0 200 80 200 2  5 20 500 95
      500 50  50 500 20 20  33 50;
    mkPatch "Bellbird  (JPM)"  (* 19 *)
      [9; 5; 8; 1; 8; 5]
      [7; 3; 3; 3; 7; 7]
      [0; 0; 0; 0; 0; 0]
      [4; 8; 2; 10; 14; 15]
      70 50 100 50 700 2  0 200 500 100
      3000 50  30 70 40 35  7 0;
    mkPatch "Dull Steel Drum"  (* 20 *)
      [1; 4; 5; 6; 8; 10]
      [0; 0; 0; 1; 1; 1]
      [0; (-14); 0; 23; 0; 0]
      [15; 10; 4; 11; 8; 6]
      10 50 500 0 500 2  20 0 50 80
      200 25  100 0 0 0  7 0;
    mkPatch "Wobulator"  (* 21 *)
      [0; 1; 2; 3; 4; 5]
      [0; 0; 0; 7; 7; 7]
      [0; 0; 0; 0; 0; 0]
      [10; 0; 13; 14; 0; 14]
      30 300 1000 25 1000 2  20 0 200 80
      200 25  80 200 30 25  7 0;
    mkPatch "Hollow Wood Drum"  (* 22 *)
      [0; 1; 2; 3; 4; 5]
      [6; 7; 6; 2; 0; 2]
      [0; 0; 0; 0; 0; 0]
      [5; 5; 4; 12; 8; 14]
      5 20 100 0 300 2  20 0 200 80
      1500 25  40 5 20 20  7 0;
    mkPatch "Soft-attack Accordian"  (* 23 *)
      [1; 4; 5; 6; 7; 8]
      [0; 0; 1; 1; 1; 1]
      [0; 0; 0; 0; 0; 0]
      [14; 12; 11; 10; 9; 8]
      100 200 2000 10 70 2  100 0 300 30
      500 50  50 500 20 20  10 0;
    mkPatch "Terrible Recorder"  (* 24 *)
      [1; 5; 7; 9; 11; 0]
      [0; 0; 5; 0; 5; 0]
      [0; 0; 0; 0; 0; 0]
      [14; 11; 13; 9; 13; 0]
      50 0 200 80 200 3  5 20 500 95
      500 50  50 500 20 0  7 0;
    mkPatch "Psychedelic Oboe"  (* 25 *)
      [1; 3; 4; 5; 6; 9]
      [0; 0; 0; 0; 0; 0]
      [0; 0; 0; 0; 0; 0]
      [11; 0; 11; 12; 14; 0]
      30 0 200 80 200 3  100 10 1000 25
      500 50  50 500 20 0  7 0;
    mkPatch "Stopped Flute"  (* 26 *)
      [1; 4; 5; 6; 7; 8]
      [0; 0; 0; 0; 0; 0]
      [0; 0; 0; 0; 0; 0]
      [15; 9; 6; 0; 0; 5]
      50 0 200 80 200 3  0 50 300 100
      500 50  50 500 15 0  10 0;
    mkPatch "Spaced Out Pipe"  (* 27 *)
      [0; 3; 6; 0; 3; 6]
      [0; 0; 0; 0; 0; 0]
      [6; 5; 4; (-6); (-5); (-4)]
      [13; 10; 10; 13; 10; 10]
      30 0 200 80 200 3  5 20 500 95
      500 50  50 500 15 0  7 0;
    mkPatch "Mellow Reed"  (* 28 *)
      [1; 5; 6; 7; 8; 0]
      [0; 0; 0; 0; 0; 0]
      [0; 0; 0; 0; 0; 0]
      [14; 9; 6; 12; 12; 0]
      30 0 200 80 200 3  5 20 500 95
      500 50  50 500 20 0  10 0;
    mkPatch "Melody Organ #2"  (* 29 *)
      [1; 3; 4; 5; 8; 0]
      [0; 0; 0; 0; 3; 0]
      [0; 4; (-4); 3; (-2); 3]
      [13; 13; 10; 12; 14; 12]
      20 20 400 70 300 3  5 20 600 40
      500 50  70 500 30 0  7 0;
    mkPatch "Reed Overdrive"  (* 30 *)
      [1; 4; 5; 7; 8; 9]
      [0; 5; 5; 5; 5; 5]
      [0; 0; 0; 0; 0; 0]
      [14; 12; 10; 10; 13; 13]
      70 0 200 80 200 3  5 20 500 95
      500 50  50 500 20 0  25 50;
    mkPatch "Deep Saxophoney"  (* 31 *)
      [0; 1; 4; 5; 6; 7]
      [5; 0; 5; 0; 5; 5]
      [0; 0; 0; 0; 0; 0]
      [9; 10; 13; 0; 13; 12]
      70 0 200 80 200 3  0 50 300 100
      500 50  50 500 20 0  20 50
  ].


(** ** The synth engine ([m0_synth_engine])

    Embedded: the note interface, the controller inputs, the amplitude
    envelope generator, the two oscillator modulation routines of the
    5 ms tick, and the audio interrupt.  The transient envelope, the
    contour, the LFO, the vibrato ramp and the level controller have their
    own statics and outputs and do not enter the statements below. *)

(** Array write [t[i] = x]; undefined outside the array. *)
Definition c_store {A} (t : list A) (i : Z) (x : A) : option (list A) :=
  if (0 <=? i) && (i <? Z.of_nat (length t)) then Some (<[Z.to_nat i := x]> t) else None.

(** The oscillator numbers of the loops [for (osc = 0; osc < 6; osc++)]. *)
Definition oscillators : list Z := [0; 1; 2; 3; 4; 5].

Section Firmware.

(** [powf] of the C library is the one function of the firmware that is
    not in its sources; the engine takes one value from it, when the reverb
    decay factor is prepared. *)
Variable powf : spec_float -> spec_float -> spec_float.

(** [void SynthPrepare()]: initialization of the "constant" synth data
    environment.  The SPI transaction it opens has no other effect on the
    data than the flag [SPI_setupDone]. *)
Definition SynthPrepare (cfg : ConfigParams_t) (s : Synth) : option Synth :=
  let s := set_v_SynthEnable false s in
  let s := set_SPI_setupDone true s in
  let s := set_m_NoteOn false s in
  let s := set_m_TriggerRelease1 true s in
  let s := set_m_TriggerRelease2 true s in
  let s := set_m_ExpressionLevel 0 s in
  let s := set_m_ModulationLevel (Z.quot (to_int32 (IntToFixedPt 1 * 50)) 100) s in
  let s := set_m_KeyVelocity (Z.quot (to_int32 (IntToFixedPt 1 * 80)) 100) s in
  rvbDelayLen ← float_to_long (f64_mul (f64_lit REVERB_LOOP_TIME_SEC) (f64_of_Z SAMPLE_RATE_HZ));
  let s := set_m_RvbDelayLen rvbDelayLen s in
  let rvbDecayRatio :=
    f32_of_f64 (f64_div (f64_of_f32 (f32_of_f64 (f64_lit REVERB_LOOP_TIME_SEC)))
                        (f64_lit REVERB_DECAY_TIME_SEC)) in
  rvbDecay ← float_to_long (f32_mul (powf (f32_lit 0.001%Q) rvbDecayRatio) (f32_of_Z 1048576));
  let s := set_m_RvbDecay rvbDecay s in
  let s := set_m_RvbAtten (to_uint16 (Z.quot (Z.shiftl REVERB_ATTENUATION_PC 7) 100)) s in
  let s := set_m_RvbMix (to_uint16 (Z.quot (Z.shiftl (ReverbMix_pc cfg) 7) 100)) s in
  Some (set_v_SynthEnable true s).

(** The three statements that open both [SynthNoteChange] and
    [SynthNoteOff]: "ensure note number is within synth range".  [noteNum]
    is a [uint8_t]. *)
Definition note_in_synth_range (noteNum : Z) : Z :=
  let noteNum := Z.land (to_uint8 noteNum) 0x7F in
  let noteNum := if noteNum >? 120 then to_uint8 (noteNum - 12) else noteNum in
  let noteNum := if noteNum <? 12 then to_uint8 (noteNum + 12) else noteNum in
  noteNum.

(** The body of the oscillator loop of [SynthNoteChange], for one
    oscillator: its frequency in Hz, its mute flag and its initial phase
    step (16:16 fixed point). *)
Definition osc_frequency (noteNum mult : Z) : option spec_float :=
  freqMult ← f32_of_f64 ∘ f64_lit <$> c_index g_FreqMultConst mult;
  noteFreq ← f32_of_f64 ∘ f64_lit <$> c_index g_NoteFrequency (noteNum - 12);
  Some (f32_mul noteFreq freqMult).

Definition osc_muted (oscFreq : spec_float) : bool :=
  f32_gtb oscFreq (f32_of_Z MAX_OSC_FREQ_HZ).

Definition osc_phase_step (oscFreq : spec_float) : option Z :=
  let tableSize := to_int32 (Z.shiftl WAVE_TABLE_SIZE 16) in
  float_to_long (f32_div (f32_mul (f32_of_Z tableSize) oscFreq) (f32_of_Z SAMPLE_RATE_HZ)).

Definition note_osc_setup (p : PatchParamTable_t) (noteNum osc : Z) : option (bool * Z) :=
  mult ← c_index (OscFreqMult p) osc;
  oscFreq ← osc_frequency noteNum mult;
  oscStep ← osc_phase_step oscFreq;
  Some (osc_muted oscFreq, oscStep).

(** [void SynthNoteChange(uint8_t noteNum)]: set the pitch of a note,
    without affecting the amplitude envelopes. *)
Definition SynthNoteChange (p : PatchParamTable_t) (noteNum : Z) (s : Synth) : option Synth :=
  let noteNum := note_in_synth_range noteNum in
  let s := set_m_NotePlaying noteNum s in
  oscs ← mapM (note_osc_setup p noteNum) oscillators;
  let s := set_m_OscMuted (fst <$> oscs) s in
  Some (set_m_OscStepInit (snd <$> oscs) s).

(** [void SynthTriggerAttack()] *)
Definition SynthTriggerAttack (s : Synth) : Synth :=
  let s := set_m_TriggerAttack1 true s in
  let s := set_m_TriggerAttack2 true s in
  let s := set_m_TriggerContour true s in
  set_m_NoteOn true s.

(** [void SynthNoteOn(uint8_t noteNum, uint8_t velocity)]: a legato note
    change if a note is already playing, a new note otherwise.
    [APPLY_VELOCITY_EXPL_CURVE] is [FALSE] in this build. *)
Definition SynthNoteOn (p : PatchParamTable_t) (noteNum velocity : Z) (s : Synth)
  : option Synth :=
  if negb (m_NoteOn s) then
    s ← SynthNoteChange p noteNum s;
    let s := set_m_KeyVelocity (Z.quot (IntToFixedPt (to_uint8 velocity)) 128) s in
    let s := set_m_LegatoNoteChange false s in
    Some (SynthTriggerAttack s)
  else
    s ← SynthNoteChange p noteNum s;
    Some (set_m_LegatoNoteChange true s).

(** [void SynthTriggerRelease()] *)
Definition SynthTriggerRelease (s : Synth) : Synth :=
  let s := set_m_TriggerRelease1 true s in
  let s := set_m_TriggerRelease2 true s in
  let s := set_m_TriggerReset true s in
  set_m_NoteOn false s.

(** [void SynthNoteOff(uint8_t noteNum)]: end the note playing, if it
    matches the given note number. *)
Definition SynthNoteOff (noteNum : Z) (s : Synth) : Synth :=
  let noteNum := note_in_synth_range noteNum in
  if noteNum =? m_NotePlaying s then SynthTriggerRelease s else s.

(** [void SynthExpression(unsigned data14)]; [APPLY_EXPRESSN_EXPL_CURVE]
    is [FALSE] in this build. *)
Definition SynthExpression (data14 : Z) (s : Synth) : Synth :=
  let levelMax := Z.quot (to_int32 (IntToFixedPt 1 * 99)) 100 in
  let ulval := to_uint32 data14 in
  let ulval := to_uint32 (Z.shiftl ulval 6) in
  let level := to_int32 ulval in
  let level := if level >? levelMax then levelMax else level in
  set_m_ExpressionLevel level s.

(** [void SynthPitchBend(int bipolarPosn)] *)
Definition SynthPitchBend (cfg : ConfigParams_t) (bipolarPosn : Z) (s : Synth) : Synth :=
  let posnScaled := Z.quot (to_int32 (bipolarPosn * PitchBendRange cfg)) 12 in
  set_m_PitchBendFactor (to_int32 (Z.shiftl posnScaled 7)) s.

(** [void SynthModulation(unsigned data14)] *)
Definition SynthModulation (data14 : Z) (s : Synth) : Synth :=
  let data14 := to_uint32 data14 in
  if data14 <? 16 * 1024
  then set_m_ModulationLevel (to_int32 (to_uint32 (Z.shiftl data14 6))) s
  else set_m_ModulationLevel FIXED_MAX_LEVEL s.

(** [void SynthLFO_PhaseSync()] *)
Definition SynthLFO_PhaseSync (s : Synth) : Synth := set_m_LFO_PhaseAngle 0 s.


(** *** Amplitude envelope generator (ENV1) *)

(** [if (m_TriggerAttack1) { ... }] *)
Definition env1_attack_trigger (p : PatchParamTable_t) (s : Synth) : option Synth :=
  if m_TriggerAttack1 s then
    let s := set_m_TriggerAttack1 false s in
    let s := set_m_TriggerRelease1 false s in
    let e := ENV1 s in
    let e := set_envPhaseTimer 0 e in
    let e := set_sustainLevel (Z.quot (IntToFixedPt (EnvSustainLevel p)) 100) e in
    let e := set_ampldMaximum FIXED_MAX_LEVEL e in
    let e := if EnvHoldTime p =? 0 then set_ampldMaximum (sustainLevel e) e else e in
    d ← c_div (ampldMaximum e) (EnvAttackTime p);
    let e := set_ampldDelta d e in
    let e := set_EnvSegment ENV_ATTACK e in
    Some (set_ENV1 e s)
  else Some s.

(** [if (m_TriggerRelease1) { ... }] *)
Definition env1_release_trigger (p : PatchParamTable_t) (s : Synth) : Synth :=
  if m_TriggerRelease1 s then
    let s := set_m_TriggerRelease1 false s in
    let e := ENV1 s in
    let e := set_timeConstant (Z.quot (EnvReleaseTime p) 5) e in
    let e := set_envPhaseTimer 0 e in
    let e := set_EnvSegment ENV_RELEASE e in
    set_ENV1 e s
  else s.

(** [switch (EnvSegment) { ... }] *)
Definition env1_segment (p : PatchParamTable_t) (s : Synth) : option Synth :=
  let e := ENV1 s in
  match EnvSegment e with
  | ENV_IDLE => Some (set_m_ENV1_Output 0 s)
  | ENV_ATTACK =>
      let s := if m_ENV1_Output s <? ampldMaximum e
               then set_m_ENV1_Output (to_int32 (m_ENV1_Output s + ampldDelta e)) s else s in
      let e := set_envPhaseTimer (to_uint32 (envPhaseTimer e + 1)) e in
      if envPhaseTimer e >=? EnvAttackTime p then
        let s := set_m_ENV1_Output (ampldMaximum e) s in
        let e := set_envPhaseTimer 0 e in
        let e := if EnvHoldTime p =? 0 then set_EnvSegment ENV_SUSTAIN e
                 else set_EnvSegment ENV_PEAK_HOLD e in
        Some (set_ENV1 e s)
      else Some (set_ENV1 e s)
  | ENV_PEAK_HOLD =>
      let e := set_envPhaseTimer (to_uint32 (envPhaseTimer e + 1)) e in
      if envPhaseTimer e >=? EnvHoldTime p then
        let e := set_timeConstant (Z.quot (EnvDecayTime p) 5) e in
        let e := set_envPhaseTimer 0 e in
        let e := set_EnvSegment ENV_DECAY e in
        Some (set_ENV1 e s)
      else Some (set_ENV1 e s)
  | ENV_DECAY =>
      d ← c_div (to_int32 (m_ENV1_Output s - sustainLevel e)) (timeConstant e);
      let e := set_ampldDelta d e in
      let e := if ampldDelta e =? 0 then set_ampldDelta FIXED_MIN_LEVEL e else e in
      let s := if m_ENV1_Output s >=? to_int32 (sustainLevel e + ampldDelta e)
               then set_m_ENV1_Output (to_int32 (m_ENV1_Output s - ampldDelta e)) s else s in
      let e := set_envPhaseTimer (to_uint32 (envPhaseTimer e + 1)) e in
      let e := if envPhaseTimer e >=? EnvDecayTime p * 2
               then set_EnvSegment ENV_SUSTAIN e else e in
      Some (set_ENV1 e s)
  | ENV_SUSTAIN => Some s
  | ENV_RELEASE =>
      d ← c_div (m_ENV1_Output s) (timeConstant e);
      let e := set_ampldDelta d e in
      let e := if ampldDelta e =? 0 then set_ampldDelta FIXED_MIN_LEVEL e else e in
      let s := if m_ENV1_Output s >=? ampldDelta e
               then set_m_ENV1_Output (to_int32 (m_ENV1_Output s - ampldDelta e)) s else s in
      let e := set_envPhaseTimer (to_uint32 (envPhaseTimer e + 1)) e in
      let e := if envPhaseTimer e >=? EnvReleaseTime p * 2
               then set_EnvSegment ENV_IDLE e else e in
      Some (set_ENV1 e s)
  end.

(** [void AmpldEnvelopeGenerator()], called by the synth process at 1 ms
    intervals. *)
Definition AmpldEnvelopeGenerator (p : PatchParamTable_t) (s : Synth) : option Synth :=
  s ← env1_attack_trigger p s;
  env1_segment p (env1_release_trigger p s).

(** [n] calls of the generator, one per millisecond, with no other
    function of the firmware in between. *)
Fixpoint env1_ticks (p : PatchParamTable_t) (n : nat) (s : Synth) : option Synth :=
  match n with
  | O => Some s
  | S n => s ← AmpldEnvelopeGenerator p s; env1_ticks p n s
  end.

(** *** Oscillator frequency and amplitude modulation *)

(** [void OscFreqModulation()], called at 5 ms intervals.  [modnLevel] has
    no initializer: it is assigned in the vibrato modes 1 to 3 only. *)
Definition OscFreqModulation (cfg : ConfigParams_t) (p : PatchParamTable_t) (s : Synth)
  : option Synth :=
  let oscFreqLFO := Z.quot (to_int32 (Z.shiftl (LFO_Freq_x10 p) 8)) 10 in
  let s := set_m_LFO_Step (Z.quot (to_int32 (oscFreqLFO * WAVE_TABLE_SIZE)) 1000) s in
  let modnLevel : option Z := None in
  let modnLevel :=
    if VibratoCtrlMode cfg =? VIBRATO_BY_MODN_CC
    then Some (Z.quot (to_int32 (m_ModulationLevel s * PitchBendRange cfg)) 12)
    else modnLevel in
  let modnLevel :=
    if VibratoCtrlMode cfg =? VIBRATO_AUTOMATIC
    then Some (Z.quot (to_int32 (m_RampOutput s * LFO_FM_Depth p)) 1200)
    else modnLevel in
  let modnLevel :=
    if VibratoCtrlMode cfg =? VIBRATO_BY_CV_AUXIN
    then Some (Z.quot (to_int32 (IntToFixedPt 1 * LFO_FM_Depth p)) 1200)
    else modnLevel in
  freqDevn ←
    (if negb (VibratoCtrlMode cfg =? 0) then
       modnLevel ← modnLevel;
       Some (Base2Exp (MultiplyFixed (m_LFO_output s) modnLevel))
     else if negb (PitchBendMode cfg =? 0) then Some (Base2Exp (m_PitchBendFactor s))
     else Some (IntToFixedPt 1));
  steps ← mapM (fun osc =>
      detune ← c_index (OscDetune p) osc;
      stepInit ← c_index (m_OscStepInit s) osc;
      let cents := to_int16 (detune + FineTuning_cents cfg) in
      let detuneNorm := Base2Exp (Z.quot (to_int32 (IntToFixedPt 1 * cents)) 1200) in
      let stepDetune := MultiplyFixed stepInit detuneNorm in
      Some (stepDetune, MultiplyFixed stepDetune freqDevn)) oscillators;
  let s := set_m_OscStepDetune (fst <$> steps) s in
  Some (set_v_OscStep (snd <$> steps) s).

(** The amplitude modulation factor of one oscillator, before the limit:
    the chain of [if]s on [g_Patch.OscAmpldModSource[osc]]. *)
Definition osc_ampld_modn (p : PatchParamTable_t) (s : Synth) (source : Z) : Z :=
  let LFO_scaled := Z.quot (to_int32 (m_LFO_output s * LFO_AM_Depth p)) 200 in
  let LFO_AM_bias := to_int32 (IntToFixedPt 1 - Z.quot (IntToFixedPt (LFO_AM_Depth p)) 200) in
  if source =? OSC_MODN_SOURCE_CONT_POS then to_uint16 (Z.shiftr (m_ContourOutput s) 10)
  else if source =? OSC_MODN_SOURCE_CONT_NEG
    then to_uint16 (1024 - Z.shiftr (m_ContourOutput s) 10)
  else if source =? OSC_MODN_SOURCE_ENV2 then to_uint16 (Z.shiftr (m_ENV2_Output s) 10)
  else if source =? OSC_MODN_SOURCE_MODN then to_uint16 (Z.shiftr (m_ModulationLevel s) 10)
  else if source =? OSC_MODN_SOURCE_EXPR_POS
    then to_uint16 (Z.shiftr (m_ExpressionLevel s) 10)
  else if source =? OSC_MODN_SOURCE_EXPR_NEG
    then to_uint16 (1024 - Z.shiftr (m_ExpressionLevel s) 10)
  else if source =? OSC_MODN_SOURCE_LFO
    then to_uint16 (Z.shiftr (to_int32 (LFO_scaled + LFO_AM_bias)) 10)
  else if source =? OSC_MODN_SOURCE_VELO_POS then to_uint16 (Z.shiftr (m_KeyVelocity s) 10)
  else if source =? OSC_MODN_SOURCE_VELO_NEG
    then to_uint16 (1024 - Z.shiftr (m_KeyVelocity s) 10)
  else 1000.

(** The mixer input level of one oscillator. *)
Definition osc_mixer_level (p : PatchParamTable_t) (s : Synth) (osc : Z) : option Z :=
  muted ← c_index (m_OscMuted s) osc;
  if muted : bool then Some 0
  else
    step ← to_int16 <$> c_index (MixerInputStep p) osc;
    c_index g_AmpldLevelLogScale_x1000 step.

(** [void OscAmpldModulation()], called at 5 ms intervals. *)
Definition OscAmpldModulation (p : PatchParamTable_t) (s : Synth) : option Synth :=
  levels ← mapM (fun osc =>
      source ← c_index (OscAmpldModSource p) osc;
      let modn := osc_ampld_modn p s source in
      let modn := if modn >? 1000 then 1000 else modn in
      level ← osc_mixer_level p s osc;
      Some (modn, level)) oscillators;
  let s := set_v_OscAmpldModn (fst <$> levels) s in
  let s := set_v_MixerLevel (snd <$> levels) s in
  Some (set_v_MixerOutGain (to_uint16 (Z.quot (Z.shiftl (MixerOutGain_x10 p) 7) 10)) s).

(** *** Audio interrupt service routine *)

(** The wave-table position after one sample: add the step, and wrap once
    at the table length. *)
Definition osc_advance (angle step : Z) : Z :=
  let angle := to_int32 (angle + step) in
  if angle >=? Z.shiftl WAVE_TABLE_SIZE 16
  then to_int32 (angle - Z.shiftl WAVE_TABLE_SIZE 16) else angle.

(** What one oscillator feeds into the mixer. *)
Definition osc_mixer_input (angle ampldModn mixerLevel : Z) : option Z :=
  wave ← c_index g_sine_wave (Z.shiftr angle 16);
  let oscSample := to_int32 (Z.shiftl wave 5) in
  let oscSample := Z.shiftr (to_int32 (oscSample * ampldModn)) 10 in
  Some (Z.shiftr (to_int32 (oscSample * mixerLevel)) 10).

(** One turn of the oscillator loop of the handler. *)
Definition TC3_oscillator (acc : Synth * Z) (osc : Z) : option (Synth * Z) :=
  let '(s, mixerOut) := acc in
  angle ← c_index (v_OscAngle s) osc;
  step ← c_index (v_OscStep s) osc;
  ampldModn ← c_index (v_OscAmpldModn s) osc;
  mixerLevel ← c_index (v_MixerLevel s) osc;
  input ← osc_mixer_input angle ampldModn mixerLevel;
  angles ← c_store (v_OscAngle s) osc (osc_advance angle step);
  Some (set_v_OscAngle angles s, to_int32 (mixerOut + input)).

Fixpoint TC3_oscillators (acc : Synth * Z) (oscs : list Z) : option (Synth * Z) :=
  match oscs with
  | [] => Some acc
  | osc :: oscs => acc ← TC3_oscillator acc osc; TC3_oscillators acc oscs
  end.

(** [void TC3_Handler(void)], with the SPI DAC ([USE_SPI_DAC_FOR_AUDIO]). *)
Definition TC3_Handler (s : Synth) : option Synth :=
  '(s, finalOutput) ←
    (if v_SynthEnable s then
       '(s, mixerOut) ← TC3_oscillators (s, 0) oscillators;
       let mixerOut := Z.shiftr (to_int32 (mixerOut * v_MixerOutGain s)) 7 in
       let mixerOut := if mixerOut >? v_LimiterLevelPos s then v_LimiterLevelPos s else mixerOut in
       let mixerOut := if mixerOut <? v_LimiterLevelNeg s then v_LimiterLevelNeg s else mixerOut in
       let attenOut := Z.shiftr (to_int32 (mixerOut * v_OutputLevel s)) 10 in
       if c_true (m_RvbMix s) then
         delayed ← c_index (ReverbDelayLine s) (rvbIndex s);
         let reverbOut := MultiplyFixed delayed (m_RvbDecay s) in
         let reverbLPF := Z.shiftr (to_int32 (reverbOut + reverbPrev s)) 1 in
         let s := set_reverbPrev reverbOut s in
         line ← c_store (ReverbDelayLine s) (rvbIndex s)
                  (to_int32 (Z.shiftr (to_int32 (attenOut * m_RvbAtten s)) 7 + reverbLPF));
         let s := set_ReverbDelayLine line s in
         let s := set_rvbIndex (to_int32 (rvbIndex s + 1)) s in
         let s := if rvbIndex s >=? m_RvbDelayLen s then set_rvbIndex 0 s else s in
         let finalOutput := Z.shiftr (to_int32 (attenOut * (128 - m_RvbMix s))) 7 in
         let finalOutput :=
           to_int32 (finalOutput + Z.shiftr (to_int32 (reverbOut * m_RvbMix s)) 7) in
         Some (s, finalOutput)
       else Some (s, attenOut)
     else Some (s, 0));
  Some (set_spiDACdata (to_uint16 (2048 + Z.shiftr finalOutput 9)) s).

(** [n] audio interrupts in a row. *)
Fixpoint TC3_samples (n : nat) (s : Synth) : option Synth :=
  match n with
  | O => Some s
  | S n => s ← TC3_Handler s; TC3_samples n s
  end.


(** ** The main sketch ([Sigma_6_Poly_voice]) *)

(** [int GetNumberOfPresets(void)]: [sizeof(g_PresetPatch) / sizeof(PatchParamTable_t)]. *)
Definition GetNumberOfPresets : Z := Z.of_nat (length g_PresetPatch).

(** [void PresetSelect(uint8_t preset)]: copy a preset from flash to the
    active patch. *)
Definition PresetSelect (preset : Z) (v : Voice) : option Voice :=
  let preset := to_uint8 preset in
  if preset <? GetNumberOfPresets then
    patch ← c_index g_PresetPatch preset;
    let v := set_g_Patch patch v in
    e ← SynthPrepare (g_Config v) (engine v);
    let v := set_engine e v in
    Some (set_g_Config (set_PresetLastSelected preset (g_Config v)) v)
  else Some v.

(** [void DefaultConfigData(void)] *)
Definition DefaultConfigData (cfg : ConfigParams_t) : ConfigParams_t :=
  let cfg := set_AudioAmpldCtrlMode AUDIO_CTRL_ENV1_VELO cfg in
  let cfg := set_VibratoCtrlMode VIBRATO_DISABLED cfg in
  let cfg := set_PitchBendMode PITCH_BEND_BY_MIDI_MSG cfg in
  let cfg := set_PitchBendRange 2 cfg in
  let cfg := set_ReverbMix_pc 15 cfg in
  let cfg := set_PresetLastSelected 1 cfg in
  set_FineTuning_cents 0 cfg.

(** [int MIDI_GetMessageLength(uint8_t statusByte)] *)
Definition MIDI_GetMessageLength (statusByte : Z) : Z :=
  let command := Z.land statusByte 0xF0 in
  let length := 0 in
  let length :=
    if (command =? PROGRAM_CHANGE_CMD) || (command =? CHAN_PRESSURE_CMD) then 2 else length in
  let length :=
    if (command =? NOTE_ON_CMD) || (command =? NOTE_OFF_CMD)
       || (command =? CONTROL_CHANGE_CMD) || (command =? PITCH_BEND_CMD)
    then 3 else length in
  let length := if statusByte =? SYS_EXCLUSIVE_MSG then MIDI_MSG_MAX_LENGTH else length in
  length.

(** Assignment to a member of [g_Patch] and of [g_Config], and the call of
    an engine function that cannot fail. *)
Definition on_patch (f : PatchParamTable_t -> PatchParamTable_t) (v : Voice) : Voice :=
  set_g_Patch (f (g_Patch v)) v.
Definition on_config (f : ConfigParams_t -> ConfigParams_t) (v : Voice) : Voice :=
  set_g_Config (f (g_Config v)) v.
Definition on_engine (f : Synth -> Synth) (v : Voice) : Voice :=
  set_engine (f (engine v)) v.

(** [void ProcessControlChange(uint8_t *midiMessage)] *)
Definition ProcessControlChange (midiMessage : list Z) (v : Voice) : option Voice :=
  CCnumber ← c_index midiMessage 1;
  dataByte ← c_index midiMessage 2;
  if (CCnumber =? 2) || (CCnumber =? 7) || (CCnumber =? 11) then
    let v := set_expressionHi dataByte v in
    let data14 := Z.shiftl (expressionHi v) 7 in
    Some (on_engine (SynthExpression data14) v)
  else if (CCnumber =? 34) || (CCnumber =? 39) || (CCnumber =? 43) then
    let data14 := Z.shiftl (expressionHi v) 7 + dataByte in
    Some (on_engine (SynthExpression data14) v)
  else if CCnumber =? 1 then
    let v := set_modulationHi dataByte v in
    let data14 := Z.shiftl (modulationHi v) 7 in
    Some (on_engine (SynthModulation data14) v)
  else if CCnumber =? 33 then
    let data14 := Z.shiftl (modulationHi v) 7 + dataByte in
    Some (on_engine (SynthModulation data14) v)
  (* The following CC numbers are to set synth Configuration parameters *)
  else if CCnumber =? 100 then
    Some (set_g_MidiRegisParam dataByte v)
  else if CCnumber =? 38 then
    let v := if (g_MidiRegisParam v =? 0x00) && (dataByte <=? 12)
             then on_config (set_PitchBendRange dataByte) v else v in
    let v := if g_MidiRegisParam v =? 0x01
             then on_config (set_FineTuning_cents (to_int16 (to_int16 dataByte - 64))) v else v in
    Some v
  else if CCnumber =? 86 then
    Some (if dataByte <? 4 then on_config (set_AudioAmpldCtrlMode dataByte) v else v)
  else if CCnumber =? 87 then
    Some (if dataByte <? 4 then on_config (set_VibratoCtrlMode dataByte) v else v)
  else if CCnumber =? 88 then
    Some (if dataByte <? 4 then on_config (set_PitchBendMode dataByte) v else v)
  else if CCnumber =? 89 then
    Some (if dataByte <=? 100 then on_config (set_ReverbMix_pc dataByte) v else v)
  (* The following CC numbers are to set synth Patch parameters *)
  else if CCnumber =? 70 then
    Some (if negb (dataByte =? 0) then on_patch (set_MixerOutGain_x10 dataByte) v else v)
  else if CCnumber =? 71 then
    Some (if dataByte <=? 95 then on_patch (set_LimiterLevelPc dataByte) v else v)
  else if CCnumber =? 72 then
    Some (if negb (dataByte =? 0) && (dataByte <=? 100)
          then on_patch (set_EnvReleaseTime (to_uint16 (dataByte * 100))) v else v)
  else if CCnumber =? 73 then
    Some (if negb (dataByte =? 0) && (dataByte <=? 100)
          then on_patch (set_EnvAttackTime (to_uint16 (dataByte * 10))) v else v)
  else if CCnumber =? 74 then
    Some (if dataByte <=? 100
          then on_patch (set_EnvHoldTime (to_uint16 (dataByte * 10))) v else v)
  else if CCnumber =? 75 then
    Some (if negb (dataByte =? 0) && (dataByte <=? 100)
          then on_patch (set_EnvDecayTime (to_uint16 (dataByte * 100))) v else v)
  else if CCnumber =? 76 then
    Some (if dataByte <=? 100 then on_patch (set_EnvSustainLevel dataByte) v else v)
  else if CCnumber =? 77 then
    Some (if negb (dataByte =? 0) && (dataByte <=? 50)
          then on_patch (set_LFO_Freq_x10 (to_uint16 (dataByte * 10))) v else v)
  else if CCnumber =? 78 then
    Some (if dataByte <=? 100
          then on_patch (set_LFO_RampTime (to_uint16 (dataByte * 100))) v else v)
  else if CCnumber =? 79 then
    Some (if dataByte <=? 120
          then on_patch (set_LFO_FM_Depth (to_uint16 (dataByte * 5))) v else v)
  else if CCnumber =? 80 then
    let oscnum := Z.rem (Z.shiftr dataByte 4) 6 in
    steps ← c_store (MixerInputStep (g_Patch v)) oscnum (Z.land dataByte 0x0F);
    Some (on_patch (set_MixerInputStep steps) v)
  else if CCnumber =? 112 then
    Some (on_engine SynthLFO_PhaseSync v)
  (* Mode Change messages *)
  else if (CCnumber =? 120) || (CCnumber =? 123) then
    e ← SynthPrepare (g_Config v) (engine v);
    Some (set_engine e v)
  else Some v.

(** [void ProcessMidiSystemExclusive(uint8_t *midiMessage, short msgLength)]:
    "nothing to be done in this version". *)
Definition ProcessMidiSystemExclusive (midiMessage : list Z) (msgLength : Z) (v : Voice)
  : Voice := v.

(** [void ProcessMidiMessage(uint8_t *midiMessage, short msgLength)] *)
Definition ProcessMidiMessage (midiMessage : list Z) (msgLength : Z) (v : Voice)
  : option Voice :=
  status ← c_index midiMessage 0;
  let statusByte := Z.land status 0xF0 in
  noteNumber ← c_index midiMessage 1;
  velocity ← c_index midiMessage 2;
  let program := noteNumber in
  let leverPosn_Lo := noteNumber in
  let leverPosn_Hi := velocity in
  if statusByte =? NOTE_OFF_CMD then
    let v := on_engine (SynthNoteOff noteNumber) v in
    Some (set_TESTPOINT2 false v)
  else if statusByte =? NOTE_ON_CMD then
    if velocity =? 0 then
      let v := on_engine (SynthNoteOff noteNumber) v in
      Some (set_TESTPOINT2 false v)
    else
      e ← SynthNoteOn (g_Patch v) noteNumber velocity (engine v);
      Some (set_TESTPOINT2 true (set_engine e v))
  else if statusByte =? CONTROL_CHANGE_CMD then ProcessControlChange midiMessage v
  else if statusByte =? PROGRAM_CHANGE_CMD then PresetSelect program v
  else if statusByte =? PITCH_BEND_CMD then
    let bipolarPosn :=
      to_int16 (Z.lor (to_int16 (Z.shiftl leverPosn_Hi 7)) leverPosn_Lo - 0x2000) in
    Some (on_engine (SynthPitchBend (g_Config v) bipolarPosn) v)
  else if statusByte =? SYS_EXCLUSIVE_MSG then
    Some (ProcessMidiSystemExclusive midiMessage msgLength v)
  else Some v.

(** One call of [ProcessMidiMessage], as [MidiInputService] makes it: the
    message buffer and the message length. *)
Definition midi_dispatch : Type := list Z * Z.

(** The framing part of [MidiInputService], for one byte read from the
    serial port: the new statics, and whether a system-exclusive message
    was terminated.  [None] is the store past the end of the buffer. *)
Definition midi_in_byte (msgByte : Z) (m : MidiInLocals) : option (MidiInLocals * bool) :=
  if c_true (Z.land msgByte 0x80) then
    if msgByte =? SYSTEM_MSG_EOX then
      let m := set_msgComplete true m in
      buffer ← c_store (midiMessage m) (msgIndex m) SYSTEM_MSG_EOX;
      let m := set_midiMessage buffer m in
      let m := set_msgIndex (to_int16 (msgIndex m + 1)) m in
      let m := set_msgByteCount (to_int16 (msgByteCount m + 1)) m in
      Some (m, true)
    else if msgByte <=? SYS_EXCLUSIVE_MSG then
      let m := set_msgStatus msgByte m in
      let m := set_msgComplete false m in
      buffer ← c_store (midiMessage m) 0 (msgStatus m);
      let m := set_midiMessage buffer m in
      let m := set_msgIndex 1 m in
      let m := set_msgByteCount 1 m in
      let m := set_msgBytesExpected (to_int16 (MIDI_GetMessageLength (msgStatus m))) m in
      Some (m, false)
    else Some (m, false)
  else
    let m :=
      if msgComplete m && negb (msgStatus m =? SYS_EXCLUSIVE_MSG) then
        if msgByteCount m =? 0 then
          let m := set_msgIndex 1 m in
          let m := set_msgByteCount 1 m in
          set_msgBytesExpected (to_int16 (MIDI_GetMessageLength (msgStatus m))) m
        else m
      else m in
    if msgIndex m <? MIDI_MSG_MAX_LENGTH then
      buffer ← c_store (midiMessage m) (msgIndex m) msgByte;
      let m := set_midiMessage buffer m in
      let m := set_msgIndex (to_int16 (msgIndex m + 1)) m in
      let m := set_msgByteCount (to_int16 (msgByteCount m + 1)) m in
      Some (m, false)
    else Some (m, false).

(** [void MidiInputService()] when a byte is waiting in the receive buffer
    (with none waiting, the function does nothing).  The result holds the
    calls of [ProcessMidiMessage] that were made: none or one. *)
Definition MidiInputService (rxByte : Z) (v : Voice) : option (Voice * list midi_dispatch) :=
  let msgByte := to_uint8 rxByte in
  '(m, gotSysExMsg) ← midi_in_byte msgByte (MIDI_IN v);
  let v := set_MIDI_IN m v in
  if (negb (msgByteCount m =? 0) && (msgByteCount m =? msgBytesExpected m)) || gotSysExMsg then
    let m := set_msgComplete true m in
    let v := set_MIDI_IN m v in
    first ← c_index (midiMessage m) 0;
    let msgChannel := to_uint8 (Z.land first 0x0F + 1) in
    if (msgChannel =? g_MidiChannel v) || (msgChannel =? 16)
       || (g_MidiMode v =? OMNI_ON_MONO) || (msgStatus m =? SYS_EXCLUSIVE_MSG) then
      let call := (midiMessage m, msgByteCount m) in
      v ← ProcessMidiMessage (midiMessage m) (msgByteCount m) v;
      let m := MIDI_IN v in
      let m := set_msgBytesExpected 0 m in
      let m := set_msgByteCount 0 m in
      let m := set_msgIndex 0 m in
      Some (set_MIDI_IN m v, [call])
    else Some (v, [])
  else Some (v, []).

(** The main loop reading a stream of bytes: one call of
    [MidiInputService] per byte, the calls of [ProcessMidiMessage] in order. *)
Fixpoint midi_receive (bytes : list Z) (v : Voice) : option (Voice * list midi_dispatch) :=
  match bytes with
  | [] => Some (v, [])
  | b :: bytes =>
      '(v, calls) ← MidiInputService b v;
      '(v, calls') ← midi_receive bytes v;
      Some (v, calls ++ calls')
  end.


(** ** Predicates of the statements *)

(** A patch whose six frequency multipliers select entries of
    [g_FreqMultConst]. *)
Definition patch_multipliers_valid (p : PatchParamTable_t) : Prop :=
  length (OscFreqMult p) = 6%nat /\ Forall (fun mult => 0 <= mult < 12) (OscFreqMult p).

(** A pair of a note and a multiplier has a frequency and a phase step. *)
Definition osc_setup_defined (noteNum mult : Z) : bool :=
  match osc_frequency noteNum mult with
  | Some oscFreq => bool_decide (is_Some (osc_phase_step oscFreq))
  | None => false
  end.

(** The validity ranges of the controller-change dispatcher: the data
    values that each controller number refuses for the member it sets.
    Controller 38 (data entry) sets the pitch-bend range when the
    registered parameter is 0; controllers 86 to 88 set a mode (0..3), 89
    the reverb mix (0..100 %), 70 the mixer gain (not 0), 71 the limiter
    level (0..95 %), 72, 73 and 75 the release, attack and decay times
    (1..100 units), 74 the hold time (0..100 units), 76 the sustain level
    (0..100 %), 77 the LFO frequency (1..50 Hz), 78 the LFO ramp time
    (0..100 units) and 79 the vibrato depth (0..120 units).  The other
    controllers have no range. *)
Definition cc_data_out_of_range (regisParam CCnumber dataByte : Z) : bool :=
  if CCnumber =? 38 then (regisParam =? 0) && (12 <? dataByte)
  else if (CCnumber =? 86) || (CCnumber =? 87) || (CCnumber =? 88) then 3 <? dataByte
  else if CCnumber =? 89 then 100 <? dataByte
  else if CCnumber =? 70 then dataByte =? 0
  else if CCnumber =? 71 then 95 <? dataByte
  else if (CCnumber =? 72) || (CCnumber =? 73) || (CCnumber =? 75)
    then (dataByte =? 0) || (100 <? dataByte)
  else if (CCnumber =? 74) || (CCnumber =? 76) || (CCnumber =? 78) then 100 <? dataByte
  else if CCnumber =? 77 then (dataByte =? 0) || (50 <? dataByte)
  else if CCnumber =? 79 then 120 <? dataByte
  else false.

(** The statics of [MidiInputService] while the data bytes of a message
    with the given status byte are awaited: either the status byte has just
    arrived, or a message with that status has been completed and
    dispatched (running status). *)
Definition awaiting_data (status : Z) (m : MidiInLocals) : Prop :=
  length (midiMessage m) = 16%nat
  /\ msgStatus m = status
  /\ midiMessage m !! 0%nat = Some status
  /\ ((msgComplete m = false /\ msgByteCount m = 1 /\ msgIndex m = 1
       /\ msgBytesExpected m = MIDI_GetMessageLength status)
      \/ (msgComplete m = true /\ msgByteCount m = 0)).

(** The data the audio interrupt works on is in order: the synth is
    enabled, the four oscillator arrays have six entries, every phase
    accumulator is within one table cycle and every phase step is
    nonnegative and less than the table length (16:16 fixed point), and
    the reverb index and the loop length are inside the delay line of
    [REVERB_DELAY_MAX_SIZE] samples. *)
Definition table_length_16_16 : Z := Z.shiftl WAVE_TABLE_SIZE 16.

Definition isr_ready (s : Synth) : Prop :=
  v_SynthEnable s = true
  /\ length (v_OscAngle s) = 6%nat /\ length (v_OscStep s) = 6%nat
  /\ length (v_OscAmpldModn s) = 6%nat /\ length (v_MixerLevel s) = 6%nat
  /\ Forall (fun angle => 0 <= angle < table_length_16_16) (v_OscAngle s)
  /\ Forall (fun step => 0 <= step < table_length_16_16) (v_OscStep s)
  /\ length (ReverbDelayLine s) = 2000%nat
  /\ 0 <= rvbIndex s < REVERB_DELAY_MAX_SIZE
  /\ m_RvbDelayLen s <= REVERB_DELAY_MAX_SIZE.

(** The accumulators after the loop over some oscillators. *)
Definition advance_oscillators (steps : list Z) (angles : list Z) (oscs : list Z) : list Z :=
  foldl (fun angles osc =>
           match c_index angles osc, c_index steps osc with
           | Some angle, Some step => <[Z.to_nat osc := osc_advance angle step]> angles
           | _, _ => angles
           end) angles oscs.

(** A patch whose members are within their documented ranges, as far as
    the oscillator bank reads them: six entries per array, multipliers
    0..11 and mixer steps 0..16. *)
Definition patch_oscillators_valid (p : PatchParamTable_t) : Prop :=
  patch_multipliers_valid p
  /\ length (OscAmpldModSource p) = 6%nat
  /\ length (MixerInputStep p) = 6%nat
  /\ Forall (fun step => 0 <= step <= 16) (MixerInputStep p).

(** The frequency of an oscillator with the given phase step (16:16 fixed
    point, per sample) is above [MAX_OSC_FREQ_HZ]:
    step / table length * sample rate > ceiling. *)
Definition step_above_ceiling (step : Z) : Prop :=
  step * SAMPLE_RATE_HZ > MAX_OSC_FREQ_HZ * table_length_16_16.

(** The float comparison that mutes an oscillator agrees with the
    comparison of the exact decimal values of the two tables. *)
Definition mute_is_exact (note mult : Z) : bool :=
  match osc_frequency note mult,
        c_index g_NoteFrequency (note - 12), c_index g_FreqMultConst mult with
  | Some oscFreq, Some noteFreq, Some freqMult =>
      eqb (osc_muted oscFreq) (negb (Qle_bool (noteFreq * freqMult) (inject_Z MAX_OSC_FREQ_HZ)))
  | _, _, _ => false
  end.

(** The engine at power-up: every variable is zero. *)
Definition Synth_reset : Synth :=
  {| ReverbDelayLine := replicate 2000 0;
     m_OscStepInit := replicate 6 0; m_OscStepDetune := replicate 6 0;
     m_OscMuted := replicate 6 false;
     m_LFO_PhaseAngle := 0; m_LFO_Step := 0; m_LFO_output := 0; m_RampOutput := 0;
     m_ExpressionLevel := 0; m_ModulationLevel := 0; m_PitchBendFactor := 0;
     m_ENV1_Output := 0; m_ENV2_Output := 0; m_ContourOutput := 0; m_KeyVelocity := 0;
     m_TriggerAttack1 := false; m_TriggerRelease1 := false; m_TriggerAttack2 := false;
     m_TriggerRelease2 := false; m_TriggerContour := false; m_TriggerReset := false;
     m_LegatoNoteChange := false; m_NoteOn := false; m_NotePlaying := 0;
     m_RvbDelayLen := 0; m_RvbDecay := 0; m_RvbAtten := 0; m_RvbMix := 0;
     v_SynthEnable := false;
     v_OscAngle := replicate 6 0; v_OscStep := replicate 6 0;
     v_OscAmpldModn := replicate 6 0; v_MixerLevel := replicate 6 0;
     v_MixerOutGain := 0; v_LimiterLevelPos := 0; v_LimiterLevelNeg := 0;
     v_OutputLevel := 0;
     SPI_setupDone := false;
     ENV1 := {| EnvSegment := ENV_IDLE; envPhaseTimer := 0; sustainLevel := 0;
                timeConstant := 0; ampldDelta := 0; ampldMaximum := 0 |};
     rvbIndex := 0; reverbPrev := 0; spiDACdata := 0 |}.

(** The configuration after [DefaultConfigData], the other members zero. *)
Definition Config_default : ConfigParams_t :=
  DefaultConfigData (mkConfig 0 0 0 0 0 0 0 false false false 0 0 0).

(** The first preset, "Sound Test". *)
Definition Preset_SoundTest : PatchParamTable_t :=
  mkPatch "Sound Test" [1; 4; 5; 6; 7; 8] [0; 0; 0; 0; 0; 0] [0; 0; 0; 0; 0; 0]
    [15; 13; 11; 0; 0; 0]  5 0 200 80 200 2  5 20 500 95  500 50  50 500 20 20  10 0.

(** Note C8 played on "Sound Test" with the pitch-bend lever at its upper
    end and a pitch-bend range of 12 semitones, up to the next modulation
    tick: the second oscillator sounds the octave C9 bent up to C10. *)
Definition bent_note_scenario : option Synth :=
  let cfg := set_PitchBendRange 12 Config_default in
  let s := SynthPitchBend cfg 8191 Synth_reset in
  s ← SynthNoteOn Preset_SoundTest 108 100 s;
  s ← OscFreqModulation cfg Preset_SoundTest s;
  OscAmpldModulation Preset_SoundTest s.

(** The times and the sustain level of the amplitude envelope are within
    their documented ranges: 16-bit members, attack at least 1 ms, decay
    and release at least 5 ms (the time constant is a fifth of the time),
    sustain at most 100 %. *)
Definition patch_envelope_valid (p : PatchParamTable_t) : Prop :=
  1 <= EnvAttackTime p < 2^16
  /\ 0 <= EnvHoldTime p < 2^16
  /\ 5 <= EnvDecayTime p < 2^16
  /\ 5 <= EnvReleaseTime p < 2^16
  /\ 0 <= EnvSustainLevel p <= 100.

(** The generator between two ticks of a note: no attack trigger is
    pending, the output and the sustain level are between zero and full
    scale, and, unless a release trigger is pending, the statics fit the
    segment. *)
Definition envelope_in_order (p : PatchParamTable_t) (s : Synth) : Prop :=
  let e := ENV1 s in
  m_TriggerAttack1 s = false
  /\ 0 <= m_ENV1_Output s <= IntToFixedPt 1
  /\ 0 <= sustainLevel e <= IntToFixedPt 1
  /\ (m_TriggerRelease1 s = true
      \/ match EnvSegment e with
         | ENV_IDLE | ENV_SUSTAIN => True
         | ENV_ATTACK =>
             0 <= envPhaseTimer e < EnvAttackTime p
             /\ 0 <= ampldDelta e
             /\ m_ENV1_Output s <= envPhaseTimer e * ampldDelta e
             /\ EnvAttackTime p * ampldDelta e <= ampldMaximum e
             /\ ampldMaximum e <= IntToFixedPt 1
         | ENV_PEAK_HOLD => 0 <= envPhaseTimer e < EnvHoldTime p
         | ENV_DECAY => 1 <= timeConstant e /\ 0 <= envPhaseTimer e < 2 * EnvDecayTime p
         | ENV_RELEASE => 1 <= timeConstant e /\ 0 <= envPhaseTimer e < 2 * EnvReleaseTime p
         end).

(** A note played on "Sound Test" and ended before the next tick:
    [SynthNoteOn] then [SynthNoteOff] on the engine at power-up. *)
Definition note_on_off_scenario : option Synth :=
  s ← SynthNoteOn Preset_SoundTest 60 100 Synth_reset;
  Some (SynthNoteOff 60 s).

(** A note on the amplitude envelope: the attack trigger is pending at the
    first tick, the release trigger is applied after [k] ticks, and [n]
    more ticks follow. *)
Definition attack_release_ticks (p : PatchParamTable_t) (k n : nat) (s : Synth)
  : option Synth :=
  s ← env1_ticks p k s;
  env1_ticks p n (set_m_TriggerRelease1 true s).

(** The voice at power-up, after [setup] has read channel 1 from the
    switches and loaded the defaults, with "Sound Test" as active patch and
    the engine not yet prepared. *)
Definition Voice_reset : Voice :=
  {| g_Config := Config_default; g_MidiChannel := 1; g_MidiMode := OMNI_OFF_MONO;
     g_MidiRegisParam := 0; g_Patch := Preset_SoundTest; engine := Synth_reset;
     modulationHi := 0; expressionHi := 0;
     MIDI_IN := {| midiMessage := replicate 16 0; msgBytesExpected := 0; msgByteCount := 0;
                   msgIndex := 0; msgStatus := 0; msgComplete := false |};
     TESTPOINT2 := false |}.


(** ** Proof tools *)

(** Reduction of the members of the records, and of nothing else. *)
Ltac rx_simpl :=
  cbn [midiMessage msgBytesExpected msgByteCount msgIndex msgStatus msgComplete
       set_midiMessage set_msgBytesExpected set_msgByteCount set_msgIndex set_msgStatus
       set_msgComplete mbind option_bind andb orb negb fst snd].

Tactic Notation "rx_simpl" "in" hyp(H) :=
  cbn [midiMessage msgBytesExpected msgByteCount msgIndex msgStatus msgComplete
       set_midiMessage set_msgBytesExpected set_msgByteCount set_msgIndex set_msgStatus
       set_msgComplete mbind option_bind andb orb negb fst snd] in H.

Ltac voice_simpl :=
  cbn [g_Config g_MidiChannel g_MidiMode g_MidiRegisParam g_Patch engine modulationHi
       expressionHi MIDI_IN TESTPOINT2 set_g_Config set_g_MidiRegisParam set_g_Patch
       set_engine set_modulationHi set_expressionHi set_MIDI_IN set_TESTPOINT2 on_patch
       on_config on_engine].

Tactic Notation "voice_simpl" "in" hyp(H) :=
  cbn [g_Config g_MidiChannel g_MidiMode g_MidiRegisParam g_Patch engine modulationHi
       expressionHi MIDI_IN TESTPOINT2 set_g_Config set_g_MidiRegisParam set_g_Patch
       set_engine set_modulationHi set_expressionHi set_MIDI_IN set_TESTPOINT2 on_patch
       on_config on_engine] in H.

Ltac synth_simpl :=
  cbn [ReverbDelayLine m_OscStepInit m_OscStepDetune m_OscMuted m_LFO_PhaseAngle
       m_LFO_Step m_LFO_output m_RampOutput m_ExpressionLevel m_ModulationLevel
       m_PitchBendFactor m_ENV1_Output m_ENV2_Output m_ContourOutput m_KeyVelocity
       m_TriggerAttack1 m_TriggerRelease1 m_TriggerAttack2 m_TriggerRelease2
       m_TriggerContour m_TriggerReset m_LegatoNoteChange m_NoteOn m_NotePlaying
       m_RvbDelayLen m_RvbDecay m_RvbAtten m_RvbMix v_SynthEnable v_OscAngle v_OscStep
       v_OscAmpldModn v_MixerLevel v_MixerOutGain v_LimiterLevelPos v_LimiterLevelNeg
       v_OutputLevel SPI_setupDone ENV1 rvbIndex reverbPrev spiDACdata
       set_ReverbDelayLine set_m_OscStepInit set_m_OscStepDetune set_m_OscMuted
       set_m_LFO_PhaseAngle set_m_LFO_Step set_m_ExpressionLevel set_m_ModulationLevel
       set_m_PitchBendFactor set_m_ENV1_Output set_m_KeyVelocity set_m_TriggerAttack1
       set_m_TriggerRelease1 set_m_TriggerAttack2 set_m_TriggerRelease2
       set_m_TriggerContour set_m_TriggerReset set_m_LegatoNoteChange set_m_NoteOn
       set_m_NotePlaying set_m_RvbDelayLen set_m_RvbDecay set_m_RvbAtten set_m_RvbMix
       set_v_SynthEnable set_v_OscAngle set_v_OscStep set_v_OscAmpldModn
       set_v_MixerLevel set_v_MixerOutGain set_SPI_setupDone set_ENV1 set_rvbIndex
       set_reverbPrev set_spiDACdata mbind option_bind].

Tactic Notation "synth_simpl" "in" hyp(H) :=
  cbn [ReverbDelayLine m_OscStepInit m_OscStepDetune m_OscMuted m_LFO_PhaseAngle
       m_LFO_Step m_LFO_output m_RampOutput m_ExpressionLevel m_ModulationLevel
       m_PitchBendFactor m_ENV1_Output m_ENV2_Output m_ContourOutput m_KeyVelocity
       m_TriggerAttack1 m_TriggerRelease1 m_TriggerAttack2 m_TriggerRelease2
       m_TriggerContour m_TriggerReset m_LegatoNoteChange m_NoteOn m_NotePlaying
       m_RvbDelayLen m_RvbDecay m_RvbAtten m_RvbMix v_SynthEnable v_OscAngle v_OscStep
       v_OscAmpldModn v_MixerLevel v_MixerOutGain v_LimiterLevelPos v_LimiterLevelNeg
       v_OutputLevel SPI_setupDone ENV1 rvbIndex reverbPrev spiDACdata
       set_ReverbDelayLine set_m_OscStepInit set_m_OscStepDetune set_m_OscMuted
       set_m_LFO_PhaseAngle set_m_LFO_Step set_m_ExpressionLevel set_m_ModulationLevel
       set_m_PitchBendFactor set_m_ENV1_Output set_m_KeyVelocity set_m_TriggerAttack1
       set_m_TriggerRelease1 set_m_TriggerAttack2 set_m_TriggerRelease2
       set_m_TriggerContour set_m_TriggerReset set_m_LegatoNoteChange set_m_NoteOn
       set_m_NotePlaying set_m_RvbDelayLen set_m_RvbDecay set_m_RvbAtten set_m_RvbMix
       set_v_SynthEnable set_v_OscAngle set_v_OscStep set_v_OscAmpldModn
       set_v_MixerLevel set_v_MixerOutGain set_SPI_setupDone set_ENV1 set_rvbIndex
       set_reverbPrev set_spiDACdata mbind option_bind] in H.

Ltac env_simpl :=
  cbn [EnvSegment envPhaseTimer sustainLevel timeConstant ampldDelta ampldMaximum
       set_EnvSegment set_envPhaseTimer set_sustainLevel set_timeConstant set_ampldDelta
       set_ampldMaximum].

Tactic Notation "env_simpl" "in" hyp(H) :=
  cbn [EnvSegment envPhaseTimer sustainLevel timeConstant ampldDelta ampldMaximum
       set_EnvSegment set_envPhaseTimer set_sustainLevel set_timeConstant set_ampldDelta
       set_ampldMaximum] in H.

Ltac patch_simpl :=
  cbn [PresetName OscFreqMult OscAmpldModSource OscDetune MixerInputStep EnvAttackTime
       EnvHoldTime EnvDecayTime EnvSustainLevel EnvReleaseTime AmpControlMode
       ContourStartLevel ContourDelayTime ContourRampTime ContourHoldLevel Env2DecayTime
       Env2SustainLevel LFO_Freq_x10 LFO_RampTime LFO_FM_Depth LFO_AM_Depth
       MixerOutGain_x10 LimiterLevelPc set_MixerInputStep set_EnvAttackTime
       set_EnvHoldTime set_EnvDecayTime set_EnvSustainLevel set_EnvReleaseTime
       set_LFO_Freq_x10 set_LFO_RampTime set_LFO_FM_Depth set_MixerOutGain_x10
       set_LimiterLevelPc].

Tactic Notation "patch_simpl" "in" hyp(H) :=
  cbn [PresetName OscFreqMult OscAmpldModSource OscDetune MixerInputStep EnvAttackTime
       EnvHoldTime EnvDecayTime EnvSustainLevel EnvReleaseTime AmpControlMode
       ContourStartLevel ContourDelayTime ContourRampTime ContourHoldLevel Env2DecayTime
       Env2SustainLevel LFO_Freq_x10 LFO_RampTime LFO_FM_Depth LFO_AM_Depth
       MixerOutGain_x10 LimiterLevelPc set_MixerInputStep set_EnvAttackTime
       set_EnvHoldTime set_EnvDecayTime set_EnvSustainLevel set_EnvReleaseTime
       set_LFO_Freq_x10 set_LFO_RampTime set_LFO_FM_Depth set_MixerOutGain_x10
       set_LimiterLevelPc] in H.

(** * Properties *)

(** ** Machine integers *)

Lemma to_int32_id (z : Z) : - 2^31 <= z < 2^31 -> to_int32 z = z.
Proof. intros H. unfold to_int32. rewrite Z.mod_small; lia. Qed.

Lemma to_int32_range (z : Z) : - 2^31 <= to_int32 z < 2^31.
Proof. unfold to_int32. pose proof (Z.mod_pos_bound (z + 2^31) (2^32)). lia. Qed.

Lemma to_uint32_id (z : Z) : 0 <= z < 2^32 -> to_uint32 z = z.
Proof. intros H. unfold to_uint32. apply Z.mod_small; lia. Qed.

Lemma to_uint16_id (z : Z) : 0 <= z < 2^16 -> to_uint16 z = z.
Proof. intros H. unfold to_uint16. apply Z.mod_small; lia. Qed.

Lemma to_uint8_id (z : Z) : 0 <= z < 2^8 -> to_uint8 z = z.
Proof. intros H. unfold to_uint8. apply Z.mod_small; lia. Qed.

Lemma to_uint8_range (z : Z) : 0 <= to_uint8 z < 2^8.
Proof. unfold to_uint8. apply Z.mod_pos_bound. lia. Qed.

Lemma to_int16_id (z : Z) : - 2^15 <= z < 2^15 -> to_int16 z = z.
Proof. intros H. unfold to_int16. rewrite Z.mod_small; lia. Qed.

Lemma IntToFixedPt_1 : IntToFixedPt 1 = 2^20.
Proof. reflexivity. Qed.

Lemma IntToFixedPt_small (i : Z) : - 2^11 <= i < 2^11 -> IntToFixedPt i = i * 2^20.
Proof.
  intros H. unfold IntToFixedPt. rewrite Z.shiftl_mul_pow2 by lia.
  apply to_int32_id. lia.
Qed.

Lemma c_index_Some {A} (t : list A) (i : Z) :
  0 <= i < Z.of_nat (length t) -> is_Some (c_index t i).
Proof.
  intros H. unfold c_index. destruct (Z.ltb_spec i 0); [lia|].
  apply lookup_lt_is_Some. lia.
Qed.

Lemma c_index_nat {A} (t : list A) (n : nat) : c_index t (Z.of_nat n) = t !! n.
Proof.
  unfold c_index. destruct (Z.ltb_spec (Z.of_nat n) 0); [lia|]. by rewrite Nat2Z.id.
Qed.

(** ** Fixed-point kernel *)

Lemma FractionPart_range (z n : Z) : 0 <= n <= 20 -> 0 <= FractionPart z n < 2 ^ n.
Proof.
  intros Hn. unfold FractionPart.
  change 0xFFFFF with (Z.ones 20). rewrite Z.land_ones by lia.
  rewrite Z.shiftr_div_pow2 by lia.
  pose proof (Z.mod_pos_bound z (2^20) ltac:(lia)) as Hm.
  split; [apply Z.div_pos; lia|].
  apply Z.div_lt_upper_bound; [lia|].
  rewrite <- Z.pow_add_r by lia. replace (20 - n + n) with 20 by lia. lia.
Qed.

(** The look-ups of [Base2Exp] stay inside the 1025 entries of the table,
    whatever the argument. *)
Lemma Base2Exp_index_in_table (xval : Z) :
  let idx := Z.shiftr (Base2Exp_ixval xval) 3 in
  is_Some (c_index g_base2exp idx) /\ is_Some (c_index g_base2exp (idx + 1)).
Proof.
  intros idx. subst idx. unfold Base2Exp_ixval.
  pose proof (FractionPart_range (Z.quot (to_int32 (xval + IntToFixedPt 1)) 2) 13 ltac:(lia)) as H.
  set (ix := FractionPart _ 13) in *.
  rewrite Z.shiftr_div_pow2 by lia.
  assert (0 <= ix / 2^3 < 1024) as Hi.
  { split; [apply Z.div_pos; lia|]. apply Z.div_lt_upper_bound; lia. }
  split; apply c_index_Some; change (length g_base2exp) with 1025%nat; lia.
Qed.

(** An argument outside the domain is replaced by zero. *)
Lemma Base2Exp_outside (x : Z) :
  x < IntToFixedPt (-1) \/ x > IntToFixedPt 1 -> Base2Exp x = Base2Exp 0.
Proof.
  intros H. unfold Base2Exp.
  assert ((x <? IntToFixedPt (-1)) || (x >? IntToFixedPt 1) = true) as ->.
  { apply orb_true_iff. destruct H; [left; apply Z.ltb_lt | right; apply Z.gtb_lt]; lia. }
  reflexivity.
Qed.

(** C1.  The base-2 exponential [Base2Exp] is exact at the boundaries of
    its domain and at the centre: [Base2Exp(0)] is 1.0, that is 2^20 in the
    12:20 format, [Base2Exp(+1.0)] is 2.0 and [Base2Exp(-1.0)] is 0.5; and
    for every argument below -1.0 or above +1.0 the result is 1.0. *)
Theorem Base2Exp_boundaries :
  Base2Exp 0 = IntToFixedPt 1
  /\ Base2Exp (IntToFixedPt 1) = 2 * IntToFixedPt 1
  /\ Base2Exp (IntToFixedPt (-1)) = FIXED_PT_HALF
  /\ forall x : Z, x < IntToFixedPt (-1) \/ x > IntToFixedPt 1 -> Base2Exp x = IntToFixedPt 1.
Proof.
  split; [|split; [|split]].
  - vm_compute. reflexivity.
  - vm_compute. reflexivity.
  - vm_compute. reflexivity.
  - intros x H. rewrite Base2Exp_outside by exact H. vm_compute. reflexivity.
Qed.


(** ** Note numbers *)

Lemma note_in_synth_range_bounds (noteNum : Z) : 12 <= note_in_synth_range noteNum <= 120.
Proof.
  unfold note_in_synth_range.
  assert (0 <= Z.land (to_uint8 noteNum) 0x7F < 128) as H.
  { change 0x7F with (Z.ones 7). rewrite Z.land_ones by lia. apply Z.mod_pos_bound. lia. }
  set (n := Z.land _ _) in *.
  destruct (Z.gtb_spec n 120); [rewrite to_uint8_id by lia|];
    match goal with |- context [?a <? 12] => destruct (Z.ltb_spec a 12) end;
    try rewrite to_uint8_id by lia; lia.
Qed.

(** A note number in the range is left as it is. *)
Lemma note_in_synth_range_id (noteNum : Z) :
  12 <= noteNum <= 120 -> note_in_synth_range noteNum = noteNum.
Proof.
  intros H. unfold note_in_synth_range. rewrite to_uint8_id by lia.
  change 0x7F with (Z.ones 7). rewrite Z.land_ones, Z.mod_small by lia.
  destruct (Z.gtb_spec noteNum 120); [lia|]. destruct (Z.ltb_spec noteNum 12); lia.
Qed.

(** Every pair of a table note and a multiplier has a frequency and a
    phase step: the conversion to [long] is in range. *)
Lemma osc_setup_table :
  forallb (fun note => forallb (fun mult => osc_setup_defined (Z.of_nat note) (Z.of_nat mult))
                               (seq 0 12)) (seq 12 109) = true.
Proof. vm_compute. reflexivity. Qed.

Lemma osc_setup_defined_in_range (noteNum mult : Z) :
  12 <= noteNum <= 120 -> 0 <= mult < 12 -> osc_setup_defined noteNum mult = true.
Proof.
  intros Hn Hm. pose proof osc_setup_table as H.
  rewrite forallb_forall in H. specialize (H (Z.to_nat noteNum)).
  rewrite forallb_forall in H.
  specialize (H ltac:(apply in_seq; lia) (Z.to_nat mult) ltac:(apply in_seq; lia)).
  by rewrite !Z2Nat.id in H by lia.
Qed.

Lemma note_osc_setup_defined (p : PatchParamTable_t) (noteNum osc : Z) :
  patch_multipliers_valid p -> 12 <= noteNum <= 120 -> 0 <= osc < 6 ->
  is_Some (note_osc_setup p noteNum osc).
Proof.
  intros [Hlen Hall] Hn Hosc. unfold note_osc_setup.
  destruct (c_index_Some (OscFreqMult p) osc ltac:(lia)) as [mult Hmult].
  rewrite Hmult. simpl.
  assert (0 <= mult < 12) as Hm.
  { unfold c_index in Hmult. destruct (osc <? 0); [done|].
    rewrite Forall_lookup in Hall. eapply Hall, Hmult. }
  pose proof (osc_setup_defined_in_range noteNum mult Hn Hm) as Hd.
  unfold osc_setup_defined in Hd.
  destruct (osc_frequency noteNum mult) as [oscFreq|]; [simpl|done].
  apply bool_decide_eq_true in Hd. destruct Hd as [oscStep ->]. simpl. eauto.
Qed.

Lemma SynthNoteChange_defined (p : PatchParamTable_t) (noteNum : Z) (s : Synth) :
  patch_multipliers_valid p ->
  exists s', SynthNoteChange p noteNum s = Some s'
    /\ m_NotePlaying s' = note_in_synth_range noteNum.
Proof.
  intros Hp. unfold SynthNoteChange.
  pose proof (note_in_synth_range_bounds noteNum) as Hn.
  assert (is_Some (mapM (note_osc_setup p (note_in_synth_range noteNum)) oscillators)) as [oscs ->].
  { apply mapM_is_Some. unfold oscillators.
    repeat (apply Forall_cons; split; [apply note_osc_setup_defined; [done|done|lia]|]).
    apply Forall_nil_2. }
  simpl. eauto.
Qed.

Lemma SynthNoteOn_defined (p : PatchParamTable_t) (noteNum velocity : Z) (s : Synth) :
  patch_multipliers_valid p ->
  exists s', SynthNoteOn p noteNum velocity s = Some s'
    /\ m_NotePlaying s' = note_in_synth_range noteNum.
Proof.
  intros Hp. unfold SynthNoteOn.
  destruct (SynthNoteChange_defined p noteNum s Hp) as (s' & -> & Hs').
  destruct (m_NoteOn s); simpl; eexists; (split; [reflexivity|exact Hs']).
Qed.

(** C9.  For every byte passed as note number (and every other integer,
    converted to [uint8_t]) the note number is folded into 12..120 before
    it is used: the index into the note-frequency table is within 0..108
    and the table read succeeds; with a patch whose multipliers are valid,
    [SynthNoteChange] and [SynthNoteOn] read no table out of bounds and
    record a note number in 12..120, and [SynthNoteOff] compares the folded
    number with the note playing. *)
Theorem note_number_folded (noteNum : Z) :
  let note := note_in_synth_range noteNum in
  12 <= note <= 120
  /\ 0 <= note - 12 <= 108
  /\ is_Some (c_index g_NoteFrequency (note - 12))
  /\ (forall (p : PatchParamTable_t) (s : Synth), patch_multipliers_valid p ->
        exists s', SynthNoteChange p noteNum s = Some s' /\ m_NotePlaying s' = note)
  /\ (forall (p : PatchParamTable_t) (velocity : Z) (s : Synth), patch_multipliers_valid p ->
        exists s', SynthNoteOn p noteNum velocity s = Some s' /\ m_NotePlaying s' = note)
  /\ (forall s : Synth,
        SynthNoteOff noteNum s = if note =? m_NotePlaying s then SynthTriggerRelease s else s).
Proof.
  intros note. pose proof (note_in_synth_range_bounds noteNum) as Hn. fold note in Hn.
  split; [lia|]. split; [lia|]. split.
  { apply c_index_Some. change (length g_NoteFrequency) with 109%nat. lia. }
  split; [intros p s Hp; by apply SynthNoteChange_defined|].
  split; [|done].
  intros p velocity s Hp. by apply SynthNoteOn_defined.
Qed.

(** C10.  [SynthNoteOff] triggers the release of the envelope generators
    and clears the note-on flag when the folded note number is the note
    playing; for every other note number it leaves the engine as it is. *)
Theorem SynthNoteOff_only_note_playing (noteNum : Z) (s : Synth) :
  (note_in_synth_range noteNum = m_NotePlaying s ->
     SynthNoteOff noteNum s = SynthTriggerRelease s
     /\ m_TriggerRelease1 (SynthNoteOff noteNum s) = true
     /\ m_TriggerRelease2 (SynthNoteOff noteNum s) = true
     /\ m_TriggerReset (SynthNoteOff noteNum s) = true
     /\ m_NoteOn (SynthNoteOff noteNum s) = false)
  /\ (note_in_synth_range noteNum <> m_NotePlaying s -> SynthNoteOff noteNum s = s).
Proof.
  unfold SynthNoteOff. split; intros H.
  - rewrite H, Z.eqb_refl. done.
  - destruct (Z.eqb_spec (note_in_synth_range noteNum) (m_NotePlaying s)); done.
Qed.


(** ** Program change and controller change *)

Lemma GetNumberOfPresets_32 : GetNumberOfPresets = 32.
Proof. reflexivity. Qed.

(** C4.  For every preset index (a byte) that is not below the number of
    presets, [PresetSelect] leaves the active patch and all the rest of the
    voice as they are; so does the Program-Change message that carries it. *)
Theorem PresetSelect_out_of_catalog (preset : Z) (v : Voice) :
  0 <= preset < 256 -> GetNumberOfPresets <= preset ->
  PresetSelect preset v = Some v
  /\ forall (midiMessage : list Z) (msgLength status data2 : Z),
       c_index midiMessage 0 = Some status -> Z.land status 0xF0 = PROGRAM_CHANGE_CMD ->
       c_index midiMessage 1 = Some preset -> c_index midiMessage 2 = Some data2 ->
       ProcessMidiMessage midiMessage msgLength v = Some v.
Proof.
  intros Hbyte Hge.
  assert (PresetSelect preset v = Some v) as Hsel.
  { unfold PresetSelect. rewrite to_uint8_id by lia.
    destruct (Z.ltb_spec preset GetNumberOfPresets); [lia|done]. }
  split; [exact Hsel|].
  intros midiMessage msgLength status data2 H0 Hst H1 H2.
  unfold ProcessMidiMessage. rewrite H0, H1, H2. simpl. rewrite Hst. simpl. exact Hsel.
Qed.

(** A preset index inside the catalog does select the preset: the range
    check of [PresetSelect] is the size of the catalog and nothing less. *)
Lemma PresetSelect_in_catalog (preset : Z) (v v' : Voice) :
  0 <= preset < GetNumberOfPresets -> PresetSelect preset v = Some v' ->
  c_index g_PresetPatch preset = Some (g_Patch v')
  /\ PresetLastSelected (g_Config v') = preset.
Proof.
  intros Hin. unfold PresetSelect. rewrite GetNumberOfPresets_32 in *.
  rewrite to_uint8_id by lia.
  destruct (Z.ltb_spec preset 32); [|lia].
  generalize (c_index g_PresetPatch preset). intros [patch|]; [|done].
  cbn [mbind option_bind]. destruct (SynthPrepare _ _) as [e|]; [|done].
  intros [= <-]. done.
Qed.

(** The controller numbers that have a validity range. *)
Lemma cc_data_out_of_range_numbers (regisParam CCnumber dataByte : Z) :
  cc_data_out_of_range regisParam CCnumber dataByte = true ->
  In CCnumber [38; 86; 87; 88; 89; 70; 71; 72; 73; 75; 74; 76; 78; 77; 79].
Proof.
  unfold cc_data_out_of_range. intros H.
  repeat match type of H with
  | context [CCnumber =? ?k] =>
      destruct (Z.eqb_spec CCnumber k) as [->|?]; [cbn; tauto|]
  end.
  discriminate H.
Qed.

(** C7.  A Control-Change message whose data value is outside the validity
    range of the member it addresses changes nothing: neither that member
    nor any other part of the voice. *)
Theorem ProcessControlChange_out_of_range (midiMessage : list Z) (CCnumber dataByte : Z)
    (v : Voice) :
  c_index midiMessage 1 = Some CCnumber -> c_index midiMessage 2 = Some dataByte ->
  cc_data_out_of_range (g_MidiRegisParam v) CCnumber dataByte = true ->
  ProcessControlChange midiMessage v = Some v.
Proof.
  intros H1 H2 Hr. pose proof (cc_data_out_of_range_numbers _ _ _ Hr) as Hcc.
  unfold ProcessControlChange. rewrite H1, H2. cbn [mbind option_bind].
  unfold cc_data_out_of_range in Hr. cbn [In] in Hcc.
  repeat destruct Hcc as [<-|Hcc]; [..|contradiction];
    cbn [Z.eqb Pos.eqb orb andb negb] in Hr |- *;
    repeat match type of Hr with
    | _ || _ = true => apply orb_true_iff in Hr
    | _ && _ = true => apply andb_true_iff in Hr
    | _ /\ _ => destruct Hr as [Hr ?]
    | (_ <? _) = true => apply Z.ltb_lt in Hr
    end;
    repeat match goal with
    | H : (_ =? _) = true |- _ => apply Z.eqb_eq in H
    | H : (_ <? _) = true |- _ => apply Z.ltb_lt in H
    | H : _ \/ _ |- _ => destruct H
    end;
    repeat match goal with
    | |- context [?a <=? ?b] => destruct (Z.leb_spec a b); [lia|]
    | |- context [?a <? ?b] => destruct (Z.ltb_spec a b); [lia|]
    | |- context [dataByte =? ?b] => destruct (Z.eqb_spec dataByte b); [|lia]
    | |- context [g_MidiRegisParam v =? ?b] => destruct (Z.eqb_spec (g_MidiRegisParam v) b); [lia|]
    | |- context [g_MidiRegisParam v =? 0] => destruct (Z.eqb_spec (g_MidiRegisParam v) 0); [|lia]
    | _ => progress cbn [andb negb orb]
    end;
    rewrite ?andb_false_r; reflexivity.
Qed.

(** The ranges are those of the dispatcher and nothing more: a data value
    inside the range is written.  Reverb mix up to 100 %, pitch-bend range
    up to 12 semitones, limiter level up to 95 %, and the hold time, for
    which zero is a value like another. *)
Lemma ProcessControlChange_in_range (midiMessage : list Z) (dataByte : Z) (v : Voice) :
  c_index midiMessage 2 = Some dataByte ->
  (c_index midiMessage 1 = Some 89 -> dataByte <= 100 ->
     ProcessControlChange midiMessage v = Some (on_config (set_ReverbMix_pc dataByte) v))
  /\ (c_index midiMessage 1 = Some 38 -> g_MidiRegisParam v = 0 -> dataByte <= 12 ->
        ProcessControlChange midiMessage v = Some (on_config (set_PitchBendRange dataByte) v))
  /\ (c_index midiMessage 1 = Some 71 -> dataByte <= 95 ->
        ProcessControlChange midiMessage v = Some (on_patch (set_LimiterLevelPc dataByte) v))
  /\ (c_index midiMessage 1 = Some 74 -> dataByte = 0 ->
        ProcessControlChange midiMessage v = Some (on_patch (set_EnvHoldTime 0) v)).
Proof.
  intros H2. split_and!; intros H1; unfold ProcessControlChange; rewrite H1, H2;
    cbn [mbind option_bind Z.eqb Pos.eqb orb andb negb].
  - intros H. destruct (Z.leb_spec dataByte 100); [done|lia].
  - intros Hr H. rewrite Hr. cbn [Z.eqb andb].
    destruct (Z.leb_spec dataByte 12); [|lia]. voice_simpl. rewrite Hr. done.
  - intros H. destruct (Z.leb_spec dataByte 95); [done|lia].
  - intros ->. done.
Qed.


(** ** MIDI input: running status *)

Lemma data_byte_bit7 (b : Z) : 0 <= b < 128 -> Z.land b 0x80 = 0.
Proof.
  intros H. apply Z.bits_inj'. intros k Hk. rewrite Z.land_spec, Z.bits_0.
  destruct (Z.eq_dec k 7) as [->|Hne].
  - replace (Z.testbit b 7) with false; [done|].
    symmetry. apply Z.bits_above_log2; [lia|].
    destruct (Z.eq_dec b 0) as [->|]; [simpl; lia|].
    apply Z.log2_lt_pow2; lia.
  - replace (Z.testbit 0x80 k) with false; [apply andb_false_r|].
    change 0x80 with (2^7). symmetry. apply Z.pow2_bits_false. lia.
Qed.

Lemma note_on_status_bits (chan : Z) :
  0 <= chan < 16 ->
  Z.land (NOTE_ON_CMD + chan) 0x80 = 0x80
  /\ Z.land (NOTE_ON_CMD + chan) 0xF0 = NOTE_ON_CMD
  /\ Z.land (NOTE_ON_CMD + chan) 0x0F = chan.
Proof.
  intros H.
  assert (In chan [0;1;2;3;4;5;6;7;8;9;10;11;12;13;14;15]) as Hin.
  { replace chan with (Z.of_nat (Z.to_nat chan)) by lia.
    assert (Z.to_nat chan < 16)%nat as Hlt by lia. revert Hlt.
    generalize (Z.to_nat chan). intros n Hn.
    do 16 (destruct n as [|n]; [cbn; tauto|]). lia. }
  cbn [In] in Hin. repeat destruct Hin as [<-|Hin]; [..|contradiction]; done.
Qed.

(** A Note-On message in the buffer: note-off for velocity 0, note-on
    otherwise; only the engine and the gate output change. *)
Lemma ProcessMidiMessage_note_on (buffer : list Z) (len chan note velocity : Z) (v : Voice) :
  0 <= chan < 16 ->
  buffer !! 0%nat = Some (NOTE_ON_CMD + chan) ->
  buffer !! 1%nat = Some note -> buffer !! 2%nat = Some velocity ->
  ProcessMidiMessage buffer len v =
    if velocity =? 0 then Some (set_TESTPOINT2 false (on_engine (SynthNoteOff note) v))
    else e ← SynthNoteOn (g_Patch v) note velocity (engine v);
         Some (set_TESTPOINT2 true (set_engine e v)).
Proof.
  intros Hc H0 H1 H2. unfold ProcessMidiMessage.
  change (c_index buffer 0) with (buffer !! 0%nat).
  change (c_index buffer 1) with (buffer !! 1%nat).
  change (c_index buffer 2) with (buffer !! 2%nat). rewrite H0, H1, H2.
  cbn [mbind option_bind].
  destruct (note_on_status_bits chan Hc) as (_ & -> & _). done.
Qed.

Lemma ProcessMidiMessage_note_on_defined (buffer : list Z) (len chan note velocity : Z)
    (v : Voice) :
  0 <= chan < 16 ->
  buffer !! 0%nat = Some (NOTE_ON_CMD + chan) ->
  buffer !! 1%nat = Some note -> buffer !! 2%nat = Some velocity ->
  patch_multipliers_valid (g_Patch v) ->
  exists v', ProcessMidiMessage buffer len v = Some v'
    /\ MIDI_IN v' = MIDI_IN v /\ g_Patch v' = g_Patch v
    /\ g_MidiChannel v' = g_MidiChannel v /\ g_MidiMode v' = g_MidiMode v.
Proof.
  intros Hc H0 H1 H2 Hp.
  rewrite (ProcessMidiMessage_note_on buffer len chan note velocity v Hc H0 H1 H2).
  destruct (velocity =? 0); [eexists; split; [reflexivity|done]|].
  destruct (SynthNoteOn_defined (g_Patch v) note velocity (engine v) Hp) as (e & -> & _).
  eexists; split; [reflexivity|done].
Qed.


Lemma c_store_Some {A} (t : list A) (i : Z) (x : A) :
  0 <= i < Z.of_nat (length t) -> c_store t i x = Some (<[Z.to_nat i := x]> t).
Proof.
  intros H. unfold c_store.
  destruct (Z.leb_spec 0 i); [|lia]. destruct (Z.ltb_spec i (Z.of_nat (length t))); [done|lia].
Qed.

Lemma MidiInputService_first_data (status note : Z) (v : Voice) :
  awaiting_data status (MIDI_IN v) ->
  MIDI_GetMessageLength status = 3 -> status <> SYS_EXCLUSIVE_MSG ->
  0 <= note < 128 ->
  exists m', MidiInputService note v = Some (set_MIDI_IN m' v, [])
    /\ length (midiMessage m') = 16%nat /\ msgStatus m' = status
    /\ midiMessage m' !! 0%nat = Some status /\ midiMessage m' !! 1%nat = Some note
    /\ msgByteCount m' = 2 /\ msgIndex m' = 2 /\ msgBytesExpected m' = 3.
Proof.
  intros Hm Hlen Hsx Hnote. unfold MidiInputService.
  rewrite to_uint8_id by lia.
  destruct (MIDI_IN v) as [buf exp cnt idx st cmp].
  destruct Hm as (Hbuf & Hst & Hb0 & Hcase). cbn in Hbuf, Hst, Hb0, Hcase. subst st.
  unfold midi_in_byte. rewrite data_byte_bit7 by lia.
  cbn [c_true Z.eqb negb]. rx_simpl.
  destruct (Z.eqb_spec status SYS_EXCLUSIVE_MSG) as [|_]; [done|].
  assert (c_store buf 1 note = Some (<[1%nat:=note]> buf)) as Hstore
    by (rewrite c_store_Some by lia; done).
  assert (<[1%nat:=note]> buf !! 0%nat = buf !! 0%nat) as Hother
    by (by apply list_lookup_insert_ne).
  destruct Hcase as [(-> & -> & -> & ->)|(-> & ->)]; rx_simpl; rewrite Hlen;
    change (1 <? MIDI_MSG_MAX_LENGTH) with true; cbn [Z.eqb]; rx_simpl;
    rewrite Hstore; rx_simpl;
    change (to_int16 (1 + 1)) with 2; change (to_int16 3) with 3;
    cbn [Z.eqb Pos.eqb]; rx_simpl;
    (eexists; split; [reflexivity|]); rx_simpl;
    rewrite length_insert, Hother;
    rewrite list_lookup_insert_eq by lia; done.
Qed.

Lemma MidiInputService_second_data (chan velocity note : Z) (m : MidiInLocals) (v : Voice) :
  let status := NOTE_ON_CMD + chan in
  0 <= chan < 16 ->
  chan + 1 = g_MidiChannel v \/ chan + 1 = 16 \/ g_MidiMode v = OMNI_ON_MONO ->
  patch_multipliers_valid (g_Patch v) ->
  length (midiMessage m) = 16%nat -> msgStatus m = status ->
  midiMessage m !! 0%nat = Some status -> midiMessage m !! 1%nat = Some note ->
  msgByteCount m = 2 -> msgIndex m = 2 -> msgBytesExpected m = 3 ->
  0 <= velocity < 128 ->
  exists v' buffer,
    MidiInputService velocity (set_MIDI_IN m v) = Some (v', [(buffer, 3)])
    /\ take 3 buffer = [status; note; velocity]
    /\ awaiting_data status (MIDI_IN v')
    /\ g_Patch v' = g_Patch v
    /\ g_MidiChannel v' = g_MidiChannel v /\ g_MidiMode v' = g_MidiMode v.
Proof.
  intros status Hc Hacc Hp Hbuf Hst Hb0 Hb1 Hcnt Hidx Hexp Hvel.
  unfold MidiInputService. rewrite to_uint8_id by lia.
  destruct m as [buf exp cnt idx st cmp]. cbn in Hbuf, Hst, Hb0, Hb1, Hcnt, Hidx, Hexp.
  subst st cnt idx exp.
  change (MIDI_IN (set_MIDI_IN ?m v)) with m.
  unfold midi_in_byte. rewrite data_byte_bit7 by lia.
  cbn [c_true Z.eqb negb]. rx_simpl.
  assert (c_store buf 2 velocity = Some (<[2%nat:=velocity]> buf)) as Hstore
    by (rewrite c_store_Some by lia; done).
  set (buffer := <[2%nat:=velocity]> buf) in *.
  assert (buffer !! 0%nat = Some status) as Hn0
    by (subst buffer; by rewrite list_lookup_insert_ne).
  assert (buffer !! 1%nat = Some note) as Hn1
    by (subst buffer; by rewrite list_lookup_insert_ne).
  assert (buffer !! 2%nat = Some velocity) as Hn2
    by (subst buffer; rewrite list_lookup_insert_eq by lia; done).
  assert (length buffer = 16%nat) as Hnlen by (subst buffer; by rewrite length_insert).
  replace (if cmp && negb (status =? SYS_EXCLUSIVE_MSG) then _ else _)
    with (mkMidiInLocals buf 3 2 2 status cmp)
    by (destruct (cmp && negb (status =? SYS_EXCLUSIVE_MSG)); done).
  rx_simpl. change (2 <? MIDI_MSG_MAX_LENGTH) with true. cbn [Z.eqb]. rx_simpl.
  rewrite Hstore. rx_simpl.
  change (to_int16 (2 + 1)) with 3. cbn [Z.eqb Pos.eqb]. rx_simpl.
  change (c_index buffer 0) with (buffer !! 0%nat). rewrite Hn0. rx_simpl.
  destruct (note_on_status_bits chan Hc) as (_ & _ & Hlow). fold status in Hlow.
  rewrite Hlow. rewrite to_uint8_id by lia.
  voice_simpl.
  assert ((chan + 1 =? g_MidiChannel v) || (chan + 1 =? 16) || (g_MidiMode v =? OMNI_ON_MONO)
          || (status =? SYS_EXCLUSIVE_MSG) = true) as ->.
  { destruct Hacc as [H|[H|H]]; rewrite <- ?H, ?H, Z.eqb_refl, ?orb_true_r; done. }
  match goal with
  | |- context [ProcessMidiMessage buffer 3 ?w] =>
      destruct (ProcessMidiMessage_note_on_defined buffer 3 chan note velocity w
                  Hc Hn0 Hn1 Hn2 Hp) as (v' & Hv' & Hin & Hpatch & Hch & Hmode)
  end.
  voice_simpl in Hv'. rx_simpl in Hv'. rewrite Hv'.
  rx_simpl. eexists _, buffer. split; [reflexivity|].
  split.
  { destruct buffer as [|b0 [|b1 [|b2 rest]]]; try (cbn in Hnlen; lia).
    cbn in Hn0, Hn1, Hn2. by simplify_eq. }
  voice_simpl. rewrite Hin. voice_simpl. voice_simpl in Hpatch. voice_simpl in Hch.
  voice_simpl in Hmode.
  split; [|done].
  unfold awaiting_data. rx_simpl. split; [done|]. split; [done|]. split; [done|].
  right. done.
Qed.

Lemma MIDI_GetMessageLength_note_on (chan : Z) :
  0 <= chan < 16 -> MIDI_GetMessageLength (NOTE_ON_CMD + chan) = 3.
Proof.
  intros Hc. unfold MIDI_GetMessageLength.
  destruct (note_on_status_bits chan Hc) as (_ & -> & _).
  destruct (Z.eqb_spec (NOTE_ON_CMD + chan) SYS_EXCLUSIVE_MSG) as [H|_]; [|done].
  unfold NOTE_ON_CMD, SYS_EXCLUSIVE_MSG in H. lia.
Qed.

Lemma MidiInputService_note_on_status (chan : Z) (v : Voice) :
  let status := NOTE_ON_CMD + chan in
  0 <= chan < 16 -> length (midiMessage (MIDI_IN v)) = 16%nat ->
  exists m', MidiInputService status v = Some (set_MIDI_IN m' v, [])
    /\ awaiting_data status m'.
Proof.
  intros status Hc Hbuf. unfold MidiInputService.
  assert (to_uint8 status = status) as ->
    by (apply to_uint8_id; unfold status, NOTE_ON_CMD; lia).
  unfold midi_in_byte.
  destruct (note_on_status_bits chan Hc) as (Hbit7 & _ & _). fold status in Hbit7.
  rewrite Hbit7. cbn [c_true Z.eqb Pos.eqb negb].
  destruct (Z.eqb_spec status SYSTEM_MSG_EOX) as [H|_];
    [unfold status, NOTE_ON_CMD, SYSTEM_MSG_EOX in H; lia|].
  destruct (Z.leb_spec status SYS_EXCLUSIVE_MSG) as [_|H];
    [|unfold status, NOTE_ON_CMD, SYS_EXCLUSIVE_MSG in H; lia].
  destruct (MIDI_IN v) as [buf exp cnt idx st cmp]. cbn in Hbuf. rx_simpl.
  rewrite c_store_Some by lia. rx_simpl.
  pose proof (MIDI_GetMessageLength_note_on chan Hc) as Hl. fold status in Hl.
  rewrite Hl. change (to_int16 3) with 3.
  cbn [Z.eqb Pos.eqb]. rx_simpl.
  eexists. split; [reflexivity|].
  unfold awaiting_data. rx_simpl. rewrite length_insert.
  rewrite list_lookup_insert_eq by lia.
  rewrite Hl. split; [done|]. split; [done|].
  split; [done|]. left. done.
Qed.

Lemma midi_receive_cons (b : Z) (bytes : list Z) (v : Voice) :
  midi_receive (b :: bytes) v =
    '(v, calls) ← MidiInputService b v;
    '(v, calls') ← midi_receive bytes v;
    Some (v, calls ++ calls').
Proof. reflexivity. Qed.

(** A pair of data bytes under the status of a Note-On message, whether
    the status byte came just before or a message ago: one call of
    [ProcessMidiMessage], with the status and the pair. *)
Lemma midi_receive_note_on_pair (chan note velocity : Z) (v : Voice) :
  let status := NOTE_ON_CMD + chan in
  0 <= chan < 16 ->
  chan + 1 = g_MidiChannel v \/ chan + 1 = 16 \/ g_MidiMode v = OMNI_ON_MONO ->
  patch_multipliers_valid (g_Patch v) ->
  awaiting_data status (MIDI_IN v) ->
  0 <= note < 128 -> 0 <= velocity < 128 ->
  exists v' buffer,
    (forall rest : list Z,
       midi_receive (note :: velocity :: rest) v =
         '(v'', calls) ← midi_receive rest v'; Some (v'', (buffer, 3) :: calls))
    /\ take 3 buffer = [status; note; velocity]
    /\ awaiting_data status (MIDI_IN v')
    /\ g_Patch v' = g_Patch v
    /\ g_MidiChannel v' = g_MidiChannel v /\ g_MidiMode v' = g_MidiMode v.
Proof.
  intros status Hc Hacc Hp Hm Hnote Hvel.
  assert (status <> SYS_EXCLUSIVE_MSG) as Hsx
    by (unfold status, NOTE_ON_CMD, SYS_EXCLUSIVE_MSG; lia).
  destruct (MidiInputService_first_data status note v Hm
              (MIDI_GetMessageLength_note_on chan Hc) Hsx Hnote)
    as (m' & Hfirst & Hlen & Hst & Hb0 & Hb1 & Hcnt & Hidx & Hexp).
  destruct (MidiInputService_second_data chan velocity note m' v Hc Hacc Hp
              Hlen Hst Hb0 Hb1 Hcnt Hidx Hexp Hvel)
    as (v' & buffer & Hsecond & Htake & Hm' & Hpatch & Hch & Hmode).
  exists v', buffer. split; [|done].
  intros rest. rewrite midi_receive_cons, Hfirst. cbn [mbind option_bind].
  rewrite midi_receive_cons, Hsecond. cbn [mbind option_bind].
  destruct (midi_receive rest v') as [[v'' calls]|]; done.
Qed.



(** ** Oscillator phase accumulators *)

Lemma table_length_value : table_length_16_16 = 2^27.
Proof. reflexivity. Qed.

Lemma osc_advance_mod (angle step : Z) :
  0 <= angle < table_length_16_16 -> 0 <= step < table_length_16_16 ->
  osc_advance angle step = (angle + step) mod table_length_16_16.
Proof.
  unfold table_length_16_16, osc_advance.
  change (Z.shiftl WAVE_TABLE_SIZE 16) with (2^27). intros Ha Hs.
  rewrite to_int32_id by lia.
  destruct (Z.geb_spec (angle + step) (2^27)).
  - rewrite to_int32_id by lia.
    apply Z.mod_unique with (q := 1); lia.
  - symmetry. apply Z.mod_small. lia.
Qed.

Lemma osc_advance_range (angle step : Z) :
  0 <= angle < table_length_16_16 -> 0 <= step < table_length_16_16 ->
  0 <= osc_advance angle step < table_length_16_16.
Proof.
  intros Ha Hs. rewrite osc_advance_mod by done.
  apply Z.mod_pos_bound. unfold table_length_16_16. done.
Qed.

(** [n] updates of one accumulator. *)
Lemma osc_advance_iter (n : nat) (angle step : Z) :
  0 <= angle < table_length_16_16 -> 0 <= step < table_length_16_16 ->
  Nat.iter n (fun a => osc_advance a step) angle
  = (angle + Z.of_nat n * step) mod table_length_16_16.
Proof.
  intros Ha Hs. induction n as [|n IH].
  - cbn [Nat.iter]. change (Z.of_nat 0) with 0. rewrite Z.mul_0_l, Z.add_0_r.
    symmetry. apply Z.mod_small. done.
  - rewrite Nat.iter_succ, IH.
    rewrite osc_advance_mod
      by (try apply Z.mod_pos_bound; rewrite ?table_length_value; done).
    rewrite Zplus_mod_idemp_l, Nat2Z.inj_succ. f_equal. lia.
Qed.

(** The wave-table read of an accumulator within the cycle is in the table. *)
Lemma sine_wave_index (angle : Z) :
  0 <= angle < table_length_16_16 -> is_Some (c_index g_sine_wave (Z.shiftr angle 16)).
Proof.
  unfold table_length_16_16. change (Z.shiftl WAVE_TABLE_SIZE 16) with (2^27). intros H.
  apply c_index_Some. change (length g_sine_wave) with 2048%nat.
  rewrite Z.shiftr_div_pow2 by lia.
  split; [apply Z.div_pos; lia|]. apply Z.div_lt_upper_bound; lia.
Qed.

(** One turn of the oscillator loop: the accumulator of that oscillator is
    advanced, nothing else of the engine changes. *)
Lemma TC3_oscillator_advance (s : Synth) (mixerOut osc : Z) :
  isr_ready s -> 0 <= osc < 6 ->
  exists angle step mixerOut',
    c_index (v_OscAngle s) osc = Some angle /\ c_index (v_OscStep s) osc = Some step
    /\ TC3_oscillator (s, mixerOut) osc
       = Some (set_v_OscAngle (<[Z.to_nat osc := osc_advance angle step]> (v_OscAngle s)) s,
               mixerOut').
Proof.
  intros (_ & Hla & Hls & Hlm & Hll & Hangles & _) Hosc. unfold TC3_oscillator.
  destruct (c_index_Some (v_OscAngle s) osc ltac:(lia)) as [angle Ha].
  destruct (c_index_Some (v_OscStep s) osc ltac:(lia)) as [step Hs].
  destruct (c_index_Some (v_OscAmpldModn s) osc ltac:(lia)) as [modn Hm].
  destruct (c_index_Some (v_MixerLevel s) osc ltac:(lia)) as [level Hl].
  rewrite Ha, Hs, Hm, Hl. cbn [mbind option_bind].
  assert (0 <= angle < table_length_16_16) as Hrange.
  { unfold c_index in Ha. destruct (osc <? 0); [done|].
    rewrite Forall_lookup in Hangles. eapply Hangles, Ha. }
  unfold osc_mixer_input. destruct (sine_wave_index angle Hrange) as [wave ->].
  cbn [mbind option_bind]. rewrite c_store_Some by lia. cbn [mbind option_bind].
  eexists angle, step, _. split; [done|]. split; [done|]. reflexivity.
Qed.

Lemma isr_ready_advance (s : Synth) (osc angle step : Z) :
  isr_ready s ->
  c_index (v_OscAngle s) osc = Some angle -> c_index (v_OscStep s) osc = Some step ->
  isr_ready (set_v_OscAngle (<[Z.to_nat osc := osc_advance angle step]> (v_OscAngle s)) s).
Proof.
  intros (He & Hla & Hls & Hlm & Hll & Hangles & Hsteps & Hrvb) Ha Hs.
  unfold isr_ready. synth_simpl. rewrite length_insert.
  repeat (split; [done|]). split; [|done].
  unfold c_index in Ha, Hs. destruct (osc <? 0); [done|].
  apply Forall_insert; [done|].
  apply osc_advance_range.
  - rewrite Forall_lookup in Hangles. eapply Hangles, Ha.
  - rewrite Forall_lookup in Hsteps. eapply Hsteps, Hs.
Qed.

Lemma TC3_oscillators_advance (oscs : list Z) (s : Synth) (mixerOut : Z) :
  isr_ready s -> Forall (fun osc => 0 <= osc < 6) oscs ->
  exists mixerOut',
    TC3_oscillators (s, mixerOut) oscs
    = Some (set_v_OscAngle (advance_oscillators (v_OscStep s) (v_OscAngle s) oscs) s, mixerOut')
    /\ isr_ready (set_v_OscAngle (advance_oscillators (v_OscStep s) (v_OscAngle s) oscs) s).
Proof.
  revert s mixerOut. induction oscs as [|osc oscs IH]; intros s mixerOut Hs Hoscs.
  - exists mixerOut. cbn [TC3_oscillators advance_oscillators foldl].
    assert (set_v_OscAngle (v_OscAngle s) s = s) as -> by (by destruct s). done.
  - apply Forall_cons in Hoscs. destruct Hoscs as [Hosc Hoscs].
    destruct (TC3_oscillator_advance s mixerOut osc Hs Hosc) as (angle & step & m' & Ha & Hst & Hrun).
    cbn [TC3_oscillators]. rewrite Hrun. cbn [mbind option_bind].
    pose proof (isr_ready_advance s osc angle step Hs Ha Hst) as Hs'.
    destruct (IH _ m' Hs' Hoscs) as (m'' & Hrest & Hready).
    exists m''. rewrite Hrest. synth_simpl in Hready. synth_simpl.
    cbn [advance_oscillators foldl]. rewrite Ha, Hst.
    unfold advance_oscillators in Hready. done.
Qed.

(** Over the six oscillators the loop advances every accumulator by its step. *)
Lemma advance_six_oscillators (steps angles : list Z) :
  length angles = 6%nat -> length steps = 6%nat ->
  advance_oscillators steps angles oscillators = zip_with osc_advance angles steps.
Proof.
  intros Ha Hs.
  destruct angles as [|a0 [|a1 [|a2 [|a3 [|a4 [|a5 [|]]]]]]]; try discriminate Ha.
  destruct steps as [|s0 [|s1 [|s2 [|s3 [|s4 [|s5 [|]]]]]]]; try discriminate Hs.
  reflexivity.
Qed.

(** One audio interrupt: it returns, the data stay in order, every
    accumulator is advanced by its step and the steps are not touched. *)
Lemma TC3_Handler_advance (s : Synth) :
  isr_ready s ->
  exists s', TC3_Handler s = Some s' /\ isr_ready s'
    /\ v_OscAngle s' = zip_with osc_advance (v_OscAngle s) (v_OscStep s)
    /\ v_OscStep s' = v_OscStep s.
Proof.
  intros Hs. unfold TC3_Handler.
  destruct (TC3_oscillators_advance oscillators s 0 Hs) as (mixerOut & Hloop & Hready).
  { unfold oscillators. repeat (apply Forall_cons; split; [lia|]). apply Forall_nil_2. }
  pose proof Hs as (He & Hla & Hls & _). rewrite He, Hloop.
  rewrite (advance_six_oscillators _ _ Hla Hls) in *.
  set (s1 := set_v_OscAngle _ s) in *.
  cbn [mbind option_bind]. cbv zeta.
  assert (v_OscAngle s1 = zip_with osc_advance (v_OscAngle s) (v_OscStep s)) as Hangles by done.
  assert (v_OscStep s1 = v_OscStep s) as Hsteps by done.
  destruct Hready as (He1 & Hla1 & Hls1 & Hlm1 & Hll1 & Ha1 & Hs1 & Hline1 & Hidx1 & Hlen1).
  clearbody s1. clear Hloop. unfold REVERB_DELAY_MAX_SIZE in *.
  destruct (c_true (m_RvbMix s1)).
  - destruct (c_index_Some (ReverbDelayLine s1) (rvbIndex s1) ltac:(lia)) as [delayed ->].
    cbn [mbind option_bind]. synth_simpl.
    rewrite c_store_Some by lia. cbn [mbind option_bind]. synth_simpl.
    rewrite (to_int32_id (rvbIndex s1 + 1)) by lia.
    destruct (Z.geb_spec (rvbIndex s1 + 1) (m_RvbDelayLen s1));
      (eexists; split; [reflexivity|]); unfold isr_ready; synth_simpl;
      rewrite length_insert; unfold REVERB_DELAY_MAX_SIZE;
      split_and!; first [done|lia].
  - cbn [mbind option_bind]. eexists. split; [reflexivity|].
    unfold isr_ready. synth_simpl. done.
Qed.

Lemma zip_with_first {A B} (l : list A) (k : list B) :
  length l = length k -> zip_with (fun a _ => a) l k = l.
Proof.
  revert k. induction l as [|a l IH]; intros [|b k]; try done.
  intros [= H]. cbn [zip_with]. f_equal. by apply IH.
Qed.

Lemma zip_with_iter_succ (n : nat) (angles steps : list Z) :
  zip_with (fun angle step => Nat.iter n (fun a => osc_advance a step) angle)
           (zip_with osc_advance angles steps) steps
  = zip_with (fun angle step => Nat.iter (S n) (fun a => osc_advance a step) angle)
             angles steps.
Proof.
  revert steps. induction angles as [|a l IH]; intros [|st sts]; try done.
  cbn [zip_with]. rewrite Nat.iter_succ_r. f_equal. apply IH.
Qed.

(** [n] audio interrupts. *)
Lemma TC3_samples_advance (n : nat) (s : Synth) :
  isr_ready s ->
  exists s', TC3_samples n s = Some s' /\ isr_ready s'
    /\ v_OscAngle s'
       = zip_with (fun angle step => Nat.iter n (fun a => osc_advance a step) angle)
                  (v_OscAngle s) (v_OscStep s)
    /\ v_OscStep s' = v_OscStep s.
Proof.
  revert s. induction n as [|n IH]; intros s Hs.
  - exists s. cbn [TC3_samples Nat.iter]. split; [done|]. split; [done|]. split; [|done].
    destruct Hs as (_ & Hla & Hls & _). symmetry. apply zip_with_first. congruence.
  - destruct (TC3_Handler_advance s Hs) as (s1 & Hrun & Hs1 & Ha1 & Hst1).
    destruct (IH s1 Hs1) as (s' & Hrest & Hs' & Ha' & Hst').
    exists s'. cbn [TC3_samples]. rewrite Hrun. cbn [mbind option_bind].
    split; [done|]. split; [done|]. split; [|congruence].
    rewrite Ha', Ha1, Hst1. apply zip_with_iter_succ.
Qed.

(** C8.  An oscillator whose phase step is nonnegative and less than the
    table length (16:16 fixed point), from a phase within [0, table
    length): after any number [n] of updates of the audio interrupt its
    accumulator is nonnegative, strictly below the table length, and equal
    to (initial phase + n * step) modulo the table length.  And with the
    six oscillators so, [n] audio interrupts return and leave every
    accumulator at that value. *)
Theorem phase_accumulator_wraps (n : nat) :
  (forall angle step : Z,
     0 <= angle < table_length_16_16 -> 0 <= step < table_length_16_16 ->
     let angle' := Nat.iter n (fun a => osc_advance a step) angle in
     0 <= angle' < table_length_16_16
     /\ angle' = (angle + Z.of_nat n * step) mod table_length_16_16)
  /\ (forall s : Synth, isr_ready s ->
        exists s', TC3_samples n s = Some s'
          /\ forall (osc : nat) (angle step : Z),
               v_OscAngle s !! osc = Some angle -> v_OscStep s !! osc = Some step ->
               exists angle',
                 v_OscAngle s' !! osc = Some angle'
                 /\ 0 <= angle' < table_length_16_16
                 /\ angle' = (angle + Z.of_nat n * step) mod table_length_16_16).
Proof.
  split.
  - intros angle step Ha Hs angle'. subst angle'. rewrite osc_advance_iter by done.
    split; [apply Z.mod_pos_bound; by rewrite table_length_value|done].
  - intros s Hs. destruct (TC3_samples_advance n s Hs) as (s' & Hrun & Hs' & Ha' & _).
    exists s'. split; [done|]. intros osc angle step Ha Hst.
    destruct Hs as (_ & _ & _ & _ & _ & Hangles & Hsteps & _).
    rewrite Forall_lookup in Hangles. rewrite Forall_lookup in Hsteps.
    pose proof (Hangles _ _ Ha) as Hra. pose proof (Hsteps _ _ Hst) as Hrs.
    exists ((angle + Z.of_nat n * step) mod table_length_16_16).
    split; [|split; [apply Z.mod_pos_bound; by rewrite table_length_value|done]].
    rewrite Ha', lookup_zip_with, Ha, Hst. cbn [mbind option_bind].
    by rewrite osc_advance_iter.
Qed.


(** ** Muting of the oscillators above the frequency ceiling *)

Example Preset_SoundTest_in_flash : g_PresetPatch !! 0%nat = Some Preset_SoundTest.
Proof. reflexivity. Qed.

(** Float rounding never decides a mute: on the 109 notes and 12
    multipliers, the binary32 product is above 12000 exactly when the
    product of the decimal table values is. *)
Lemma mute_is_exact_table :
  forallb (fun note => forallb (fun mult => mute_is_exact (Z.of_nat note) (Z.of_nat mult))
                               (seq 0 12)) (seq 12 109) = true.
Proof. vm_compute. reflexivity. Qed.

Lemma mute_is_exact_in_range (note mult : Z) :
  12 <= note <= 120 -> 0 <= mult < 12 -> mute_is_exact note mult = true.
Proof.
  intros Hn Hm. pose proof mute_is_exact_table as H.
  rewrite forallb_forall in H. specialize (H (Z.to_nat note)).
  rewrite forallb_forall in H.
  specialize (H ltac:(apply in_seq; lia) (Z.to_nat mult) ltac:(apply in_seq; lia)).
  by rewrite !Z2Nat.id in H by lia.
Qed.

(** C5, as the code has it: the bent note of [bent_note_scenario] has its
    second oscillator above the ceiling (16741 Hz), not muted, and in the
    mix at the level of its mixer step. *)
Lemma mute_ignores_modulation :
  exists (s : Synth) (step : Z),
    bent_note_scenario = Some s
    /\ v_OscStep s !! 1%nat = Some step /\ step_above_ceiling step
    /\ m_OscMuted s !! 1%nat = Some false
    /\ v_MixerLevel s !! 1%nat = Some 353.
Proof.
  set (r := bent_note_scenario). vm_compute in r. subst r.
  eexists _, 70216732. split; [reflexivity|].
  split; [reflexivity|]. split; [|split; reflexivity].
  unfold step_above_ceiling. vm_compute. reflexivity.
Qed.

Lemma oscillators_lookup (osc : nat) :
  (osc < 6)%nat -> oscillators !! osc = Some (Z.of_nat osc).
Proof. intros H. do 6 (destruct osc as [|osc]; [done|]). lia. Qed.

(** The mute flag that [SynthNoteChange] records for one oscillator. *)
Lemma SynthNoteChange_muted (p : PatchParamTable_t) (noteNum : Z) (s s' : Synth) (osc : nat) :
  SynthNoteChange p noteNum s = Some s' -> (osc < 6)%nat ->
  exists mult noteFreq freqMult oscFreq,
    OscFreqMult p !! osc = Some mult
    /\ c_index g_NoteFrequency (note_in_synth_range noteNum - 12) = Some noteFreq
    /\ c_index g_FreqMultConst mult = Some freqMult
    /\ osc_frequency (note_in_synth_range noteNum) mult = Some oscFreq
    /\ m_OscMuted s' !! osc = Some (osc_muted oscFreq).
Proof.
  unfold SynthNoteChange. intros Hrun Hosc.
  destruct (mapM _ oscillators) as [oscs|] eqn:Hmap; [|done].
  cbn [mbind option_bind] in Hrun. injection Hrun as <-. synth_simpl.
  apply mapM_Some in Hmap.
  destruct (Forall2_lookup_l _ _ _ _ _ Hmap (oscillators_lookup osc Hosc)) as (r & Hr & Hsetup).
  unfold note_osc_setup in Hsetup. rewrite c_index_nat in Hsetup.
  destruct (OscFreqMult p !! osc) as [mult|]; [|done]. cbn [mbind option_bind] in Hsetup.
  destruct (osc_frequency _ mult) as [oscFreq|] eqn:Hfreq; [|done].
  cbn [mbind option_bind] in Hsetup.
  destruct (osc_phase_step oscFreq) as [oscStep|]; [|done].
  cbn [mbind option_bind] in Hsetup. injection Hsetup as <-.
  rewrite list_lookup_fmap, Hr. cbn [fmap option_fmap option_map fst].
  pose proof Hfreq as Hparts. unfold osc_frequency in Hparts.
  destruct (c_index g_FreqMultConst mult) as [freqMult|] eqn:Hfm; [|done].
  destruct (c_index g_NoteFrequency _) as [noteFreq|] eqn:Hnf; [|done].
  by exists mult, noteFreq, freqMult, oscFreq.
Qed.

(** A muted oscillator gets the mixer level zero at the modulation tick. *)
Lemma OscAmpldModulation_muted (p : PatchParamTable_t) (s s' : Synth) (osc : nat) :
  OscAmpldModulation p s = Some s' -> m_OscMuted s !! osc = Some true -> (osc < 6)%nat ->
  v_MixerLevel s' !! osc = Some 0.
Proof.
  unfold OscAmpldModulation. intros Hrun Hmuted Hosc.
  destruct (mapM _ oscillators) as [levels|] eqn:Hmap; [|done].
  cbn [mbind option_bind] in Hrun. injection Hrun as <-. synth_simpl.
  apply mapM_Some in Hmap.
  destruct (Forall2_lookup_l _ _ _ _ _ Hmap (oscillators_lookup osc Hosc)) as (r & Hr & Hlevel).
  cbv beta in Hlevel. rewrite c_index_nat in Hlevel.
  destruct (OscAmpldModSource p !! osc) as [source|]; [|done].
  cbn [mbind option_bind] in Hlevel.
  unfold osc_mixer_level in Hlevel. rewrite !c_index_nat, Hmuted in Hlevel.
  cbn [mbind option_bind] in Hlevel. injection Hlevel as <-.
  by rewrite list_lookup_fmap, Hr.
Qed.

(** The modulation tick returns on a valid patch. *)
Lemma OscAmpldModulation_defined (p : PatchParamTable_t) (s : Synth) :
  patch_oscillators_valid p -> length (m_OscMuted s) = 6%nat ->
  is_Some (OscAmpldModulation p s).
Proof.
  intros (_ & Hsrc & Hlen & Hsteps) Hmuted. unfold OscAmpldModulation.
  match goal with
  | |- context [mapM ?f oscillators] =>
      assert (is_Some (mapM f oscillators)) as [levels ->]; [|done]
  end.
  apply mapM_is_Some. apply Forall_forall. intros osc Hin.
  assert (0 <= osc < 6) as Hosc.
  { unfold oscillators in Hin. repeat (apply elem_of_cons in Hin as [->|Hin]; [lia|]).
    by apply elem_of_nil in Hin. }
  unfold compose. cbv beta.
  destruct (c_index_Some (OscAmpldModSource p) osc ltac:(lia)) as [source ->].
  cbn [mbind option_bind]. unfold osc_mixer_level.
  destruct (c_index_Some (m_OscMuted s) osc ltac:(lia)) as [muted ->].
  cbn [mbind option_bind]. destruct muted; [done|].
  destruct (c_index_Some (MixerInputStep p) osc ltac:(lia)) as [step Hstep].
  rewrite Hstep. cbn [fmap option_fmap option_map mbind option_bind].
  assert (0 <= step <= 16) as Hrange.
  { unfold c_index in Hstep. destruct (osc <? 0); [done|].
    rewrite Forall_lookup in Hsteps. eapply Hsteps, Hstep. }
  rewrite to_int16_id by lia.
  destruct (c_index_Some g_AmpldLevelLogScale_x1000 step) as [level ->]; [|done].
  change (length g_AmpldLevelLogScale_x1000) with 17%nat. lia.
Qed.

(** An oscillator at mixer level zero feeds zero into the mixer. *)
Lemma osc_mixer_input_level_0 (angle ampldModn input : Z) :
  osc_mixer_input angle ampldModn 0 = Some input -> input = 0.
Proof.
  unfold osc_mixer_input. destruct (c_index g_sine_wave _); [|done].
  cbn [mbind option_bind]. rewrite Z.mul_0_r. by intros [= <-].
Qed.

(** C5, amended.  On a valid patch [SynthNoteChange] returns, and it marks
    an oscillator muted exactly when the note frequency times the frequency
    multiplier (detune and modulation are not part of the product) is
    above [MAX_OSC_FREQ_HZ], 12000 Hz or 0.375 times the sample rate; at a
    modulation tick that finds these mute flags, [OscAmpldModulation]
    returns and sets the mixer level of every muted oscillator to zero, and
    at level zero the oscillator feeds zero into the mixer. *)
Theorem mute_follows_nominal_frequency (p : PatchParamTable_t) (noteNum : Z) (s : Synth) :
  patch_oscillators_valid p ->
  exists s', SynthNoteChange p noteNum s = Some s'
    /\ (forall osc : nat, (osc < 6)%nat ->
          exists (mult : Z) (noteFreq freqMult : Q) (muted : bool),
            OscFreqMult p !! osc = Some mult
            /\ c_index g_NoteFrequency (note_in_synth_range noteNum - 12) = Some noteFreq
            /\ c_index g_FreqMultConst mult = Some freqMult
            /\ m_OscMuted s' !! osc = Some muted
            /\ (muted = true <-> (inject_Z MAX_OSC_FREQ_HZ < noteFreq * freqMult)%Q))
    /\ (forall t : Synth, m_OscMuted t = m_OscMuted s' ->
          exists t', OscAmpldModulation p t = Some t'
            /\ forall osc : nat, (osc < 6)%nat -> m_OscMuted s' !! osc = Some true ->
                 v_MixerLevel t' !! osc = Some 0
                 /\ forall angle ampldModn input : Z,
                      osc_mixer_input angle ampldModn 0 = Some input -> input = 0).
Proof.
  intros Hp. pose proof Hp as (Hmult & _).
  destruct (SynthNoteChange_defined p noteNum s Hmult) as (s' & Hrun & _).
  exists s'. split; [done|]. split.
  - intros osc Hosc.
    destruct (SynthNoteChange_muted p noteNum s s' osc Hrun Hosc)
      as (mult & noteFreq & freqMult & oscFreq & Hm & Hnf & Hfm & Hfreq & Hmuted).
    exists mult, noteFreq, freqMult, (osc_muted oscFreq). split_and!; try done.
    assert (0 <= mult < 12) as Hrange.
    { destruct Hmult as [_ Hall]. rewrite Forall_lookup in Hall. eapply Hall, Hm. }
    pose proof (mute_is_exact_in_range _ mult (note_in_synth_range_bounds noteNum) Hrange) as He.
    unfold mute_is_exact in He. rewrite Hfreq, Hnf, Hfm in He.
    apply eqb_prop in He. rewrite He, negb_true_iff.
    split.
    + intros Hf. apply Qnot_le_lt. intros Hle. apply Qle_bool_iff in Hle. congruence.
    + intros Hlt. apply not_true_is_false. intros Hle. apply Qle_bool_iff in Hle.
      by apply Qlt_not_le in Hlt.
  - intros t Ht.
    assert (length (m_OscMuted t) = 6%nat) as Hlen.
    { rewrite Ht. unfold SynthNoteChange in Hrun.
      destruct (mapM _ oscillators) as [oscs|] eqn:Hmap; [|done].
      cbn [mbind option_bind] in Hrun. injection Hrun as <-. synth_simpl.
      rewrite length_fmap. apply length_mapM in Hmap. by rewrite <- Hmap. }
    destruct (OscAmpldModulation_defined p t Hp Hlen) as [t' Ht'].
    exists t'. split; [done|]. intros osc Hosc Hmuted. split.
    + apply (OscAmpldModulation_muted p t t' osc Ht'); [by rewrite Ht|done].
    + apply osc_mixer_input_level_0.
Qed.

(** Note C4 on "Sound Test" at the default configuration: the phase steps
    after the note-on and the first modulation tick. *)
Example note_C4_phase_steps :
  (s ← SynthNoteOn Preset_SoundTest 60 100 Synth_reset;
   s ← OscFreqModulation Config_default Preset_SoundTest s;
   Some (v_OscStep s))
  = Some [1097339; 2194678; 3292017; 4389356; 5486695; 6584034].
Proof. vm_compute. reflexivity. Qed.


(** ** Amplitude envelope generator *)

Lemma quot_nonneg_bounds (a b : Z) :
  0 <= a -> 1 <= b -> 0 <= Z.quot a b <= a /\ b * Z.quot a b <= a.
Proof.
  intros Ha Hb. pose proof (Z.quot_rem' a b) as Hqr.
  pose proof (Z.rem_bound_pos a b Ha ltac:(lia)) as Hr.
  pose proof (Z.quot_pos a b Ha ltac:(lia)) as Hq. nia.
Qed.

Lemma quot_nonpos_bounds (a b : Z) : a <= 0 -> 1 <= b -> a <= Z.quot a b <= 0.
Proof.
  intros Ha Hb.
  replace a with (- (- a)) by lia. rewrite Z.quot_opp_l by lia.
  pose proof (quot_nonneg_bounds (- a) b ltac:(lia) Hb). lia.
Qed.

Lemma c_div_Some (a b : Z) : b <> 0 -> c_div a b = Some (to_int32 (Z.quot a b)).
Proof. intros H. unfold c_div. by destruct (Z.eqb_spec b 0). Qed.

Lemma env1_ticks_add (p : PatchParamTable_t) (a b : nat) (s : Synth) :
  env1_ticks p (a + b) s = s' ← env1_ticks p a s; env1_ticks p b s'.
Proof.
  revert s. induction a as [|a IH]; intros s; [done|].
  cbn [env1_ticks Nat.add]. destruct (AmpldEnvelopeGenerator p s) as [s1|]; [|done].
  cbn [mbind option_bind]. apply IH.
Qed.

Lemma env1_ticks_succ_r (p : PatchParamTable_t) (n : nat) (s : Synth) :
  env1_ticks p (S n) s = s' ← env1_ticks p n s; AmpldEnvelopeGenerator p s'.
Proof.
  replace (S n) with (n + 1)%nat by lia. rewrite env1_ticks_add.
  destruct (env1_ticks p n s) as [s'|]; [|done]. cbn [mbind option_bind env1_ticks].
  by destruct (AmpldEnvelopeGenerator p s').
Qed.

(** With no trigger pending the generator is the switch on the segment. *)
Lemma AmpldEnvelopeGenerator_no_trigger (p : PatchParamTable_t) (s : Synth) :
  m_TriggerAttack1 s = false -> m_TriggerRelease1 s = false ->
  AmpldEnvelopeGenerator p s = env1_segment p s.
Proof.
  intros Ha Hr. unfold AmpldEnvelopeGenerator, env1_attack_trigger, env1_release_trigger.
  rewrite Ha. cbn [mbind option_bind]. by rewrite Hr.
Qed.

Lemma sustain_level_bounds (p : PatchParamTable_t) :
  0 <= EnvSustainLevel p <= 100 ->
  0 <= Z.quot (IntToFixedPt (EnvSustainLevel p)) 100 <= IntToFixedPt 1.
Proof.
  intros H. rewrite IntToFixedPt_small by lia. rewrite IntToFixedPt_1.
  pose proof (quot_nonneg_bounds (EnvSustainLevel p * 2^20) 100 ltac:(lia) ltac:(lia)).
  split; [lia|]. apply Z.quot_le_upper_bound; lia.
Qed.

Lemma FIXED_MAX_LEVEL_value : FIXED_MAX_LEVEL = 2^20 - 1.
Proof. reflexivity. Qed.

(** The attack block on a generator at rest with output zero. *)
Lemma env1_attack_trigger_in_order (p : PatchParamTable_t) (s : Synth) :
  patch_envelope_valid p ->
  m_TriggerAttack1 s = true -> m_ENV1_Output s = 0 ->
  exists s', env1_attack_trigger p s = Some s'
    /\ m_TriggerRelease1 s' = false /\ EnvSegment (ENV1 s') = ENV_ATTACK
    /\ envelope_in_order p s'.
Proof.
  intros (HA & HH & HD & HR & HS) Hatt Hout. unfold env1_attack_trigger. rewrite Hatt.
  pose proof (sustain_level_bounds p HS) as Hsus.
  set (sus := Z.quot (IntToFixedPt (EnvSustainLevel p)) 100) in *.
  rewrite IntToFixedPt_1 in Hsus.
  pose proof (quot_nonneg_bounds sus (EnvAttackTime p) ltac:(lia) ltac:(lia)) as Hq1.
  pose proof (quot_nonneg_bounds (2^20 - 1) (EnvAttackTime p) ltac:(lia) ltac:(lia)) as Hq2.
  destruct (Z.eqb_spec (EnvHoldTime p) 0); env_simpl;
    rewrite ?FIXED_MAX_LEVEL_value, c_div_Some by lia; cbn [mbind option_bind];
    rewrite to_int32_id by lia;
    (eexists; split; [reflexivity|]); unfold envelope_in_order; synth_simpl; env_simpl;
    rewrite IntToFixedPt_1; (split; [done|]); (split; [done|]);
    split_and!; try done; try lia; right; lia.
Qed.

(** The end of the cases: each part of the invariant by assumption or by
    linear arithmetic. *)
Ltac env_done :=
  split_and!;
  first [ done | lia
        | right; first [ done | lia | split_and!; first [ done | lia ] ]
        | intros; first [ done | lia | split_and!; first [ done | lia ] ] ].

(** The release block keeps the generator in order. *)
Lemma env1_release_trigger_in_order (p : PatchParamTable_t) (s : Synth) :
  patch_envelope_valid p -> envelope_in_order p s ->
  envelope_in_order p (env1_release_trigger p s)
  /\ m_TriggerRelease1 (env1_release_trigger p s) = false
  /\ (m_TriggerRelease1 s = true ->
        EnvSegment (ENV1 (env1_release_trigger p s)) = ENV_RELEASE
        /\ envPhaseTimer (ENV1 (env1_release_trigger p s)) = 0).
Proof.
  intros (HA & HH & HD & HR & HS) (Hatt & Hout & Hsus & Hseg).
  unfold env1_release_trigger. destruct (m_TriggerRelease1 s) eqn:Hrel.
  - synth_simpl. env_simpl. split; [|done].
    unfold envelope_in_order. synth_simpl. env_simpl.
    pose proof (Z.quot_le_lower_bound (EnvReleaseTime p) 5 1). env_done.
  - split; [|done]. unfold envelope_in_order. by rewrite Hrel.
Qed.

(** The switch on the segment returns and keeps the generator in order. *)
Lemma env1_segment_in_order (p : PatchParamTable_t) (s : Synth) :
  patch_envelope_valid p -> envelope_in_order p s -> m_TriggerRelease1 s = false ->
  exists s', env1_segment p s = Some s' /\ envelope_in_order p s'
    /\ m_TriggerRelease1 s' = false
    /\ (EnvSegment (ENV1 s) = ENV_RELEASE ->
          envPhaseTimer (ENV1 s) + 1 < 2 * EnvReleaseTime p ->
          EnvSegment (ENV1 s') = ENV_RELEASE
          /\ envPhaseTimer (ENV1 s') = envPhaseTimer (ENV1 s) + 1)
    /\ (EnvSegment (ENV1 s) = ENV_RELEASE ->
          2 * EnvReleaseTime p <= envPhaseTimer (ENV1 s) + 1 ->
          EnvSegment (ENV1 s') = ENV_IDLE).
Proof.
  intros (HA & HH & HD & HR & HS) (Hatt & Hout & Hsus & Hseg) Hrel.
  destruct Hseg as [Hseg|Hseg]; [congruence|].
  rewrite IntToFixedPt_1 in *.
  unfold env1_segment, envelope_in_order.
  destruct (EnvSegment (ENV1 s)) eqn:Hsg.
  - (* ENV_IDLE *)
    eexists. split; [reflexivity|]. synth_simpl. rewrite Hsg, IntToFixedPt_1.
    env_done.
  - (* ENV_ATTACK *)
    destruct Hseg as (Htimer & Hdelta & Hramp & Hpeak & Hmax).
    rewrite (to_uint32_id (envPhaseTimer (ENV1 s) + 1)) by lia.
    assert (m_ENV1_Output s + ampldDelta (ENV1 s)
            <= (envPhaseTimer (ENV1 s) + 1) * ampldDelta (ENV1 s)) as Hnext by lia.
    assert ((envPhaseTimer (ENV1 s) + 1) * ampldDelta (ENV1 s)
            <= EnvAttackTime p * ampldDelta (ENV1 s)) as Hlast by nia.
    rewrite (to_int32_id (m_ENV1_Output s + ampldDelta (ENV1 s))) by lia.
    destruct (Z.ltb_spec (m_ENV1_Output s) (ampldMaximum (ENV1 s))); env_simpl;
      destruct (Z.geb_spec (envPhaseTimer (ENV1 s) + 1) (EnvAttackTime p));
      destruct (Z.eqb_spec (EnvHoldTime p) 0);
      (eexists; split; [reflexivity|]); synth_simpl; env_simpl;
      rewrite ?Hsg, ?IntToFixedPt_1; env_done.
  - (* ENV_PEAK_HOLD *)
    rewrite (to_uint32_id (envPhaseTimer (ENV1 s) + 1)) by lia. env_simpl.
    pose proof (Z.quot_le_lower_bound (EnvDecayTime p) 5 1).
    destruct (Z.geb_spec (envPhaseTimer (ENV1 s) + 1) (EnvHoldTime p));
      (eexists; split; [reflexivity|]); synth_simpl; env_simpl;
      rewrite ?Hsg, ?IntToFixedPt_1; env_done.
  - (* ENV_DECAY *)
    destruct Hseg as (Htc & Htimer).
    rewrite c_div_Some by lia. cbn [mbind option_bind].
    rewrite (to_int32_id (m_ENV1_Output s - sustainLevel (ENV1 s))) by lia.
    set (d := Z.quot (m_ENV1_Output s - sustainLevel (ENV1 s)) (timeConstant (ENV1 s))).
    assert ((0 <= m_ENV1_Output s - sustainLevel (ENV1 s)
             /\ 0 <= d <= m_ENV1_Output s - sustainLevel (ENV1 s))
            \/ (m_ENV1_Output s - sustainLevel (ENV1 s) <= 0
                /\ m_ENV1_Output s - sustainLevel (ENV1 s) <= d <= 0)) as Hd.
    { destruct (Z.le_ge_cases 0 (m_ENV1_Output s - sustainLevel (ENV1 s))).
      - left. split; [done|]. by apply quot_nonneg_bounds.
      - right. split; [done|]. by apply quot_nonpos_bounds. }
    rewrite (to_int32_id d) by lia. env_simpl.
    destruct (Z.eqb_spec d 0); env_simpl; unfold FIXED_MIN_LEVEL;
      rewrite (to_uint32_id (envPhaseTimer (ENV1 s) + 1)) by lia;
      rewrite (to_int32_id (sustainLevel (ENV1 s) + _)) by lia;
      rewrite ?(to_int32_id (m_ENV1_Output s - _)) by lia;
      repeat match goal with
      | |- context [?a >=? ?b] => destruct (Z.geb_spec a b)
      end;
      (eexists; split; [reflexivity|]); synth_simpl; env_simpl;
      rewrite ?Hsg, ?IntToFixedPt_1; env_done.
  - (* ENV_SUSTAIN *)
    exists s. rewrite Hsg, IntToFixedPt_1. env_done.
  - (* ENV_RELEASE *)
    destruct Hseg as (Htc & Htimer).
    rewrite c_div_Some by lia. cbn [mbind option_bind].
    pose proof (quot_nonneg_bounds (m_ENV1_Output s) (timeConstant (ENV1 s))
                  ltac:(lia) ltac:(lia)) as Hd.
    set (d := Z.quot (m_ENV1_Output s) (timeConstant (ENV1 s))) in *.
    rewrite (to_int32_id d) by lia. env_simpl.
    destruct (Z.eqb_spec d 0); env_simpl; unfold FIXED_MIN_LEVEL;
      rewrite (to_uint32_id (envPhaseTimer (ENV1 s) + 1)) by lia;
      rewrite ?(to_int32_id (m_ENV1_Output s - _)) by lia;
      repeat match goal with
      | |- context [?a >=? ?b] => destruct (Z.geb_spec a b)
      end;
      (eexists; split; [reflexivity|]); synth_simpl; env_simpl;
      rewrite ?Hsg, ?IntToFixedPt_1; env_done.
Qed.

(** A tick with the attack trigger pending is the attack block followed by
    a tick without it. *)
Lemma AmpldEnvelopeGenerator_attack_block (p : PatchParamTable_t) (s s' : Synth) :
  env1_attack_trigger p s = Some s' -> m_TriggerAttack1 s' = false ->
  AmpldEnvelopeGenerator p s = AmpldEnvelopeGenerator p s'.
Proof.
  intros Hblock Hatt. unfold AmpldEnvelopeGenerator at 1 2. rewrite Hblock.
  unfold env1_attack_trigger at 1. by rewrite Hatt.
Qed.

Lemma env1_ticks_attack_block (p : PatchParamTable_t) (n : nat) (s s' : Synth) :
  env1_attack_trigger p s = Some s' -> m_TriggerAttack1 s' = false -> (1 <= n)%nat ->
  env1_ticks p n s = env1_ticks p n s'.
Proof.
  intros Hblock Hatt Hn. destruct n as [|n]; [lia|]. cbn [env1_ticks].
  by rewrite (AmpldEnvelopeGenerator_attack_block p s s').
Qed.

(** One tick of the attack segment: the timer counts up to the attack
    time; then the output is the peak value and the segment is SUSTAIN when
    the hold time is zero, PEAK_HOLD otherwise. *)
Lemma env1_attack_tick (p : PatchParamTable_t) (s : Synth) :
  m_TriggerAttack1 s = false -> m_TriggerRelease1 s = false ->
  EnvSegment (ENV1 s) = ENV_ATTACK -> 0 <= envPhaseTimer (ENV1 s) < 2^16 ->
  exists s', AmpldEnvelopeGenerator p s = Some s'
    /\ m_TriggerAttack1 s' = false /\ m_TriggerRelease1 s' = false
    /\ ampldMaximum (ENV1 s') = ampldMaximum (ENV1 s)
    /\ sustainLevel (ENV1 s') = sustainLevel (ENV1 s)
    /\ (envPhaseTimer (ENV1 s) + 1 < EnvAttackTime p ->
          EnvSegment (ENV1 s') = ENV_ATTACK
          /\ envPhaseTimer (ENV1 s') = envPhaseTimer (ENV1 s) + 1)
    /\ (EnvAttackTime p <= envPhaseTimer (ENV1 s) + 1 ->
          EnvSegment (ENV1 s') = (if EnvHoldTime p =? 0 then ENV_SUSTAIN else ENV_PEAK_HOLD)
          /\ m_ENV1_Output s' = ampldMaximum (ENV1 s)).
Proof.
  intros Hatt Hrel Hsg Htimer. rewrite AmpldEnvelopeGenerator_no_trigger by done.
  unfold env1_segment. rewrite Hsg.
  rewrite (to_uint32_id (envPhaseTimer (ENV1 s) + 1)) by lia.
  destruct (Z.ltb_spec (m_ENV1_Output s) (ampldMaximum (ENV1 s))); env_simpl;
    destruct (Z.geb_spec (envPhaseTimer (ENV1 s) + 1) (EnvAttackTime p));
    destruct (Z.eqb_spec (EnvHoldTime p) 0);
    (eexists; split; [reflexivity|]); synth_simpl; env_simpl;
    split_and!; try done; lia.
Qed.

(** The attack segment from timer value [t] on: it lasts until the timer
    reaches the attack time. *)
Lemma env1_attack_run (p : PatchParamTable_t) (m : nat) (s : Synth) :
  m_TriggerAttack1 s = false -> m_TriggerRelease1 s = false ->
  EnvSegment (ENV1 s) = ENV_ATTACK -> 0 <= envPhaseTimer (ENV1 s) ->
  EnvAttackTime p < 2^16 ->
  envPhaseTimer (ENV1 s) + Z.of_nat m = EnvAttackTime p -> (1 <= m)%nat ->
  (forall j : nat, (j < m)%nat ->
     exists sj, env1_ticks p j s = Some sj /\ EnvSegment (ENV1 sj) = ENV_ATTACK)
  /\ exists s', env1_ticks p m s = Some s'
       /\ m_TriggerAttack1 s' = false /\ m_TriggerRelease1 s' = false
       /\ EnvSegment (ENV1 s') = (if EnvHoldTime p =? 0 then ENV_SUSTAIN else ENV_PEAK_HOLD)
       /\ m_ENV1_Output s' = ampldMaximum (ENV1 s)
       /\ ampldMaximum (ENV1 s') = ampldMaximum (ENV1 s)
       /\ sustainLevel (ENV1 s') = sustainLevel (ENV1 s).
Proof.
  revert s. induction m as [|m IH]; intros s Hatt Hrel Hsg Ht0 HA Hend Hm; [lia|].
  destruct (env1_attack_tick p s Hatt Hrel Hsg ltac:(lia))
    as (s1 & Hstep & Hatt1 & Hrel1 & Hmax1 & Hsus1 & Hgo & Hstop).
  destruct m as [|m].
  - destruct (Hstop ltac:(lia)) as (Hsg1 & Hout1). split.
    + intros j Hj. assert (j = 0%nat) as -> by lia. by exists s.
    + exists s1. cbn [env1_ticks]. rewrite Hstep. done.
  - destruct (Hgo ltac:(lia)) as (Hsg1 & Ht1).
    destruct (IH s1 Hatt1 Hrel1 Hsg1 ltac:(lia) HA ltac:(lia) ltac:(lia))
      as (Hbefore & s' & Hrun & Hatt' & Hrel' & Hsg' & Hout' & Hmax' & Hsus').
    split.
    + intros [|j] Hj; [by exists s|].
      destruct (Hbefore j ltac:(lia)) as (sj & Hsj & Hsgj).
      exists sj. cbn [env1_ticks]. rewrite Hstep. done.
    + exists s'. change (env1_ticks p (S (S m)) s)
        with (AmpldEnvelopeGenerator p s ≫= env1_ticks p (S m)).
      rewrite Hstep. cbn [mbind option_bind].
      split_and!; try done; congruence.
Qed.

(** The attack block, whatever the generator was doing. *)
Lemma env1_attack_trigger_attack (p : PatchParamTable_t) (s : Synth) :
  m_TriggerAttack1 s = true -> EnvAttackTime p <> 0 ->
  exists s', env1_attack_trigger p s = Some s'
    /\ m_TriggerAttack1 s' = false /\ m_TriggerRelease1 s' = false
    /\ EnvSegment (ENV1 s') = ENV_ATTACK /\ envPhaseTimer (ENV1 s') = 0
    /\ sustainLevel (ENV1 s') = Z.quot (IntToFixedPt (EnvSustainLevel p)) 100
    /\ ampldMaximum (ENV1 s')
       = (if EnvHoldTime p =? 0 then Z.quot (IntToFixedPt (EnvSustainLevel p)) 100
          else FIXED_MAX_LEVEL).
Proof.
  intros Hatt HA. unfold env1_attack_trigger. rewrite Hatt.
  destruct (Z.eqb_spec (EnvHoldTime p) 0); env_simpl;
    rewrite c_div_Some by done; cbn [mbind option_bind];
    (eexists; split; [reflexivity|]); synth_simpl; env_simpl; done.
Qed.

(** Without a hold time the generator never enters PEAK_HOLD or DECAY. *)
Lemma env1_no_hold_no_decay (p : PatchParamTable_t) (s s' : Synth) :
  EnvHoldTime p = 0 -> AmpldEnvelopeGenerator p s = Some s' ->
  EnvSegment (ENV1 s) <> ENV_PEAK_HOLD -> EnvSegment (ENV1 s) <> ENV_DECAY ->
  EnvSegment (ENV1 s') <> ENV_PEAK_HOLD /\ EnvSegment (ENV1 s') <> ENV_DECAY.
Proof.
  intros HH. unfold AmpldEnvelopeGenerator, env1_attack_trigger, env1_release_trigger.
  rewrite HH. change (0 =? 0) with true. cbv iota.
  destruct (m_TriggerAttack1 s); [env_simpl; destruct (c_div _ _); [|done]|];
    cbn [mbind option_bind]; synth_simpl;
    destruct (m_TriggerRelease1 s); unfold env1_segment; synth_simpl; env_simpl.
  all: try (destruct (EnvSegment (ENV1 s)) eqn:Hsg; try done).
  all: rewrite ?HH; change (0 =? 0) with true; cbv iota.
  all: repeat match goal with
  | |- context [c_div ?a ?b] => destruct (c_div a b); [|done]
  | |- context [?a <? ?b] => destruct (Z.ltb_spec a b)
  | |- context [?a >=? ?b] => destruct (Z.geb_spec a b)
  | |- context [?a =? ?b] => destruct (Z.eqb_spec a b)
  | _ => progress (cbn [mbind option_bind]; synth_simpl; env_simpl)
  end.
  all: intros [= <-] _ _; synth_simpl; env_simpl; rewrite ?Hsg; done.
Qed.

(** One tick keeps the generator in order, and consumes the release
    trigger. *)
Lemma AmpldEnvelopeGenerator_in_order (p : PatchParamTable_t) (s : Synth) :
  patch_envelope_valid p -> envelope_in_order p s ->
  exists s', AmpldEnvelopeGenerator p s = Some s' /\ envelope_in_order p s'
    /\ m_TriggerRelease1 s' = false.
Proof.
  intros Hp Hs. pose proof Hs as (Hatt & _).
  unfold AmpldEnvelopeGenerator, env1_attack_trigger. rewrite Hatt.
  cbn [mbind option_bind].
  destruct (env1_release_trigger_in_order p s Hp Hs) as (Hs' & Hrel' & _).
  destruct (env1_segment_in_order p _ Hp Hs' Hrel') as (s' & Hstep & Hin & Hr & _).
  by exists s'.
Qed.

Lemma env1_ticks_in_order (p : PatchParamTable_t) (n : nat) (s : Synth) :
  patch_envelope_valid p -> envelope_in_order p s ->
  exists s', env1_ticks p n s = Some s' /\ envelope_in_order p s'
    /\ ((1 <= n)%nat -> m_TriggerRelease1 s' = false).
Proof.
  intros Hp. revert s. induction n as [|n IH]; intros s Hs.
  - exists s. split_and!; try done. lia.
  - destruct (AmpldEnvelopeGenerator_in_order p s Hp Hs) as (s1 & Hstep & Hs1 & Hrel1).
    destruct (IH s1 Hs1) as (s' & Hrun & Hs' & Hrel').
    exists s'. cbn [env1_ticks]. rewrite Hstep. split_and!; try done.
    intros _. destruct n as [|n]; [|apply Hrel'; lia].
    cbn [env1_ticks] in Hrun. by injection Hrun as <-.
Qed.

(** One tick of the release segment: the timer counts up to twice the
    release time, then the generator is idle. *)
Lemma env1_release_tick (p : PatchParamTable_t) (s : Synth) :
  patch_envelope_valid p -> envelope_in_order p s -> m_TriggerRelease1 s = false ->
  EnvSegment (ENV1 s) = ENV_RELEASE ->
  exists s', AmpldEnvelopeGenerator p s = Some s' /\ envelope_in_order p s'
    /\ m_TriggerRelease1 s' = false
    /\ (envPhaseTimer (ENV1 s) + 1 < 2 * EnvReleaseTime p ->
          EnvSegment (ENV1 s') = ENV_RELEASE
          /\ envPhaseTimer (ENV1 s') = envPhaseTimer (ENV1 s) + 1)
    /\ (2 * EnvReleaseTime p <= envPhaseTimer (ENV1 s) + 1 ->
          EnvSegment (ENV1 s') = ENV_IDLE).
Proof.
  intros Hp Hs Hrel Hsg. pose proof Hs as (Hatt & _).
  rewrite AmpldEnvelopeGenerator_no_trigger by done.
  destruct (env1_segment_in_order p s Hp Hs Hrel) as (s' & Hstep & Hs' & Hrel' & Hgo & Hstop).
  exists s'. split_and!; try done; [by apply Hgo | by apply Hstop].
Qed.

(** The release segment from timer value [t] on: it lasts until the timer
    reaches twice the release time, and then the generator is idle. *)
Lemma env1_release_run (p : PatchParamTable_t) (m : nat) (s : Synth) :
  patch_envelope_valid p -> envelope_in_order p s -> m_TriggerRelease1 s = false ->
  EnvSegment (ENV1 s) = ENV_RELEASE ->
  envPhaseTimer (ENV1 s) + Z.of_nat m = 2 * EnvReleaseTime p -> (1 <= m)%nat ->
  exists s', env1_ticks p m s = Some s' /\ EnvSegment (ENV1 s') = ENV_IDLE.
Proof.
  intros Hp. revert s. induction m as [|m IH]; intros s Hs Hrel Hsg Hend Hm; [lia|].
  destruct (env1_release_tick p s Hp Hs Hrel Hsg) as (s1 & Hstep & Hs1 & Hrel1 & Hgo & Hstop).
  cbn [env1_ticks]. rewrite Hstep. cbn [mbind option_bind].
  destruct m as [|m].
  - exists s1. split; [done|]. apply Hstop. lia.
  - destruct (Hgo ltac:(lia)) as (Hsg1 & Ht1).
    apply (IH s1 Hs1 Hrel1 Hsg1); lia.
Qed.

(** From a pending release trigger the generator is idle after twice the
    release time. *)
Lemma env1_release_from_trigger (p : PatchParamTable_t) (s : Synth) :
  patch_envelope_valid p -> envelope_in_order p s -> m_TriggerRelease1 s = true ->
  exists s', env1_ticks p (Z.to_nat (2 * EnvReleaseTime p)) s = Some s'
    /\ EnvSegment (ENV1 s') = ENV_IDLE.
Proof.
  intros Hp Hs Hrel. pose proof Hs as (Hatt & _).
  destruct (env1_release_trigger_in_order p s Hp Hs) as (Hs' & Hrel' & Hstart).
  destruct (Hstart Hrel) as (Hsg & Ht). pose proof Hp as (_ & _ & _ & HR & _).
  set (s' := env1_release_trigger p s) in *.
  assert (forall n, (1 <= n)%nat -> env1_ticks p n s = env1_ticks p n s') as Hsame.
  { intros [|n] Hn; [lia|]. cbn [env1_ticks]. f_equal.
    rewrite (AmpldEnvelopeGenerator_no_trigger p s') by (by destruct Hs').
    unfold AmpldEnvelopeGenerator, env1_attack_trigger. by rewrite Hatt. }
  rewrite Hsame by lia.
  apply env1_release_run; try done; lia.
Qed.

(** The sustain segment lasts as long as no trigger arrives. *)
Lemma env1_sustain_lasts (p : PatchParamTable_t) (n : nat) (s : Synth) :
  m_TriggerAttack1 s = false -> m_TriggerRelease1 s = false ->
  EnvSegment (ENV1 s) = ENV_SUSTAIN -> env1_ticks p n s = Some s.
Proof.
  intros Hatt Hrel Hsg. induction n as [|n IH]; [done|].
  cbn [env1_ticks]. rewrite AmpldEnvelopeGenerator_no_trigger by done.
  unfold env1_segment. rewrite Hsg. done.
Qed.

Lemma set_release_in_order (p : PatchParamTable_t) (s : Synth) :
  envelope_in_order p s -> envelope_in_order p (set_m_TriggerRelease1 true s).
Proof.
  intros (Hatt & Hout & Hsus & _). unfold envelope_in_order. synth_simpl.
  split; [done|]. split; [done|]. split; [done|]. by left.
Qed.




(** A release time below 5 ms has the time constant zero, and the release
    segment divides by it. *)
Lemma release_time_below_5 :
  exists s0 : Synth,
    SynthNoteOn (set_EnvReleaseTime 4 Preset_SoundTest) 60 100 Synth_reset = Some s0
    /\ attack_release_ticks (set_EnvReleaseTime 4 Preset_SoundTest) 1 1 s0 = None.
Proof.
  set (r := SynthNoteOn _ 60 100 Synth_reset). vm_compute in r. subst r.
  eexists. split; [reflexivity|]. vm_compute. reflexivity.
Qed.

End Firmware.

(** * Instances

    Each statement above that has a premise, at a concrete input: the
    preset "Sound Test" on the engine at power-up. *)

Lemma Preset_SoundTest_multipliers : patch_multipliers_valid Preset_SoundTest.
Proof. split; [reflexivity|]. unfold Preset_SoundTest. simpl. repeat constructor; lia. Defined.

Lemma Preset_SoundTest_oscillators : patch_oscillators_valid Preset_SoundTest.
Proof.
  split; [exact Preset_SoundTest_multipliers|].
  split; [reflexivity|]. split; [reflexivity|].
  unfold Preset_SoundTest. simpl. repeat constructor; lia.
Defined.

Lemma Preset_SoundTest_envelope : patch_envelope_valid Preset_SoundTest.
Proof. unfold patch_envelope_valid, Preset_SoundTest. simpl. lia. Defined.

(** C1 at 1.5 and at -3.0. *)
Lemma Base2Exp_boundaries_witness :
  Base2Exp 1572864 = 1048576 /\ Base2Exp (-3145728) = 1048576.
Proof.
  destruct Base2Exp_boundaries as (_ & _ & _ & H).
  split; apply H; [right | left]; vm_compute; reflexivity.
Defined.



(** C4: the first index past the 32 presets. *)
Lemma PresetSelect_out_of_catalog_witness :
  PresetSelect powf_at_reverb 32 Voice_reset = Some Voice_reset.
Proof.
  apply (PresetSelect_out_of_catalog powf_at_reverb 32 Voice_reset).
  - lia.
  - unfold GetNumberOfPresets. simpl. lia.
Defined.

(** C5: note C8 on "Sound Test". *)
Lemma mute_follows_nominal_frequency_witness :
  exists s' : Synth, SynthNoteChange Preset_SoundTest 108 Synth_reset = Some s'.
Proof.
  destruct (mute_follows_nominal_frequency Preset_SoundTest 108 Synth_reset
              Preset_SoundTest_oscillators) as (s' & H & _).
  exists s'. exact H.
Defined.


(** C7: reverb mix 101 %. *)
Lemma ProcessControlChange_out_of_range_witness :
  ProcessControlChange powf_at_reverb [0xB0; 89; 101] Voice_reset = Some Voice_reset.
Proof.
  apply (ProcessControlChange_out_of_range powf_at_reverb [0xB0; 89; 101] 89 101 Voice_reset);
    reflexivity.
Defined.

(** C8: the phase steps of note C4 on "Sound Test", one thousand samples;
    and the first of these oscillators alone. *)
Lemma phase_accumulator_wraps_witness :
  let s := set_v_OscStep [1097339; 2194678; 3292017; 4389356; 5486695; 6584034]
             (set_v_SynthEnable true Synth_reset) in
  (0 <= Nat.iter 1000 (fun a => osc_advance a 1097339) 0 < table_length_16_16
   /\ Nat.iter 1000 (fun a => osc_advance a 1097339) 0
      = (0 + Z.of_nat 1000 * 1097339) mod table_length_16_16)
  /\ exists s' : Synth,
       TC3_samples 1000 s = Some s'
       /\ forall (osc : nat) (angle step : Z),
            v_OscAngle s !! osc = Some angle -> v_OscStep s !! osc = Some step ->
            exists angle' : Z,
              v_OscAngle s' !! osc = Some angle'
              /\ 0 <= angle' < table_length_16_16
              /\ angle' = (angle + Z.of_nat 1000 * step) mod table_length_16_16.
Proof.
  intros s. destruct (phase_accumulator_wraps 1000) as (Hone & Hsix). split.
  - apply (Hone 0 1097339); rewrite table_length_value; lia.
  - apply (Hsix s).
    unfold isr_ready, s, table_length_16_16, REVERB_DELAY_MAX_SIZE. simpl.
    repeat split; try reflexivity; try lia; repeat constructor; lia.
Defined.

(** C9: the byte 200 is folded to note 72. *)
Lemma note_number_folded_witness :
  exists s' : Synth,
    SynthNoteChange Preset_SoundTest 200 Synth_reset = Some s'
    /\ m_NotePlaying s' = note_in_synth_range 200.
Proof.
  destruct (note_number_folded 200) as (_ & _ & _ & H & _).
  exact (H Preset_SoundTest Synth_reset Preset_SoundTest_multipliers).
Defined.

(** C10: note 60 playing; note-off for 60 and
    for 61. *)
Lemma SynthNoteOff_only_note_playing_witness :
  let s := set_m_NotePlaying 60 (SynthTriggerAttack Synth_reset) in
  (SynthNoteOff 60 s = SynthTriggerRelease s
   /\ m_TriggerRelease1 (SynthNoteOff 60 s) = true
   /\ m_TriggerRelease2 (SynthNoteOff 60 s) = true
   /\ m_TriggerReset (SynthNoteOff 60 s) = true
   /\ m_NoteOn (SynthNoteOff 60 s) = false)
  /\ SynthNoteOff 61 s = s.
Proof.
  intros s. split.
  - apply (SynthNoteOff_only_note_playing 60 s). reflexivity.
  - apply (SynthNoteOff_only_note_playing 61 s). discriminate.
Defined.
